(** * Fleet manager of rmf_demos_fleet_adapter: a shallow embedding

    This development embeds [rmf_demos_fleet_adapter/fleet_manager.py]:
    the per-robot record ([State]), the HTTP handlers registered in
    [FleetManager.__init__] ([status], [navigate], [stop],
    [start_activity], [action_paths], [toggle_teleop], [toggle_attach]),
    the two subscription callbacks ([robot_state_cb], [dock_summary_cb]),
    the handler of /gps messages with [State.gps_to_xy], the
    constructor and the read-side helper [get_robot_state].

    Python objects are mutated in place and handlers may raise half-way;
    both are modelled by a state-and-exception monad over a [World] that
    holds the manager object, the messages handed to the three
    publishers and the lines printed on the console. *)

From Stdlib Require Import ZArith List String Ascii Bool Lia.
From Stdlib Require Import DecimalString DecimalPos.
From Stdlib Require Import Floats.SpecFloat.
Import ListNotations.
Open Scope string_scope.
Open Scope Z_scope.

(** ** Python exceptions raised by the modelled code *)

Inductive exn : Type :=
| AttributeError
| TypeError
| KeyError
| IndexError
| ValueError
| OverflowError
| ZeroDivisionError
| AssertionError.

Inductive outcome (A : Type) : Type :=
| Return (a : A)
| Raise (e : exn).
Arguments Return {A} a.
Arguments Raise {A} e.

(** ** Python floats

    A Python [float] is an IEEE-754 binary64 number; the operations
    below are those of the Standard Library's executable specification
    with [prec = 53] and [emax = 1024], wrapped with the exceptions
    CPython raises. *)

Module PyFloat.

Definition float := spec_float.
Definition prec : Z := 53.
Definition emax : Z := 1024.

Definition add : float -> float -> float := SFadd prec emax.
Definition sub : float -> float -> float := SFsub prec emax.
Definition mul : float -> float -> float := SFmul prec emax.
Definition fabs : float -> float := SFabs.
Definition neg : float -> float := SFopp.
Definition ltb : float -> float -> bool := SFltb.
Definition eqb : float -> float -> bool := SFeqb.

Definition zero : float := S754_zero false.
Definition of_Z (z : Z) : float := binary_normalize prec emax z 0 false.

Definition is_zero (a : float) : bool :=
  match a with S754_zero _ => true | _ => false end.
Definition is_nan (a : float) : bool :=
  match a with S754_nan => true | _ => false end.
Definition is_inf (a : float) : bool :=
  match a with S754_infinity _ => true | _ => false end.
Definition is_finite (a : float) : bool :=
  match a with S754_zero _ | S754_finite _ _ _ => true | _ => false end.

(** [a / b]: a zero divisor raises. *)
Definition truediv (a b : float) : outcome float :=
  if is_zero b then Raise ZeroDivisionError
  else Return (SFdiv prec emax a b).

(** [a ** 2]: one rounded product; a finite operand whose square
    overflows raises (C [pow] sets [ERANGE]). *)
Definition pow2 (a : float) : outcome float :=
  let r := mul a a in
  if is_finite a && is_inf r then Raise OverflowError else Return r.

(** [math.sqrt a]: a domain error when the result is NaN and the
    argument is not. *)
Definition sqrt (a : float) : outcome float :=
  let r := SFsqrt prec emax a in
  if is_nan r && negb (is_nan a) then Raise ValueError else Return r.

(** [int(a)]: truncation toward zero; NaN and the infinities raise. *)
Definition to_int (a : float) : outcome Z :=
  match a with
  | S754_nan => Raise ValueError
  | S754_infinity _ => Raise OverflowError
  | S754_zero _ => Return 0
  | S754_finite s m e => Return (cond_Zopp s (Z.shiftl (Zpos m) e))
  end.

(** [numpy.pi], the binary64 number nearest to pi, and [2 * numpy.pi]. *)
Definition pi : float := S754_finite false 7074237752028440 (-51).
Definition two_pi : float := mul (of_Z 2) pi.

End PyFloat.
Definition float : Type := PyFloat.float.

(** ** Python strings and integers

    Strings are modelled on their ASCII range.  [str.isdigit] also
    accepts digit characters outside ASCII, and the interpreter bounds
    the length of a numeral it converts; neither is part of the model. *)

Definition is_digit (c : ascii) : bool :=
  let n := nat_of_ascii c in (48 <=? n)%nat && (n <=? 57)%nat.

Definition digit_val (c : ascii) : Z := Z.of_nat (nat_of_ascii c) - 48.

(** [s.isdigit()]: non-empty and every character a digit. *)
Fixpoint all_digits (s : string) : bool :=
  match s with
  | EmptyString => true
  | String c r => is_digit c && all_digits r
  end.

Definition isdigit (s : string) : bool :=
  match s with
  | EmptyString => false
  | _ => all_digits s
  end.

(** Truth value of a string: non-empty. *)
Definition str_truthy (s : string) : bool :=
  match s with EmptyString => false | _ => true end.

(** [str(n)] for an integer. *)
Definition py_str (n : Z) : string := NilZero.string_of_int (Z.to_int n).

Definition is_space (c : ascii) : bool :=
  let n := nat_of_ascii c in
  (n =? 32)%nat || ((9 <=? n)%nat && (n <=? 13)%nat)
  || ((28 <=? n)%nat && (n <=? 31)%nat).

Fixpoint lstrip (s : string) : string :=
  match s with
  | String c r => if is_space c then lstrip r else s
  | EmptyString => EmptyString
  end.

Fixpoint rstrip (s : string) : string :=
  match s with
  | EmptyString => EmptyString
  | String c r =>
      match rstrip r with
      | EmptyString => if is_space c then EmptyString else String c EmptyString
      | r' => String c r'
      end
  end.

(** Digits of a decimal literal after its first digit; a single
    underscore may separate two digits. *)
Fixpoint int_digits (s : string) (acc : Z) : option Z :=
  match s with
  | EmptyString => Some acc
  | String c r =>
      if is_digit c then int_digits r (10 * acc + digit_val c)
      else if Ascii.eqb c "_" then
        match r with
        | String d r' =>
            if is_digit d then int_digits r' (10 * acc + digit_val d)
            else None
        | EmptyString => None
        end
      else None
  end.

Definition int_unsigned (s : string) : option Z :=
  match s with
  | String c r => if is_digit c then int_digits r (digit_val c) else None
  | EmptyString => None
  end.

(** [int(s)] for a string: surrounding white space, an optional sign,
    decimal digits. *)
Definition py_int (s : string) : outcome Z :=
  let body := rstrip (lstrip s) in
  let parsed :=
    match body with
    | String "-" r => option_map Z.opp (int_unsigned r)
    | String "+" r => int_unsigned r
    | _ => int_unsigned body
    end in
  match parsed with
  | Some n => Return n
  | None => Raise ValueError
  end.

(** ** Python dictionaries

    A [dict] keeps its keys in insertion order and the handlers iterate
    over it, so it is an association list with unique keys. *)

Definition dict (V : Type) : Type := list (string * V).

Fixpoint dict_get {V} (d : dict V) (k : string) : option V :=
  match d with
  | [] => None
  | (k', v) :: r => if String.eqb k k' then Some v else dict_get r k
  end.

Definition dict_mem {V} (d : dict V) (k : string) : bool :=
  match dict_get d k with Some _ => true | None => false end.

(** [d[k] = v]: replaces in place, or appends a new key. *)
Fixpoint dict_set {V} (d : dict V) (k : string) (v : V) : dict V :=
  match d with
  | [] => [(k, v)]
  | (k', v') :: r =>
      if String.eqb k k' then (k', v) :: r else (k', v') :: dict_set r k v
  end.

Definition dict_keys {V} (d : dict V) : list string := map fst d.

(** ** Messages of rmf_fleet_msgs used by the manager

    The message classes are generated outside the sources; each record
    lists the fields the manager reads or writes, with the defaults of
    a freshly constructed message.  Range checks of the generated
    setters are not part of the model. *)

(** Modelled from the spec: the [RobotMode] constants of rmf_fleet_msgs
    (the message definitions are not part of the sources).  The spec
    enumerates idle, charging, moving, waiting-for-traffic,
    performing-action, action-completed and adapter-error; the field is
    an unsigned integer, so any other value is kept as [MODE_OTHER]. *)
Inductive mode_t : Type :=
| MODE_IDLE
| MODE_CHARGING
| MODE_MOVING
| MODE_WAITING
| MODE_PERFORMING_ACTION
| MODE_ACTION_COMPLETED
| MODE_ADAPTER_ERROR
| MODE_OTHER (code : N).

Definition mode_eqb (a b : mode_t) : bool :=
  match a, b with
  | MODE_IDLE, MODE_IDLE
  | MODE_CHARGING, MODE_CHARGING
  | MODE_MOVING, MODE_MOVING
  | MODE_WAITING, MODE_WAITING
  | MODE_PERFORMING_ACTION, MODE_PERFORMING_ACTION
  | MODE_ACTION_COMPLETED, MODE_ACTION_COMPLETED
  | MODE_ADAPTER_ERROR, MODE_ADAPTER_ERROR => true
  | MODE_OTHER m, MODE_OTHER n => N.eqb m n
  | _, _ => false
  end.

Record Time : Type := mkTime { sec : Z; nanosec : Z }.

Record Location : Type := mkLocation {
  t : Time;
  x : float;
  y : float;
  yaw : float;
  obey_approach_speed_limit : bool;
  approach_speed_limit : float;
  level_name : option string;
  index : Z
}.

(** [Location()]: every field at its default. *)
Definition Location_new : Location :=
  mkLocation (mkTime 0 0) PyFloat.zero PyFloat.zero PyFloat.zero
             false PyFloat.zero (Some "") 0.

Record RobotMode : Type := mkRobotMode {
  mode : mode_t;
  mode_request_id : Z;
  performing_action : string
}.

Record RobotState : Type := mkRobotState {
  name : string;
  model : string;
  task_id : string;
  seq : Z;
  rs_mode : RobotMode;
  battery_percent : float;
  location : Location;
  path : list Location
}.

Record PathRequest : Type := mkPathRequest {
  pr_fleet_name : string;
  pr_robot_name : string;
  pr_path : list Location;
  pr_task_id : string
}.

Record ModeRequest : Type := mkModeRequest {
  mr_fleet_name : string;
  mr_robot_name : string;
  mr_mode : RobotMode
}.

Record DockParameter : Type := mkDockParameter {
  start : string;
  finish : string;
  dp_path : list Location
}.

Record Dock : Type := mkDock {
  dock_fleet_name : string;
  params : list DockParameter
}.

Record DockSummary : Type := mkDockSummary { docks_of : list Dock }.

(** ** The HTTP request and response bodies *)

Record Request : Type := mkRequest {
  map_name : option string;
  activity : option string;
  label : option string;
  destination_of : option (dict float);
  speed_limit : option float;
  toggle : option bool
}.

(** An entry of the [action_paths] table of the configuration. *)
Record ActivityPath : Type := mkActivityPath {
  ap_map_name : string;
  ap_path : list (list float)
}.

Record Arrival : Type := mkArrival { arr_cmd_id : Z; duration : float }.

(** The dictionary built by [get_robot_state]. *)
Record RobotData : Type := mkRobotData {
  d_robot_name : string;
  d_map_name : option string;
  d_position : float * float * float;
  d_battery : float;
  d_destination_arrival : option Arrival;
  d_last_completed_request : option Z;
  d_replan : bool
}.

Inductive ResponseData : Type :=
| DataEmpty
| DataAllRobots (all_robots : list RobotData)
| DataRobot (r : RobotData)
| DataPath (p : ActivityPath).

Record Response : Type := mkResponse {
  data : option ResponseData;
  success : bool;
  msg : string
}.

(** ** The per-robot record ([class State]) *)

Record State : Type := mkState {
  state : option RobotState;
  destination : option Location;
  last_path_request : option PathRequest;
  last_completed_request : option Z;
  perform_action_mode : option bool;
  gps_pos : float * float
}.

(** [State()] *)
Definition State_new : State :=
  mkState None None None None (Some false) (PyFloat.zero, PyFloat.zero).

Definition set_state (r : State) (v : option RobotState) : State :=
  mkState v (destination r) (last_path_request r)
          (last_completed_request r) (perform_action_mode r) (gps_pos r).
Definition set_destination (r : State) (v : option Location) : State :=
  mkState (state r) v (last_path_request r)
          (last_completed_request r) (perform_action_mode r) (gps_pos r).
Definition set_last_path_request (r : State) (v : option PathRequest) : State :=
  mkState (state r) (destination r) v
          (last_completed_request r) (perform_action_mode r) (gps_pos r).
Definition set_last_completed_request (r : State) (v : option Z) : State :=
  mkState (state r) (destination r) (last_path_request r)
          v (perform_action_mode r) (gps_pos r).
Definition set_perform_action_mode (r : State) (v : option bool) : State :=
  mkState (state r) (destination r) (last_path_request r)
          (last_completed_request r) v (gps_pos r).

(** Truth value of an optional boolean ([None] is false). *)
Definition truthy (b : option bool) : bool :=
  match b with Some true => true | _ => false end.

(** [State.is_expected_task_id] *)
Definition is_expected_task_id (self : State) (tid : string) : bool :=
  match last_path_request self with
  | Some req => if negb (String.eqb tid (pr_task_id req)) then false else true
  | None => true
  end.

(** ** The manager object ([class FleetManager]) *)

Record Limits : Type := mkLimits {
  nominal_velocity : float;
  nominal_acceleration : float
}.

Record VehicleTraits : Type := mkVehicleTraits {
  linear : Limits;
  rotational : Limits
}.

(** [offset] holds the first two entries of the configured reference
    offset ([[0, 0]] unless the configuration supplies more than one
    entry).  [docks] is [None] while the attribute does not exist. *)
Record FleetManager : Type := mkFleetManager {
  debug : bool;
  fleet_name : string;
  ignore_speed_limit : bool;
  gps : bool;
  offset : float * float;
  robots : dict State;
  action_paths : dict (dict ActivityPath);
  docks : option (dict (list Location));
  vehicle_traits : VehicleTraits
}.

Definition set_robots (fm : FleetManager) (v : dict State) : FleetManager :=
  mkFleetManager (debug fm) (fleet_name fm) (ignore_speed_limit fm) (gps fm)
                 (offset fm) v (action_paths fm) (docks fm) (vehicle_traits fm).
Definition set_docks (fm : FleetManager) (v : option (dict (list Location)))
  : FleetManager :=
  mkFleetManager (debug fm) (fleet_name fm) (ignore_speed_limit fm) (gps fm)
                 (offset fm) (robots fm) (action_paths fm) v (vehicle_traits fm).

(** The part of the configuration file read by the constructor. *)
Record Config : Type := mkConfig {
  cfg_name : string;
  cfg_robots : list string;
  cfg_ignore_speed_limit : option bool;
  cfg_reference_offset : option (list float);
  cfg_action_paths : option (dict (dict ActivityPath));
  cfg_linear : Limits;
  cfg_angular : Limits
}.

(** [FleetManager.__init__], up to the registration of the handlers:
    one fresh [State] per configured robot, an asserted non-empty
    roster; no [docks] attribute is created. *)
Definition FleetManager_init (config : Config) : outcome FleetManager :=
  let '(g, off) :=
    match cfg_reference_offset config with
    | Some (a :: b :: _) => (true, (a, b))
    | _ => (false, (PyFloat.zero, PyFloat.zero))
    end in
  let robots :=
    fold_left (fun d n => dict_set d n State_new) (cfg_robots config) [] in
  if negb (0 <? Z.of_nat (List.length robots)) then Raise AssertionError else
  Return
    (mkFleetManager
       false
       (cfg_name config)
       (match cfg_ignore_speed_limit config with
        | Some b => b
        | None => false
        end)
       g off
       robots
       (match cfg_action_paths config with Some a => a | None => [] end)
       None
       (mkVehicleTraits (cfg_linear config) (cfg_angular config))).

(** ** Observable effects and the handler monad *)

(** What a handler does besides mutating the manager: a message handed
    to one of the three publishers ([path_pub] on robot_path_requests,
    [mode_pub] on robot_mode_requests, [action_completed_pub] on
    action_execution_notice), a line printed under [debug], or a line
    sent to the node's logger. *)
Inductive Effect : Type :=
| path_pub (m : PathRequest)
| mode_pub (m : ModeRequest)
| action_completed_pub (m : ModeRequest)
| print (line : string)
| log_info (line : string).

Definition is_publication (e : Effect) : bool :=
  match e with
  | path_pub _ | mode_pub _ | action_completed_pub _ => true
  | _ => false
  end.

(** Effects are kept oldest first. *)
Record World : Type := mkWorld {
  mgr : FleetManager;
  effects : list Effect
}.

Definition published (w : World) : list Effect :=
  filter is_publication (effects w).

Definition M (A : Type) : Type := World -> outcome A * World.

Definition ret {A} (a : A) : M A := fun w => (Return a, w).
Definition raise {A} (e : exn) : M A := fun w => (Raise e, w).
Definition bind {A B} (c : M A) (k : A -> M B) : M B :=
  fun w =>
    match c w with
    | (Return a, w') => k a w'
    | (Raise e, w') => (Raise e, w')
    end.

Notation "v <- c ;; k" := (bind c (fun v => k))
  (at level 61, c at next level, right associativity).
Notation "c ;;; k" := (bind c (fun _ => k))
  (at level 61, right associativity).

Definition lift {A} (o : outcome A) : M A := fun w => (o, w).
Definition get_mgr : M FleetManager := fun w => (Return (mgr w), w).
Definition put_mgr (fm : FleetManager) : M unit :=
  fun w => (Return tt, mkWorld fm (effects w)).
Definition emit (e : Effect) : M unit :=
  fun w => (Return tt, mkWorld (mgr w) (effects w ++ [e])).
Definition when (b : bool) (c : M unit) : M unit := if b then c else ret tt.

(** [d[k]] *)
Definition getitem {V} (d : dict V) (k : string) : M V :=
  match dict_get d k with
  | Some v => ret v
  | None => raise KeyError
  end.

(** [l[i]] on a list *)
Definition getindex {V} (l : list V) (i : nat) : M V :=
  match nth_error l i with
  | Some v => ret v
  | None => raise IndexError
  end.

(** [o.attr] where [o] may be [None] *)
Definition attr_of {O V} (o : option O) (f : O -> V) : M V :=
  match o with
  | Some v => ret (f v)
  | None => raise AttributeError
  end.

(** An attribute assignment on the record object stored under [rname]. *)
Definition modify_robot (rname : string) (f : State -> State) : M unit :=
  self <- get_mgr ;;
  r <- getitem (robots self) rname ;;
  put_mgr (set_robots self (dict_set (robots self) rname (f r))).

(** ** FleetManager.disp and FleetManager._make_mode_request *)

Definition disp (A B : float * float) : M float :=
  dx <- lift (PyFloat.pow2 (PyFloat.sub (fst A) (fst B))) ;;
  dy <- lift (PyFloat.pow2 (PyFloat.sub (snd A) (snd B))) ;;
  lift (PyFloat.sqrt (PyFloat.add dx dy)).

Definition _make_mode_request (self : FleetManager) (robot_name : string)
    (cmd_id : Z) (md : mode_t) (action : string) : ModeRequest :=
  mkModeRequest (fleet_name self) robot_name (mkRobotMode md cmd_id action).

(** ** The handlers registered in FleetManager.__init__ *)

Definition failure : Response := mkResponse None false "".

(** POST /open-rmf/rmf_demos_fm/navigate/ ; [now] is the reading of the
    node's clock. *)
Definition navigate (robot_name : string) (cmd_id : Z) (dest : Request)
    (now : Time) : M Response :=
  self <- get_mgr ;;
  if negb (dict_mem (robots self) robot_name) then ret failure else
  match destination_of dest with
  | None => raise TypeError
  | Some d =>
  if Z.of_nat (List.length d) <? 1 then ret failure else
  robot <- getitem (robots self) robot_name ;;
  target_x <- getitem d "x" ;;
  target_y <- getitem d "y" ;;
  target_yaw <- getitem d "yaw" ;;
  let target_map := map_name dest in
  let target_speed_limit :=
    if ignore_speed_limit self then None else speed_limit dest in
  let target_x := PyFloat.sub target_x (fst (offset self)) in
  let target_y := PyFloat.sub target_y (snd (offset self)) in
  robot <- getitem (robots self) robot_name ;;
  cur_loc <- attr_of (state robot) location ;;
  let cur_x := x cur_loc in
  let cur_y := y cur_loc in
  let cur_yaw := yaw cur_loc in
  dsp <- disp (target_x, target_y) (cur_x, cur_y) ;;
  q1 <- lift (PyFloat.truediv dsp
                (nominal_velocity (linear (vehicle_traits self)))) ;;
  n1 <- lift (PyFloat.to_int q1) ;;
  q2 <- lift (PyFloat.truediv
                (PyFloat.fabs (PyFloat.sub (PyFloat.fabs cur_yaw)
                                           (PyFloat.fabs target_yaw)))
                (nominal_velocity (rotational (vehicle_traits self)))) ;;
  n2 <- lift (PyFloat.to_int q2) ;;
  let duration := n1 + n2 in
  let t := mkTime (sec now + duration) (nanosec now) in
  let target_loc :=
    match target_speed_limit with
    | Some lim =>
        if PyFloat.ltb PyFloat.zero lim
        then mkLocation t target_x target_y target_yaw true lim target_map 0
        else mkLocation t target_x target_y target_yaw false PyFloat.zero
                        target_map 0
    | None => mkLocation t target_x target_y target_yaw false PyFloat.zero
                         target_map 0
    end in
  let path_request :=
    mkPathRequest (fleet_name self) robot_name [cur_loc; target_loc]
                  (py_str cmd_id) in
  emit (path_pub path_request) ;;;
  when (debug self)
    (emit (print ("Sending navigate request for " ++ robot_name ++ ": "
                  ++ py_str cmd_id))) ;;;
  modify_robot robot_name
    (fun r => set_last_path_request r (Some path_request)) ;;;
  modify_robot robot_name
    (fun r => set_destination r (Some target_loc)) ;;;
  ret (mkResponse None true "")
  end.

(** GET /open-rmf/rmf_demos_fm/stop_robot/ *)
Definition stop (robot_name : string) (running_cmd_id stop_cmd_id : Z)
  : M Response :=
  self <- get_mgr ;;
  if negb (dict_mem (robots self) robot_name) then ret failure else
  robot <- getitem (robots self) robot_name ;;
  loc1 <- attr_of (state robot) location ;;
  loc2 <- attr_of (state robot) location ;;
  let path_request :=
    mkPathRequest (fleet_name self) robot_name [loc1; loc2]
                  (py_str stop_cmd_id) in
  emit (path_pub path_request) ;;;
  when (debug self)
    (emit (print ("Sending stop request for " ++ robot_name ++ ": "
                  ++ py_str running_cmd_id))) ;;;
  modify_robot robot_name
    (fun r => set_last_path_request r (Some path_request)) ;;;
  modify_robot robot_name (fun r => set_destination r None) ;;;
  ret (mkResponse None true "").

(** The loop of [start_activity] over the way points of the activity:
    returns the way points appended to the request and the last
    [target_loc] built (the one passed in when the loop body never
    runs). *)
Fixpoint activity_waypoints (wps : list (list float)) (lvl : string)
    (target_loc : Location) : M (list Location * Location) :=
  match wps with
  | [] => ret ([], target_loc)
  | wp :: rest =>
      wx <- getindex wp 0 ;;
      wy <- getindex wp 1 ;;
      wyaw <- getindex wp 2 ;;
      let loc := mkLocation (mkTime 0 0) wx wy wyaw false PyFloat.zero
                            (Some lvl) 0 in
      r <- activity_waypoints rest lvl loc ;;
      ret (loc :: fst r, snd r)
  end.

Definition opt_str (o : option string) : string :=
  match o with Some v => v | None => "None" end.

(** POST /open-rmf/rmf_demos_fm/start_activity/ *)
Definition start_activity (robot_name : string) (cmd_id : Z)
    (request : Request) : M Response :=
  self <- get_mgr ;;
  if negb (dict_mem (robots self) robot_name) then ret failure else
  match activity request with
  | None => ret failure
  | Some act =>
  match dict_get (action_paths self) act with
  | None => ret failure
  | Some labels =>
  match label request with
  | None => ret failure
  | Some lab =>
  if negb (dict_mem labels lab) then ret failure else
  if negb (dict_mem (robots self) robot_name) then ret failure else
  robot <- getitem (robots self) robot_name ;;
  cur_loc <- attr_of (state robot) location ;;
  activity_path <- getitem labels lab ;;
  let map_name := ap_map_name activity_path in
  r <- activity_waypoints (ap_path activity_path) map_name Location_new ;;
  let target_loc := snd r in
  let path_request :=
    mkPathRequest (fleet_name self) robot_name (cur_loc :: fst r)
                  (py_str cmd_id) in
  emit (path_pub path_request) ;;;
  when (debug self)
    (emit (print ("Sending [" ++ opt_str (activity request) ++ "] at ["
                  ++ opt_str (label request) ++ "] request for "
                  ++ robot_name ++ ": " ++ py_str cmd_id))) ;;;
  modify_robot robot_name
    (fun r => set_last_path_request r (Some path_request)) ;;;
  modify_robot robot_name
    (fun r => set_destination r (Some target_loc)) ;;;
  ret (mkResponse (Some (DataPath activity_path)) true "")
  end end end.

(** POST /open-rmf/rmf_demos_fm/toggle_teleop/ *)
Definition toggle_teleop (robot_name : string) (md : Request) : M Response :=
  self <- get_mgr ;;
  if negb (dict_mem (robots self) robot_name) then ret failure else
  modify_robot robot_name
    (fun r => set_perform_action_mode r (toggle md)) ;;;
  ret (mkResponse None true "").

(** POST /open-rmf/rmf_demos_fm/toggle_attach/ *)
Definition toggle_attach (robot_name : string) (cmd_id : Z) (md : Request)
  : M Response :=
  self <- get_mgr ;;
  if negb (dict_mem (robots self) robot_name) then ret failure else
  m <- (if truthy (toggle md) then
          emit (log_info "Publishing attaching mode...") ;;;
          ret (_make_mode_request self robot_name cmd_id
                 MODE_PERFORMING_ACTION "attach_cart")
        else
          emit (log_info "Publishing detaching mode...") ;;;
          ret (_make_mode_request self robot_name cmd_id
                 MODE_PERFORMING_ACTION "detach_cart")) ;;
  emit (mode_pub m) ;;;
  ret (mkResponse None true "").

(** ** FleetManager.robot_state_cb *)

Definition robot_state_cb (msg : RobotState) : M unit :=
  self <- get_mgr ;;
  if dict_mem (robots self) (name msg) then
    robot <- getitem (robots self) (name msg) ;;
    if negb (is_expected_task_id robot (task_id msg))
       && negb (truthy (perform_action_mode robot))
    then
      match last_path_request robot with
      | Some req =>
          when (debug self)
            (emit (print ("Republishing task request for " ++ name msg
                          ++ ": " ++ pr_task_id req
                          ++ ", because it is currently following "
                          ++ task_id msg))) ;;;
          emit (path_pub req)
      | None => ret tt
      end
    else
      modify_robot (name msg) (fun r => set_state r (Some msg)) ;;;
      completed_request <-
        (if (mode_eqb (mode (rs_mode msg)) MODE_IDLE
             || mode_eqb (mode (rs_mode msg)) MODE_CHARGING)
            && (Z.of_nat (List.length (path msg)) =? 0)
            && str_truthy (task_id msg)
            && isdigit (task_id msg)
         then
           modify_robot (name msg) (fun r => set_destination r None) ;;;
           n <- lift (py_int (task_id msg)) ;;
           ret (Some n)
         else ret None) ;;
      match completed_request with
      | Some n =>
          self' <- get_mgr ;;
          robot <- getitem (robots self') (name msg) ;;
          when (match last_completed_request robot with
                | Some m => negb (m =? n)
                | None => true
                end)
            (when (debug self)
               (emit (print ("Detecting completed request for " ++ name msg
                             ++ ": " ++ py_str n)))) ;;;
          modify_robot (name msg)
            (fun r => set_last_completed_request r (Some n))
      | None => ret tt
      end
  else ret tt.

(** ** FleetManager.dock_summary_cb *)

Fixpoint dock_summary_params (ps : list DockParameter) : M unit :=
  match ps with
  | [] => ret tt
  | dock :: rest =>
      self <- get_mgr ;;
      match docks self with
      | None => raise AttributeError
      | Some d =>
          put_mgr (set_docks self
                     (Some (dict_set d (start dock) (dp_path dock)))) ;;;
          dock_summary_params rest
      end
  end.

Fixpoint dock_summary_fleets (fs : list Dock) : M unit :=
  match fs with
  | [] => ret tt
  | fleet :: rest =>
      self <- get_mgr ;;
      (if String.eqb (dock_fleet_name fleet) (fleet_name self)
       then dock_summary_params (params fleet)
       else ret tt) ;;;
      dock_summary_fleets rest
  end.

Definition dock_summary_cb (msg : DockSummary) : M unit :=
  dock_summary_fleets (docks_of msg).

(** ** FleetManager.get_robot_state *)

Definition arrival_estimate (self : FleetManager) (position : float * float)
    (angle : float) (dst : Location) (req : PathRequest) : M Arrival :=
  let position :=
    if gps self
    then (PyFloat.sub (fst position) (fst (offset self)),
          PyFloat.sub (snd position) (snd (offset self)))
    else position in
  dist_to_target <- disp position (x dst, y dst) ;;
  let ori_delta :=
    PyFloat.fabs (PyFloat.sub (PyFloat.fabs angle) (PyFloat.fabs (yaw dst))) in
  let ori_delta :=
    if PyFloat.ltb PyFloat.pi ori_delta
    then PyFloat.sub ori_delta PyFloat.two_pi else ori_delta in
  let ori_delta :=
    if PyFloat.ltb ori_delta (PyFloat.neg PyFloat.pi)
    then PyFloat.add PyFloat.two_pi ori_delta else ori_delta in
  q1 <- lift (PyFloat.truediv dist_to_target
                (nominal_velocity (linear (vehicle_traits self)))) ;;
  q2 <- lift (PyFloat.truediv ori_delta
                (nominal_velocity (rotational (vehicle_traits self)))) ;;
  let duration := PyFloat.add q1 q2 in
  cmd_id <- lift (py_int (pr_task_id req)) ;;
  ret (mkArrival cmd_id duration).

Definition is_replan_mode (m : mode_t) : bool :=
  mode_eqb m MODE_WAITING || mode_eqb m MODE_ADAPTER_ERROR.

Definition get_robot_state (robot : State) (robot_name : string)
  : M RobotData :=
  self <- get_mgr ;;
  position <-
    (if gps self then ret (gps_pos robot)
     else
       px <- attr_of (state robot) (fun s => x (location s)) ;;
       py <- attr_of (state robot) (fun s => y (location s)) ;;
       ret (px, py)) ;;
  angle <- attr_of (state robot) (fun s => yaw (location s)) ;;
  lvl <- attr_of (state robot) (fun s => level_name (location s)) ;;
  battery <- attr_of (state robot) battery_percent ;;
  destination_arrival <-
    match destination robot, last_path_request robot with
    | Some dst, Some req =>
        a <- arrival_estimate self position angle dst req ;;
        ret (Some a)
    | _, _ => ret None
    end ;;
  md <- attr_of (state robot) (fun s => mode (rs_mode s)) ;;
  let replan := if is_replan_mode md then true else false in
  when (mode_eqb md MODE_ACTION_COMPLETED)
    (emit (log_info ("Robot [" ++ robot_name
                     ++ " completed performing its action")) ;;;
     let m := _make_mode_request self robot_name 0 MODE_IDLE "" in
     emit (action_completed_pub m) ;;;
     emit (mode_pub m)) ;;;
  ret (mkRobotData robot_name lvl (fst position, snd position, angle) battery
                   destination_arrival (last_completed_request robot) replan).

(** ** GET /open-rmf/rmf_demos_fm/status/ *)

(** The loop of [status] over the roster; [acc] is the list built so
    far, which an early return leaves in the response. *)
Fixpoint status_all (names : list string) (acc : list RobotData)
  : M Response :=
  match names with
  | [] => ret (mkResponse (Some (DataAllRobots acc)) true "")
  | robot_name :: rest =>
      self <- get_mgr ;;
      match dict_get (robots self) robot_name with
      | None => ret (mkResponse (Some (DataAllRobots acc)) false "")
      | Some st =>
          match state st with
          | None => ret (mkResponse (Some (DataAllRobots acc)) false "")
          | Some _ =>
              d <- get_robot_state st robot_name ;;
              status_all rest (acc ++ [d])
          end
      end
  end.

Definition status (robot_name : option string) : M Response :=
  self <- get_mgr ;;
  match robot_name with
  | None => status_all (dict_keys (robots self)) []
  | Some rn =>
      match dict_get (robots self) rn with
      | None => ret (mkResponse (Some DataEmpty) false "")
      | Some st =>
          match state st with
          | None => ret (mkResponse (Some DataEmpty) false "")
          | Some _ =>
              d <- get_robot_state st rn ;;
              ret (mkResponse (Some (DataRobot d)) true "")
          end
      end
  end.

(** ** GET /open-rmf/rmf_demos_fm/action_paths/ *)



(** ** The /gps messages and State.gps_to_xy *)

(** The object [json.loads] yields for a /gps message: a robot id and a
    geodetic position, each possibly missing. *)
Record GpsMessage : Type := mkGpsMessage {
  robot_id : option string;
  lat : option float;
  lon : option float
}.

Definition set_gps_pos (r : State) (v : float * float) : State :=
  mkState (state r) (destination r) (last_path_request r)
          (last_completed_request r) (perform_action_mode r) v.

(** [o['key']] for a field that may be missing. *)
Definition field {V} (o : option V) : M V :=
  match o with
  | Some v => ret v
  | None => raise KeyError
  end.

(** [try: c except KeyError: h] *)
Definition try_except_KeyError (c h : M unit) : M unit :=
  fun w =>
    match c w with
    | (Raise KeyError, w') => h w'
    | r => r
    end.

Section Gps.

(** [Transformer.from_crs('EPSG:4326', 'EPSG:3414').transform] of
    pyproj, and the text of a [KeyError] raised for a key. *)
Variable svy_transform : float -> float -> float * float.
Variable KeyError_text : string -> string.

(** [State.gps_to_xy] on the record stored under [rn]. *)
Definition gps_to_xy (rn : string) (gps_json : GpsMessage) : M unit :=
  la <- field (lat gps_json) ;;
  lo <- field (lon gps_json) ;;
  let svy21_xy := svy_transform la lo in
  modify_robot rn
    (fun r => set_gps_pos r (snd svy21_xy, snd (gps_pos r))) ;;;
  modify_robot rn
    (fun r => set_gps_pos r (fst (gps_pos r), fst svy21_xy)).

(** The key whose lookup fails first in the handler, if any. *)
Definition missing_key (self : FleetManager) (robot : GpsMessage)
  : option string :=
  match robot_id robot with
  | None => Some "robot_id"
  | Some robot_name =>
      if negb (dict_mem (robots self) robot_name) then Some robot_name
      else match lat robot, lon robot with
           | None, _ => Some "lat"
           | Some _, None => Some "lon"
           | Some _, Some _ => None
           end
  end.

(** The handler registered on /gps, applied to the decoded message. *)
Definition gps_message (robot : GpsMessage) : M unit :=
  self <- get_mgr ;;
  try_except_KeyError
    (robot_name <- field (robot_id robot) ;;
     _ <- getitem (robots self) robot_name ;;
     gps_to_xy robot_name robot)
    (emit (log_info
             ("Malformed GPS Message!: "
              ++ match missing_key self robot with
                 | Some k => KeyError_text k
                 | None => ""
                 end))).

End Gps.

(** ** Running a handler *)

Definition world0 (fm : FleetManager) : World := mkWorld fm [].

Definition result {A} (c : M A) (w : World) : outcome A := fst (c w).
Definition after {A} (c : M A) (w : World) : World := snd (c w).
Definition robot_of (w : World) (rname : string) : option State :=
  dict_get (robots (mgr w)) rname.

(** * Vocabulary of the properties *)

(** ** A sample fleet for the closed examples *)

Module Sample.

Definition F (z : Z) : float := PyFloat.of_Z z.

Definition limits : Limits := mkLimits (F 1) (F 1).

Definition config : Config :=
  mkConfig "tinyRobot" ["tinyRobot1"; "tinyRobot2"] None None None
           limits limits.

Definition fm0 : FleetManager :=
  mkFleetManager false "tinyRobot" false false
    (PyFloat.zero, PyFloat.zero)
    [("tinyRobot1", State_new); ("tinyRobot2", State_new)]
    [] None (mkVehicleTraits limits limits).

Definition loc (a b c : Z) : Location :=
  mkLocation (mkTime 0 0) (F a) (F b) (F c) false PyFloat.zero
             (Some "L1") 0.

(** A report of [rn] at [l] with correlation id [tid] and mode [m]. *)
Definition report (rn tid : string) (m : mode_t) (l : Location)
  : RobotState :=
  mkRobotState rn "" tid 0 (mkRobotMode m 0 "") (F 1) l [].

(** A navigate body with target [(a, b, c)] on level L1. *)
Definition goal (a b c : Z) : Request :=
  mkRequest (Some "L1") None None
            (Some [("x", F a); ("y", F b); ("yaw", F c)]) None None.

Definition noon : Time := mkTime 100 0.

(** The record stored under [rn], or a fresh one. *)
Definition record (w : World) (rn : string) : State :=
  match robot_of w rn with Some r => r | None => State_new end.

(** The last command recorded for [rn], or an empty request. *)
Definition command (w : World) (rn : string) : PathRequest :=
  match last_path_request (record w rn) with
  | Some req => req
  | None => mkPathRequest "" "" [] ""
  end.

(** The destination recorded for [rn], or a default location. *)
Definition target (w : World) (rn : string) : Location :=
  match destination (record w rn) with
  | Some l => l
  | None => Location_new
  end.

(** The fleet after tinyRobot1 sent its first report from (1, 2). *)
Definition w_reported : World :=
  after (robot_state_cb (report "tinyRobot1" "" MODE_IDLE (loc 1 2 0)))
        (world0 fm0).

(** ... and was then sent to (4, 6) under correlation id 5. *)
Definition w_commanded : World :=
  after (navigate "tinyRobot1" 5 (goal 4 6 0) noon) w_reported.

End Sample.

(** ** Reports *)

(** The check of [robot_state_cb] that lets a report through. *)
Definition accepted (r : State) (msg : RobotState) : bool :=
  negb (negb (is_expected_task_id r (task_id msg))
        && negb (truthy (perform_action_mode r))).

(** The number a string of decimal digits denotes. *)
Fixpoint digits_value_from (s : string) (acc : Z) : Z :=
  match s with
  | EmptyString => acc
  | String c r => digits_value_from r (10 * acc + digit_val c)
  end.

Definition digits_value (s : string) : Z := digits_value_from s 0.

(** The completion test of [robot_state_cb]. *)
Definition completes (msg : RobotState) : bool :=
  (mode_eqb (mode (rs_mode msg)) MODE_IDLE
   || mode_eqb (mode (rs_mode msg)) MODE_CHARGING)
  && (Z.of_nat (List.length (path msg)) =? 0)
  && str_truthy (task_id msg)
  && isdigit (task_id msg).

(** [o != n] for an optional integer [o]. *)
Definition differs (o : option Z) (n : Z) : bool :=
  match o with Some m => negb (m =? n) | None => true end.

(** ** Dispatching and reading *)

(** [disp] as a function of its arguments alone. *)
Definition disp_value (A B : float * float) : outcome float :=
  match PyFloat.pow2 (PyFloat.sub (fst A) (fst B)) with
  | Raise e => Raise e
  | Return dx =>
      match PyFloat.pow2 (PyFloat.sub (snd A) (snd B)) with
      | Raise e => Raise e
      | Return dy => PyFloat.sqrt (PyFloat.add dx dy)
      end
  end.

(** Either the handler stops early (an exception or the unsuccessful
    response) and the world is untouched, or it publishes one path
    request with the caller's correlation id and records it, with its
    last way point as destination, in the robot's record. *)
Definition dispatched (w : World) (rn : string) (cmd : Z)
    (o : outcome Response) (w' : World) : Prop :=
  (w' = w /\ forall resp, o = Return resp -> success resp = false) \/
  (exists r req loc dat,
      robot_of w rn = Some r /\
      pr_task_id req = py_str cmd /\
      o = Return (mkResponse dat true "") /\
      mgr w' = set_robots (mgr w)
                 (dict_set (robots (mgr w)) rn
                    (mkState (state r) (Some loc) (Some req)
                             (last_completed_request r)
                             (perform_action_mode r) (gps_pos r))) /\
      exists line,
        effects w' = (effects w ++ path_pub req
                        :: (if debug (mgr w) then [print line] else []))%list).

(** The outcome of [arrival_estimate], which reads its arguments only. *)
Definition arrival_outcome (self : FleetManager) (position : float * float)
    (angle : float) (dst : Location) (req : PathRequest) : outcome Arrival :=
  result (arrival_estimate self position angle dst req) (world0 self).

(** The position [get_robot_state] starts from. *)
Definition read_position (self : FleetManager) (robot : State)
    (s : RobotState) : float * float :=
  if gps self then gps_pos robot else (x (location s), y (location s)).

(** The [destination_arrival] entry computed by [get_robot_state]. *)
Definition read_arrival (self : FleetManager) (robot : State)
    (s : RobotState) : outcome (option Arrival) :=
  match destination robot, last_path_request robot with
  | Some dst, Some req =>
      match arrival_outcome self (read_position self robot s)
                            (yaw (location s)) dst req with
      | Return a => Return (Some a)
      | Raise e => Raise e
      end
  | _, _ => Return None
  end.

Definition read_data (self : FleetManager) (robot : State) (s : RobotState)
    (robot_name : string) (da : option Arrival) : RobotData :=
  mkRobotData robot_name (level_name (location s))
    (fst (read_position self robot s), snd (read_position self robot s),
     yaw (location s))
    (battery_percent s) da (last_completed_request robot)
    (is_replan_mode (mode (rs_mode s))).

(** What [get_robot_state] emits for a robot whose reported mode is
    action-completed. *)
Definition action_completed_effects (self : FleetManager)
    (robot_name : string) : list Effect :=
  [log_info ("Robot [" ++ robot_name ++ " completed performing its action");
   action_completed_pub (_make_mode_request self robot_name 0 MODE_IDLE "");
   mode_pub (_make_mode_request self robot_name 0 MODE_IDLE "")].

(** A resent path request or a printed line. *)
Definition resend_or_print (e : Effect) : bool :=
  match e with
  | path_pub _ | print _ => true
  | _ => false
  end.

(** Does the summary hold a parameter of a dock of fleet [fname]? *)
Definition has_own_dock (fname : string) (msg : DockSummary) : bool :=
  existsb (fun fleet =>
             String.eqb (dock_fleet_name fleet) fname
             && negb (Nat.eqb (List.length (params fleet)) 0))
          (docks_of msg).





(** ** Histories *)

(** What reaches the manager: a message on one of its two
    subscriptions, or a call of one of its HTTP handlers. *)
Inductive Event : Type :=
| Report (msg : RobotState)
| Docks (msg : DockSummary)
| GetStatus (robot_name : option string)
| Navigate (robot_name : string) (cmd_id : Z) (dest : Request) (now : Time)
| Stop (robot_name : string) (running_cmd_id stop_cmd_id : Z)
| StartActivity (robot_name : string) (cmd_id : Z) (request : Request)
| ToggleTeleop (robot_name : string) (md : Request)
| ToggleAttach (robot_name : string) (cmd_id : Z) (md : Request).

(** The world after the handler of [e] ran (to its end or to the
    exception it raised). *)
Definition step (w : World) (e : Event) : World :=
  match e with
  | Report m => after (robot_state_cb m) w
  | Docks m => after (dock_summary_cb m) w
  | GetStatus o => after (status o) w
  | Navigate n c d now => after (navigate n c d now) w
  | Stop n a b => after (stop n a b) w
  | StartActivity n c r => after (start_activity n c r) w
  | ToggleTeleop n m => after (toggle_teleop n m) w
  | ToggleAttach n c m => after (toggle_attach n c m) w
  end.

Definition run (es : list Event) (w : World) : World := fold_left step es w.

(** Does [e] send a path request to robot [rn]? *)
Definition commands (rn : string) (e : Event) : bool :=
  match e with
  | Navigate n _ _ _ | Stop n _ _ | StartActivity n _ _ => String.eqb n rn
  | _ => false
  end.

Definition never_commanded (rn : string) (es : list Event) : bool :=
  forallb (fun e => negb (commands rn e)) es.

(** No report of [rn] in [es] has mode waiting or adapter-error. *)
Definition quiet (rn : string) (es : list Event) : bool :=
  forallb (fun e =>
             match e with
             | Report m =>
                 negb (String.eqb (name m) rn
                       && is_replan_mode (mode (rs_mode m)))
             | _ => true
             end) es.

(** A report of [rn] satisfies [P]. *)
Definition respects (rn : string) (P : RobotState -> Prop) (e : Event)
  : Prop :=
  match e with
  | Report m => name m = rn -> P m
  | _ => True
  end.

(** The record of [rn], if any, has no destination and no last
    command, and its reported state satisfies [P]. *)
Definition untouched (rn : string) (P : RobotState -> Prop) (w : World)
  : Prop :=
  forall r, robot_of w rn = Some r ->
            destination r = None /\ last_path_request r = None /\
            forall s, state r = Some s -> P s.

(** ** Numerals and the arrival estimate *)

(** The number a big-endian decimal numeral denotes, continuing [acc]. *)
Fixpoint uint_value_from (d : Decimal.uint) (acc : Z) : Z :=
  match d with
  | Decimal.Nil => acc
  | Decimal.D0 d => uint_value_from d (10 * acc + 0)
  | Decimal.D1 d => uint_value_from d (10 * acc + 1)
  | Decimal.D2 d => uint_value_from d (10 * acc + 2)
  | Decimal.D3 d => uint_value_from d (10 * acc + 3)
  | Decimal.D4 d => uint_value_from d (10 * acc + 4)
  | Decimal.D5 d => uint_value_from d (10 * acc + 5)
  | Decimal.D6 d => uint_value_from d (10 * acc + 6)
  | Decimal.D7 d => uint_value_from d (10 * acc + 7)
  | Decimal.D8 d => uint_value_from d (10 * acc + 8)
  | Decimal.D9 d => uint_value_from d (10 * acc + 9)
  end.

(** A divisor that is neither zero nor NaN. *)
Definition usable_velocity (v : float) : bool :=
  negb (PyFloat.is_zero v) && negb (PyFloat.is_nan v).

(** The position the arrival estimate is computed from. *)
Definition arrival_position (self : FleetManager) (position : float * float)
  : float * float :=
  if gps self
  then (PyFloat.sub (fst position) (fst (offset self)),
        PyFloat.sub (snd position) (snd (offset self)))
  else position.

(** The sample fleet configured with the geodetic reference offset
    (10, 10): tinyRobot1 reports from (1, 2) and is sent to the target
    (11, 12), which the dispatcher stores as the destination (1, 2). *)
Definition geodetic_world : World :=
  let config :=
    mkConfig "tinyRobot" ["tinyRobot1"; "tinyRobot2"] None
             (Some [Sample.F 10; Sample.F 10]) None
             Sample.limits Sample.limits in
  match FleetManager_init config with
  | Return fm =>
      run [Report (Sample.report "tinyRobot1" "" MODE_IDLE (Sample.loc 1 2 0));
           Navigate "tinyRobot1" 5 (Sample.goal 11 12 0) Sample.noon]
          (world0 fm)
  | Raise _ => world0 Sample.fm0
  end.

(** ** Further vocabulary *)

(** The request [stop] builds for a robot whose stored report is [s]. *)
Definition stop_request (self : FleetManager) (rn : string) (s : RobotState)
    (stop_cmd_id : Z) : PathRequest :=
  mkPathRequest (fleet_name self) rn [location s; location s]
                (py_str stop_cmd_id).

(** [obind] and [oget]: sequencing and key lookup for computations that
    only read. *)
Definition obind {A B} (o : outcome A) (k : A -> outcome B) : outcome B :=
  match o with
  | Return a => k a
  | Raise e => Raise e
  end.

Definition oget {V} (d : dict V) (k : string) : outcome V :=
  match dict_get d k with
  | Some v => Return v
  | None => Raise KeyError
  end.

(** The travel time, in whole seconds, that [navigate] adds to the
    clock reading: straight-line time plus turn time, each truncated. *)
Definition navigate_duration (self : FleetManager) (target : float * float)
    (target_yaw : float) (cur : Location) : outcome Z :=
  obind (disp_value target (x cur, y cur)) (fun dsp =>
  obind (PyFloat.truediv dsp
           (nominal_velocity (linear (vehicle_traits self)))) (fun q1 =>
  obind (PyFloat.to_int q1) (fun n1 =>
  obind (PyFloat.truediv
           (PyFloat.fabs (PyFloat.sub (PyFloat.fabs (yaw cur))
                                      (PyFloat.fabs target_yaw)))
           (nominal_velocity (rotational (vehicle_traits self)))) (fun q2 =>
  obind (PyFloat.to_int q2) (fun n2 =>
  Return (n1 + n2)))))).

(** The speed limit [navigate] attaches to the target, if any. *)
Definition approach_limit (self : FleetManager) (dest : Request)
  : option float :=
  match (if ignore_speed_limit self then None else speed_limit dest) with
  | Some lim => if PyFloat.ltb PyFloat.zero lim then Some lim else None
  | None => None
  end.

(** What [navigate] decides for a robot of the roster whose stored
    report is [st]: an exception, the unsuccessful response ([None]),
    or the two way points of the request it sends. *)
Definition navigate_plan (self : FleetManager) (dest : Request) (now : Time)
    (st : option RobotState) : outcome (option (Location * Location)) :=
  match destination_of dest with
  | None => Raise TypeError
  | Some d =>
      if Z.of_nat (List.length d) <? 1 then Return None else
      obind (oget d "x") (fun target_x =>
      obind (oget d "y") (fun target_y =>
      obind (oget d "yaw") (fun target_yaw =>
      let tx := PyFloat.sub target_x (fst (offset self)) in
      let ty := PyFloat.sub target_y (snd (offset self)) in
      obind (match st with
             | Some s => Return (location s)
             | None => Raise AttributeError
             end) (fun cur =>
      obind (navigate_duration self (tx, ty) target_yaw cur) (fun dur =>
      let t := mkTime (sec now + dur) (nanosec now) in
      Return
        (Some (cur,
               match approach_limit self dest with
               | Some lim =>
                   mkLocation t tx ty target_yaw true lim (map_name dest) 0
               | None =>
                   mkLocation t tx ty target_yaw false PyFloat.zero
                              (map_name dest) 0
               end)))))))
  end.

(** The world a successful dispatch of [req] with destination [loc]
    to [rn] leaves; [line] is what is printed under [debug]. *)
Definition dispatch_to (w : World) (rn : string) (r : State)
    (req : PathRequest) (loc : Location) (line : string) : World :=
  mkWorld
    (set_robots (mgr w)
       (dict_set (robots (mgr w)) rn
          (mkState (state r) (Some loc) (Some req)
                   (last_completed_request r) (perform_action_mode r)
                   (gps_pos r))))
    (effects w ++ path_pub req
       :: (if debug (mgr w) then [print line] else [])).

(** The way point [start_activity] builds from one entry of an
    activity path, which needs three coordinates. *)
Definition waypoint (lvl : string) (wp : list float) : option Location :=
  match wp with
  | wx :: wy :: wyaw :: _ =>
      Some (mkLocation (mkTime 0 0) wx wy wyaw false PyFloat.zero (Some lvl) 0)
  | _ => None
  end.

Fixpoint waypoints (lvl : string) (wps : list (list float))
  : option (list Location) :=
  match wps with
  | [] => Some []
  | wp :: rest =>
      match waypoint lvl wp, waypoints lvl rest with
      | Some l, Some ls => Some (l :: ls)
      | _, _ => None
      end
  end.

(** What [start_activity] decides for a robot of the roster whose
    stored report is [st]: an exception, the unsuccessful response
    ([None]), or the current location, the way points and the table
    entry of the request it sends. *)
Definition start_activity_plan (self : FleetManager) (request : Request)
    (st : option RobotState)
  : outcome (option (Location * list Location * ActivityPath)) :=
  match activity request with
  | None => Return None
  | Some act =>
  match dict_get (action_paths self) act with
  | None => Return None
  | Some labels =>
  match label request with
  | None => Return None
  | Some lab =>
  match dict_get labels lab with
  | None => Return None
  | Some ap =>
  match st with
  | None => Raise AttributeError
  | Some s =>
  match waypoints (ap_map_name ap) (ap_path ap) with
  | None => Raise IndexError
  | Some ls => Return (Some (location s, ls, ap))
  end end end end end end.

(** The line [start_activity] prints under [debug]. *)
Definition start_activity_line (rn : string) (cmd : Z) (request : Request)
  : string :=
  "Sending [" ++ opt_str (activity request) ++ "] at ["
  ++ opt_str (label request) ++ "] request for " ++ rn ++ ": " ++ py_str cmd.

(** The table entry a [start_activity] request designates, if any. *)
Definition activity_entry (self : FleetManager) (request : Request)
  : option ActivityPath :=
  match activity request, label request with
  | Some act, Some lab =>
      match dict_get (action_paths self) act with
      | Some labels => dict_get labels lab
      | None => None
      end
  | _, _ => None
  end.

(** The sample fleet with a table of activity paths: a two-point path,
    an empty one, and one whose only entry lacks its yaw. *)
Definition activity_world : World :=
  let table :=
    [("clean",
      [("zone_1", mkActivityPath "L1" [[Sample.F 1; Sample.F 1; Sample.F 0];
                                       [Sample.F 2; Sample.F 1; Sample.F 0]]);
       ("zone_empty", mkActivityPath "L1" []);
       ("zone_short", mkActivityPath "L1" [[Sample.F 1; Sample.F 1]])])] in
  let fm :=
    mkFleetManager false "tinyRobot" false false (PyFloat.zero, PyFloat.zero)
      [("tinyRobot1", State_new); ("tinyRobot2", State_new)]
      table None (mkVehicleTraits Sample.limits Sample.limits) in
  after (robot_state_cb
           (Sample.report "tinyRobot1" "" MODE_IDLE (Sample.loc 1 2 0)))
        (world0 fm).

(** A [start_activity] body for activity clean at [lab]. *)
Definition clean_at (lab : string) : Request :=
  mkRequest None (Some "clean") (Some lab) None None None.

(** The part of the manager that comes from the configuration file. *)
Definition configuration (fm : FleetManager) :=
  (debug fm, fleet_name fm, ignore_speed_limit fm, gps fm, offset fm,
   action_paths fm, vehicle_traits fm).

(** A path request as the dispatching handlers build them for robot
    [rn]: fleet and robot name, a non-empty path, and the decimal text
    of an integer as correlation id. *)
Definition well_formed_request (fm : FleetManager) (rn : string)
    (req : PathRequest) : Prop :=
  pr_fleet_name req = fleet_name fm /\
  pr_robot_name req = rn /\
  pr_path req <> [] /\
  exists n, pr_task_id req = py_str n.

(** The three ways a handler changes the record of robot [rn]: storing
    a report of that robot (the destination kept or cleared),
    recording a dispatched request (with the last of its way points
    after the first as destination, or none), or touching neither
    report, command nor destination. *)
Definition record_step (fm : FleetManager) (rn : string) (r r' : State)
  : Prop :=
  (exists msg,
      name msg = rn /\ state r' = Some msg /\
      last_path_request r' = last_path_request r /\
      (destination r' = destination r \/ destination r' = None))
  \/ (state r' = state r /\
      exists req,
        last_path_request r' = Some req /\
        well_formed_request fm rn req /\
        (destination r' = None
         \/ destination r' = Some (last (tl (pr_path req)) Location_new)))
  \/ (state r' = state r /\ destination r' = destination r /\
      last_path_request r' = last_path_request r).

(** What the records of a manager satisfy throughout its life. *)
Definition record_ok (fm : FleetManager) (rn : string) (r : State) : Prop :=
  (forall s, state r = Some s -> name s = rn) /\
  (forall req, last_path_request r = Some req ->
               well_formed_request fm rn req) /\
  (forall l, destination r = Some l ->
             exists req, last_path_request r = Some req
                         /\ l = last (tl (pr_path req)) Location_new).

(** Every record of the robot table is as [record_ok] says. *)
Definition records_ok (w : World) : Prop :=
  forall rn r, robot_of w rn = Some r -> record_ok (mgr w) rn r.

(** The outcome of a dispatching handler that went through: a
    successful response, and one more publication, a path request
    whose correlation id is the decimal text of [cmd]. *)
Definition went_through (w : World) (cmd : Z) (o : outcome Response)
    (w' : World) : Prop :=
  (exists resp, o = Return resp /\ success resp = true) /\
  exists req,
    pr_task_id req = py_str cmd /\
    published w' = (published w ++ [path_pub req])%list.

(** * Properties *)

(** ** Dictionaries *)

Lemma dict_get_set_same {V} (d : dict V) k v :
  dict_get (dict_set d k v) k = Some v.
Proof.
  induction d as [|[k' v'] d IH]; simpl.
  - now rewrite String.eqb_refl.
  - destruct (String.eqb k k') eqn:E; simpl; rewrite E; auto.
Qed.

Lemma dict_get_set_other {V} (d : dict V) k k' v :
  k <> k' -> dict_get (dict_set d k v) k' = dict_get d k'.
Proof.
  intros Hne. induction d as [|[k0 v0] d IH]; simpl.
  - destruct (String.eqb k' k) eqn:E; auto.
    apply String.eqb_eq in E. congruence.
  - destruct (String.eqb k k0) eqn:E; simpl.
    + apply String.eqb_eq in E. subst k0.
      destruct (String.eqb k' k) eqn:E'; auto.
      apply String.eqb_eq in E'. congruence.
    + now rewrite IH.
Qed.


(** ** Running the monad *)

Lemma bind_run {A B} (c : M A) (k : A -> M B) w :
  bind c k w =
  match c w with
  | (Return a, w') => k a w'
  | (Raise e, w') => (Raise e, w')
  end.
Proof. reflexivity. Qed.

Lemma modify_robot_run rn f w r :
  robot_of w rn = Some r ->
  modify_robot rn f w =
  (Return tt,
   mkWorld (set_robots (mgr w) (dict_set (robots (mgr w)) rn (f r)))
           (effects w)).
Proof.
  unfold robot_of, modify_robot, bind, get_mgr, getitem, put_mgr.
  intros ->. reflexivity.
Qed.

Lemma published_app w l :
  filter is_publication (effects w ++ l) =
  (published w ++ filter is_publication l)%list.
Proof. unfold published. apply filter_app. Qed.

Lemma world_eta w : mkWorld (mgr w) (effects w) = w.
Proof. now destruct w. Qed.

(** ** The staleness check of robot_state_cb *)

Lemma stale_report_run w msg r req :
  robot_of w (name msg) = Some r ->
  last_path_request r = Some req ->
  accepted r msg = false ->
  robot_state_cb msg w =
  (Return tt,
   mkWorld (mgr w)
     (effects w ++
      (if debug (mgr w)
       then [print ("Republishing task request for " ++ name msg ++ ": "
                    ++ pr_task_id req
                    ++ ", because it is currently following "
                    ++ task_id msg)]
       else []) ++ [path_pub req])).
Proof.
  unfold robot_of, accepted. intros Hr Hreq Hacc.
  apply negb_false_iff in Hacc.
  unfold robot_state_cb, bind, get_mgr, getitem, dict_mem.
  rewrite Hr. unfold ret at 1. cbv beta iota. rewrite Hacc, Hreq.
  destruct (debug (mgr w)); unfold when, emit, ret; simpl.
  - now rewrite <- app_assoc.
  - reflexivity.
Qed.

(** C1: for a robot record with a last command [req] and action mode
    off, a report whose correlation id differs from that of [req]
    leaves the whole manager (hence the record's reported state, last
    completed id and commanded destination) as it was, publishes
    exactly one message, [req] itself on the path-request channel, and
    the callback returns at once. *)
Theorem C1_stale_report_resends_last_command
    (w : World) (msg : RobotState) (r : State) (req : PathRequest) :
  robot_of w (name msg) = Some r ->
  last_path_request r = Some req ->
  truthy (perform_action_mode r) = false ->
  task_id msg <> pr_task_id req ->
  result (robot_state_cb msg) w = Return tt /\
  mgr (after (robot_state_cb msg) w) = mgr w /\
  robot_of (after (robot_state_cb msg) w) (name msg) = Some r /\
  published (after (robot_state_cb msg) w)
  = (published w ++ [path_pub req])%list.
Proof.
  intros Hr Hreq Hact Hne.
  assert (Hacc : accepted r msg = false).
  { unfold accepted, is_expected_task_id. rewrite Hreq, Hact.
    apply String.eqb_neq in Hne. now rewrite Hne. }
  unfold result, after.
  rewrite (stale_report_run w msg r req Hr Hreq Hacc); simpl.
  repeat split; auto.
  unfold published at 1; simpl.
  rewrite published_app, filter_app; simpl.
  destruct (debug (mgr w)); reflexivity.
Qed.

(** ** navigate for a robot outside the roster *)

(** C5: for a robot name that is not in the roster, [navigate] returns
    an unsuccessful response and leaves the world untouched: the roster
    has the same names, every record is what it was, and nothing new is
    published. *)
Theorem C5_navigate_unknown_robot_fails_closed
    (w : World) (rn : string) (cmd : Z) (dest : Request) (now : Time) :
  dict_mem (robots (mgr w)) rn = false ->
  (exists resp, result (navigate rn cmd dest now) w = Return resp
                /\ success resp = false) /\
  after (navigate rn cmd dest now) w = w /\
  dict_keys (robots (mgr (after (navigate rn cmd dest now) w)))
  = dict_keys (robots (mgr w)) /\
  (forall n, robot_of (after (navigate rn cmd dest now) w) n = robot_of w n) /\
  published (after (navigate rn cmd dest now) w) = published w.
Proof.
  intros Hmem.
  assert (Hrun : navigate rn cmd dest now w = (Return failure, w)).
  { unfold navigate, bind, get_mgr. now rewrite Hmem. }
  unfold result, after. rewrite Hrun; simpl.
  repeat split; auto. now exists failure.
Qed.

(** ** Digit strings *)

Lemma is_digit_cases c :
  is_digit c = true ->
  is_space c = false /\ Ascii.eqb c "_" = false /\
  Ascii.eqb c "-" = false /\ Ascii.eqb c "+" = false.
Proof.
  destruct c as [[] [] [] [] [] [] [] []]; vm_compute; intros H;
    try discriminate H; auto.
Qed.

Lemma lstrip_digits s : isdigit s = true -> lstrip s = s.
Proof.
  destruct s as [|c r]; simpl; auto.
  intros H. apply andb_true_iff in H as [Hc _].
  apply is_digit_cases in Hc as [-> _]. reflexivity.
Qed.

Lemma rstrip_digits s : all_digits s = true -> rstrip s = s.
Proof.
  induction s as [|c r IH]; simpl; auto.
  intros H. apply andb_true_iff in H as [Hc Hr].
  rewrite (IH Hr).
  apply is_digit_cases in Hc as [-> _].
  now destruct r.
Qed.

Lemma int_digits_all_digits s acc :
  all_digits s = true -> int_digits s acc = Some (digits_value_from s acc).
Proof.
  revert acc. induction s as [|c r IH]; simpl; intros acc H; auto.
  apply andb_true_iff in H as [Hc Hr]. rewrite Hc. now apply IH.
Qed.

Lemma py_int_isdigit s :
  isdigit s = true -> py_int s = Return (digits_value s).
Proof.
  intros H. unfold py_int.
  rewrite (lstrip_digits s H).
  destruct s as [|c r]; [discriminate|].
  assert (Hall : all_digits (String c r) = true) by exact H.
  rewrite (rstrip_digits _ Hall).
  simpl in Hall. apply andb_true_iff in Hall as [Hc Hr].
  assert (Hu : int_unsigned (String c r) = Some (digits_value (String c r))).
  { simpl. rewrite Hc. unfold digits_value. simpl.
    now apply int_digits_all_digits. }
  destruct (is_digit_cases c Hc) as (_ & _ & Hm & Hp).
  destruct c as [[] [] [] [] [] [] [] []];
    try discriminate Hm; try discriminate Hp; try discriminate Hc;
    now rewrite Hu.
Qed.

(** ** Accepted reports *)

Lemma dict_set_set {V} (d : dict V) k v1 v2 :
  dict_set (dict_set d k v1) k v2 = dict_set d k v2.
Proof.
  induction d as [|[k' v'] d IH]; simpl.
  - now rewrite String.eqb_refl.
  - destruct (String.eqb k k') eqn:E; simpl; rewrite E; auto.
    now rewrite IH.
Qed.

Lemma accepted_plain_run w msg r :
  robot_of w (name msg) = Some r ->
  accepted r msg = true ->
  completes msg = false ->
  robot_state_cb msg w =
  (Return tt,
   mkWorld (set_robots (mgr w)
              (dict_set (robots (mgr w)) (name msg) (set_state r (Some msg))))
           (effects w)).
Proof.
  unfold accepted, completes. intros Hr Hacc Hc.
  apply negb_true_iff in Hacc.
  unfold robot_state_cb, bind at 1, get_mgr, dict_mem.
  pose proof Hr as Hr'. unfold robot_of in Hr'. rewrite Hr'.
  unfold bind at 1, getitem at 1. rewrite Hr'. unfold ret at 1.
  cbv beta iota. rewrite Hacc.
  unfold bind at 1. rewrite (modify_robot_run _ _ _ _ Hr).
  rewrite Hc. reflexivity.
Qed.

Lemma accepted_completed_run w msg r n :
  robot_of w (name msg) = Some r ->
  accepted r msg = true ->
  completes msg = true ->
  py_int (task_id msg) = Return n ->
  robot_state_cb msg w =
  (Return tt,
   mkWorld (set_robots (mgr w)
              (dict_set (robots (mgr w)) (name msg)
                 (mkState (Some msg) None (last_path_request r) (Some n)
                          (perform_action_mode r) (gps_pos r))))
           (effects w ++
            (if differs (last_completed_request r) n && debug (mgr w)
             then [print ("Detecting completed request for " ++ name msg
                          ++ ": " ++ py_str n)]
             else []))).
Proof.
  unfold accepted, completes. intros Hr Hacc Hc Hint.
  apply negb_true_iff in Hacc.
  unfold robot_state_cb, bind at 1, get_mgr, dict_mem.
  pose proof Hr as Hr'. unfold robot_of in Hr'. rewrite Hr'.
  unfold bind at 1, getitem at 1. rewrite Hr'. unfold ret at 1.
  cbv beta iota. rewrite Hacc.
  rewrite bind_run, (modify_robot_run _ _ _ _ Hr).
  rewrite Hc, Hint.
  set (w1 := mkWorld _ _).
  assert (H1 : robot_of w1 (name msg) = Some (set_state r (Some msg))).
  { unfold robot_of; simpl. apply dict_get_set_same. }
  rewrite bind_run, bind_run, (modify_robot_run _ _ _ _ H1).
  rewrite bind_run. unfold lift, ret. cbv beta iota.
  set (w2 := mkWorld _ _).
  assert (H2 : robot_of w2 (name msg)
               = Some (set_destination (set_state r (Some msg)) None)).
  { unfold robot_of; simpl. apply dict_get_set_same. }
  rewrite bind_run. cbv beta iota.
  rewrite bind_run. unfold getitem. unfold robot_of in H2. rewrite H2.
  unfold ret at 1. cbv beta iota.
  change (last_completed_request
            (set_destination (set_state r (Some msg)) None))
    with (last_completed_request r).
  fold (differs (last_completed_request r) n).
  rewrite bind_run.
  assert (Hw : forall w0 b,
             when b (when (debug (mgr w))
                       (emit (print ("Detecting completed request for "
                                     ++ name msg ++ ": " ++ py_str n)))) w0
             = (Return tt,
                mkWorld (mgr w0)
                  (effects w0 ++
                   (if b && debug (mgr w)
                    then [print ("Detecting completed request for "
                                 ++ name msg ++ ": " ++ py_str n)]
                    else [])))).
  { intros w0 b. destruct b, (debug (mgr w)); unfold when, emit, ret; simpl;
      rewrite ?app_nil_r, ?world_eta; reflexivity. }
  rewrite Hw. cbv beta iota.
  set (w3 := mkWorld _ _).
  assert (H3 : robot_of w3 (name msg)
               = Some (set_destination (set_state r (Some msg)) None)).
  { exact H2. }
  rewrite (modify_robot_run _ _ _ _ H3).
  subst w3 w2 w1; simpl. now rewrite !dict_set_set.
Qed.




(** ** Steps that only read *)

Lemma lift_run {A} (o : outcome A) w : lift o w = (o, w).
Proof. reflexivity. Qed.

Lemma getitem_run {V} (d : dict V) k w :
  getitem d k w =
  (match dict_get d k with Some v => Return v | None => Raise KeyError end, w).
Proof. unfold getitem. now destruct (dict_get d k). Qed.

Lemma getindex_run {V} (l : list V) i w :
  getindex l i w =
  (match nth_error l i with Some v => Return v | None => Raise IndexError end,
   w).
Proof. unfold getindex. now destruct (nth_error l i). Qed.

Lemma attr_of_run {O V} (o : option O) (f : O -> V) w :
  attr_of o f w =
  (match o with Some v => Return (f v) | None => Raise AttributeError end, w).
Proof. now destruct o. Qed.

Lemma disp_run A B w : disp A B w = (disp_value A B, w).
Proof.
  unfold disp, disp_value, bind, lift.
  destruct (PyFloat.pow2 (PyFloat.sub (fst A) (fst B))); auto.
  destruct (PyFloat.pow2 (PyFloat.sub (snd A) (snd B))); auto.
Qed.

Lemma when_emit_run b e w :
  when b (emit e) w
  = (Return tt, mkWorld (mgr w) (effects w ++ (if b then [e] else []))).
Proof.
  destruct b; unfold when, emit, ret; simpl; auto.
  now rewrite app_nil_r, world_eta.
Qed.

Ltac read_step H :=
  rewrite bind_run in H;
  first [ rewrite lift_run in H | rewrite getitem_run in H
        | rewrite attr_of_run in H | rewrite disp_run in H
        | rewrite getindex_run in H ];
  match type of H with
  | (match ?o with Return _ => _ | Raise _ => _ end) = _ =>
      let E := fresh "E" in
      destruct o eqn:E; [|discriminate H]
  end.

(** ** What the dispatching handlers leave behind *)

Ltac read_or_stop H :=
  rewrite bind_run in H;
  first [ rewrite lift_run in H | rewrite getitem_run in H
        | rewrite attr_of_run in H | rewrite disp_run in H
        | rewrite getindex_run in H ];
  match type of H with
  | (match ?o with Return _ => _ | Raise _ => _ end) = _ =>
      let E := fresh "E" in
      destruct o eqn:E;
      [|left; injection H as <- <-; split; [reflexivity|discriminate]]
  end.

Ltac stop_here H :=
  left; injection H as <- <-; split;
  [reflexivity | try discriminate; now intros ? [= <-]].

Lemma record_dispatch w rn r req loc line dat o w' :
  robot_of w rn = Some r ->
  (emit (path_pub req) ;;;
   when (debug (mgr w)) (emit (print line)) ;;;
   modify_robot rn (fun r => set_last_path_request r (Some req)) ;;;
   modify_robot rn (fun r => set_destination r (Some loc)) ;;;
   ret (mkResponse dat true "")) w = (o, w') ->
  o = Return (mkResponse dat true "") /\
  mgr w' = set_robots (mgr w)
             (dict_set (robots (mgr w)) rn
                (mkState (state r) (Some loc) (Some req)
                         (last_completed_request r)
                         (perform_action_mode r) (gps_pos r))) /\
  effects w' = (effects w ++ path_pub req
                  :: (if debug (mgr w) then [print line] else []))%list.
Proof.
  intros Hr H.
  rewrite bind_run in H. unfold emit at 1 in H. cbv beta iota in H.
  rewrite bind_run in H. simpl mgr in H. rewrite when_emit_run in H.
  cbv beta iota in H.
  set (w2 := mkWorld _ _) in H.
  assert (H2 : robot_of w2 rn = Some r) by exact Hr.
  rewrite bind_run, (modify_robot_run _ _ _ _ H2) in H.
  set (w3 := mkWorld _ _) in H.
  assert (H3 : robot_of w3 rn = Some (set_last_path_request r (Some req))).
  { unfold robot_of; simpl. apply dict_get_set_same. }
  rewrite bind_run, (modify_robot_run _ _ _ _ H3) in H.
  unfold ret in H. injection H as <- <-. simpl.
  rewrite dict_set_set, <- app_assoc. auto.
Qed.

Lemma navigate_cases w rn cmd dest now :
  dispatched w rn cmd (result (navigate rn cmd dest now) w)
             (after (navigate rn cmd dest now) w).
Proof.
  unfold result, after.
  destruct (navigate rn cmd dest now w) as [o w'] eqn:H. simpl.
  unfold dispatched, navigate in *.
  rewrite bind_run in H. unfold get_mgr in H. cbv beta iota in H.
  destruct (dict_mem (robots (mgr w)) rn) eqn:Hmem; simpl in H;
    [|stop_here H].
  destruct (destination_of dest) as [d|]; [|stop_here H].
  destruct (Z.of_nat (List.length d) <? 1); [stop_here H|].
  do 11 read_or_stop H.
  destruct (dict_get (robots (mgr w)) rn) as [r|] eqn:Hr; [|discriminate].
  injection E as <-. injection E3 as <-.
  right.
  match type of H with
  | context [set_last_path_request _ (Some ?q)] => set (req := q) in *
  end.
  match type of H with
  | context [set_destination _ (Some ?l)] => set (loc := l) in *
  end.
  destruct (record_dispatch _ _ _ _ _ _ _ _ _ Hr H) as (Ho & Hm & He).
  exists r, req, loc, None. repeat split; auto. eexists. exact He.
Qed.

Lemma stop_cases w rn running_cmd cmd :
  (after (stop rn running_cmd cmd) w = w /\
   forall resp, result (stop rn running_cmd cmd) w = Return resp ->
                success resp = false) \/
  (exists r req,
      robot_of w rn = Some r /\
      mgr (after (stop rn running_cmd cmd) w)
      = set_robots (mgr w)
          (dict_set (robots (mgr w)) rn
             (mkState (state r) None (Some req)
                      (last_completed_request r)
                      (perform_action_mode r) (gps_pos r)))).
Proof.
  unfold result, after.
  destruct (stop rn running_cmd cmd w) as [o w'] eqn:H. simpl.
  unfold stop in H.
  rewrite bind_run in H. unfold get_mgr in H. cbv beta iota in H.
  destruct (dict_mem (robots (mgr w)) rn) eqn:Hmem; simpl in H;
    [|stop_here H].
  do 3 read_or_stop H.
  destruct (dict_get (robots (mgr w)) rn) as [r|] eqn:Hr; [|discriminate].
  injection E as <-.
  right.
  rewrite bind_run in H. unfold emit at 1 in H. cbv beta iota in H.
  rewrite bind_run in H. simpl mgr in H. rewrite when_emit_run in H.
  cbv beta iota in H.
  match type of H with
  | context [set_last_path_request _ (Some ?q)] => set (req := q) in *
  end.
  set (w2 := mkWorld _ _) in H.
  assert (H2 : robot_of w2 rn = Some r) by exact Hr.
  rewrite bind_run, (modify_robot_run _ _ _ _ H2) in H.
  set (w3 := mkWorld _ _) in H.
  assert (H3 : robot_of w3 rn = Some (set_last_path_request r (Some req))).
  { unfold robot_of; simpl. apply dict_get_set_same. }
  rewrite bind_run, (modify_robot_run _ _ _ _ H3) in H.
  unfold ret in H. injection H as <- <-. simpl.
  exists r, req. split; [exact Hr|]. now rewrite dict_set_set.
Qed.

Lemma navigate_success w rn cmd dest now resp w1 :
  navigate rn cmd dest now w = (Return resp, w1) ->
  success resp = true ->
  exists r req loc,
    robot_of w rn = Some r /\
    pr_task_id req = py_str cmd /\
    robot_of w1 rn
    = Some (mkState (state r) (Some loc) (Some req)
                    (last_completed_request r) (perform_action_mode r)
                    (gps_pos r)) /\
    (forall n, n <> rn -> robot_of w1 n = robot_of w n) /\
    published w1 = (published w ++ [path_pub req])%list.
Proof.
  intros H Hs.
  pose proof (navigate_cases w rn cmd dest now) as Hc.
  unfold result, after in Hc. rewrite H in Hc. simpl in Hc.
  destruct Hc as [[_ Hf] | (r & req & loc & dat & Hr & Hreq & _ & Hm & line & He)].
  - rewrite (Hf resp eq_refl) in Hs. discriminate Hs.
  - exists r, req, loc. repeat split; auto.
    + unfold robot_of. rewrite Hm. simpl. apply dict_get_set_same.
    + intros n Hn. unfold robot_of. rewrite Hm. simpl.
      now apply dict_get_set_other.
    + unfold published. rewrite He, filter_app. simpl.
      now destruct (debug (mgr w)).
Qed.

Lemma activity_waypoints_run wps : forall lvl loc w,
  activity_waypoints wps lvl loc w
  = (result (activity_waypoints wps lvl loc) w, w).
Proof.
  unfold result.
  induction wps as [|wp rest IH]; intros lvl loc w; simpl; [reflexivity|].
  rewrite !bind_run, !getindex_run.
  destruct (nth_error wp 0); [|reflexivity].
  rewrite !bind_run, !getindex_run.
  destruct (nth_error wp 1); [|reflexivity].
  rewrite !bind_run, !getindex_run.
  destruct (nth_error wp 2); [|reflexivity].
  rewrite !bind_run, IH.
  now destruct (fst (activity_waypoints rest lvl _ w)).
Qed.

Lemma start_activity_cases w rn cmd request :
  dispatched w rn cmd (result (start_activity rn cmd request) w)
             (after (start_activity rn cmd request) w).
Proof.
  unfold result, after.
  destruct (start_activity rn cmd request w) as [o w'] eqn:H. simpl.
  unfold dispatched, start_activity in *.
  rewrite bind_run in H. unfold get_mgr in H. cbv beta iota in H.
  destruct (dict_mem (robots (mgr w)) rn) eqn:Hmem; simpl in H;
    [|stop_here H].
  destruct (activity request) as [act|]; [|stop_here H].
  destruct (dict_get (action_paths (mgr w)) act) as [labels|];
    [|stop_here H].
  destruct (label request) as [lab|]; [|stop_here H].
  destruct (dict_mem labels lab); simpl in H; [|stop_here H].
  do 3 read_or_stop H.
  destruct (dict_get (robots (mgr w)) rn) as [r|] eqn:Hr; [|discriminate].
  injection E as <-.
  match goal with Hp : _ = Return ?p |- _ =>
    match type of p with ActivityPath => rename p into apath end
  end.
  rewrite bind_run, activity_waypoints_run in H.
  destruct (result (activity_waypoints _ _ _) w) as [wl|e];
    [|left; injection H as <- <-; split; [reflexivity|discriminate]].
  right.
  match type of H with
  | context [set_last_path_request _ (Some ?q)] => set (req := q) in *
  end.
  destruct (record_dispatch _ _ _ _ _ _ _ _ _ Hr H) as (Ho & Hm & He).
  exists r, req, (snd wl), (Some (DataPath apath)).
  repeat split; auto. eexists. exact He.
Qed.

Lemma toggle_teleop_cases w rn md :
  after (toggle_teleop rn md) w = w \/
  exists r,
    robot_of w rn = Some r /\
    mgr (after (toggle_teleop rn md) w)
    = set_robots (mgr w)
        (dict_set (robots (mgr w)) rn
           (set_perform_action_mode r (toggle md))).
Proof.
  unfold after, toggle_teleop.
  rewrite bind_run. unfold get_mgr. cbv beta iota.
  unfold dict_mem.
  destruct (dict_get (robots (mgr w)) rn) as [r|] eqn:Hr; simpl;
    [|now left].
  right. exists r. split; [exact Hr|].
  rewrite bind_run, (modify_robot_run _ _ _ _ Hr). reflexivity.
Qed.

Lemma toggle_attach_mgr w rn cmd md :
  mgr (after (toggle_attach rn cmd md) w) = mgr w.
Proof.
  unfold after, toggle_attach.
  rewrite bind_run. unfold get_mgr. cbv beta iota.
  destruct (dict_mem (robots (mgr w)) rn); simpl; [|reflexivity].
  now destruct (truthy (toggle md)).
Qed.

Lemma mode_eqb_eq a b : mode_eqb a b = true <-> a = b.
Proof.
  destruct a, b; simpl; split; intros H;
    try reflexivity; try discriminate H.
  - apply N.eqb_eq in H. now subst.
  - injection H as ->. apply N.eqb_refl.
Qed.

Lemma mode_eqb_neq a b : a <> b -> mode_eqb a b = false.
Proof.
  intros H. destruct (mode_eqb a b) eqn:E; auto.
  apply mode_eqb_eq in E. contradiction.
Qed.

(** C6: after a successful [navigate] for a robot, a report of that
    robot carrying the dispatched correlation id and a mode that is
    neither idle nor charging is accepted: the callback returns, the
    reported state becomes that report, and the commanded destination
    set by the dispatch, the last command and the last completed id
    stay as they were; nothing is published. *)
Theorem C6_matching_report_keeps_destination
    (w : World) (rn : string) (cmd : Z) (dest : Request) (now : Time)
    (resp : Response) (msg : RobotState) :
  result (navigate rn cmd dest now) w = Return resp ->
  success resp = true ->
  name msg = rn ->
  task_id msg = py_str cmd ->
  mode (rs_mode msg) <> MODE_IDLE ->
  mode (rs_mode msg) <> MODE_CHARGING ->
  let w1 := after (navigate rn cmd dest now) w in
  let w2 := after (robot_state_cb msg) w1 in
  exists r1 r2 loc req,
    robot_of w1 rn = Some r1 /\
    destination r1 = Some loc /\
    last_path_request r1 = Some req /\
    pr_task_id req = py_str cmd /\
    result (robot_state_cb msg) w1 = Return tt /\
    robot_of w2 rn = Some r2 /\
    state r2 = Some msg /\
    destination r2 = destination r1 /\
    last_path_request r2 = last_path_request r1 /\
    last_completed_request r2 = last_completed_request r1 /\
    effects w2 = effects w1.
Proof.
  intros Hnav Hs Hname Htid Hidle Hchg w1 w2.
  assert (Hrun : navigate rn cmd dest now w = (Return resp, w1)).
  { subst w1. unfold after. unfold result in Hnav.
    destruct (navigate rn cmd dest now w) as [o w']; simpl in *.
    now subst o. }
  destruct (navigate_success _ _ _ _ _ _ _ Hrun Hs)
    as (r & req & loc & Hr & Hreq & Hr1 & _ & _).
  set (r1 := mkState (state r) (Some loc) (Some req)
                     (last_completed_request r) (perform_action_mode r)
                     (gps_pos r)) in *.
  rewrite <- Hname in Hr1.
  assert (Hacc : accepted r1 msg = true).
  { unfold accepted, is_expected_task_id; simpl.
    now rewrite Htid, Hreq, String.eqb_refl. }
  assert (Hc : completes msg = false).
  { unfold completes.
    now rewrite (mode_eqb_neq _ _ Hidle), (mode_eqb_neq _ _ Hchg). }
  pose proof (accepted_plain_run w1 msg r1 Hr1 Hacc Hc) as Hcb.
  exists r1, (set_state r1 (Some msg)), loc, req.
  subst w2. unfold result, after. rewrite Hcb; simpl.
  rewrite <- Hname.
  repeat split; auto.
  unfold robot_of; simpl. apply dict_get_set_same.
Qed.

(** ** Reading a robot record *)

Lemma arrival_estimate_run self position angle dst req w :
  arrival_estimate self position angle dst req w
  = (arrival_outcome self position angle dst req, w).
Proof.
  unfold arrival_outcome, result, arrival_estimate.
  rewrite !bind_run, !disp_run.
  destruct (disp_value _ _); auto.
  rewrite !bind_run, !lift_run.
  destruct (PyFloat.truediv _ _); auto.
  rewrite !bind_run, !lift_run.
  destruct (PyFloat.truediv _ _); auto.
  rewrite !bind_run, !lift_run.
  destruct (py_int _); auto.
Qed.

Lemma get_robot_state_run robot rn s w :
  state robot = Some s ->
  get_robot_state robot rn w =
  match read_arrival (mgr w) robot s with
  | Raise e => (Raise e, w)
  | Return da =>
      (Return (read_data (mgr w) robot s rn da),
       mkWorld (mgr w)
         (effects w ++
          (if mode_eqb (mode (rs_mode s)) MODE_ACTION_COMPLETED
           then action_completed_effects (mgr w) rn else [])))
  end.
Proof.
  intros Hs. unfold get_robot_state, read_arrival, read_data, read_position.
  rewrite bind_run. unfold get_mgr. cbv beta iota.
  rewrite Hs.
  assert (Hpos :
    (if gps (mgr w) then ret (gps_pos robot)
     else px <- attr_of (Some s) (fun s0 => x (location s0)) ;;
          py <- attr_of (Some s) (fun s0 => y (location s0)) ;;
          ret (px, py)) w
    = (Return (if gps (mgr w) then gps_pos robot
               else (x (location s), y (location s))), w)).
  { destruct (gps (mgr w)); reflexivity. }
  rewrite bind_run, Hpos. cbv beta iota.
  rewrite bind_run, attr_of_run. cbv beta iota.
  rewrite bind_run, attr_of_run. cbv beta iota.
  rewrite bind_run, attr_of_run. cbv beta iota.
  rewrite bind_run.
  assert (Hda :
    match destination robot, last_path_request robot with
    | Some dst, Some req =>
        a <- arrival_estimate (mgr w)
               (if gps (mgr w) then gps_pos robot
                else (x (location s), y (location s)))
               (yaw (location s)) dst req ;;
        ret (Some a)
    | _, _ => ret None
    end w
    = (match destination robot, last_path_request robot with
       | Some dst, Some req =>
           match arrival_outcome (mgr w)
                   (if gps (mgr w) then gps_pos robot
                    else (x (location s), y (location s)))
                   (yaw (location s)) dst req with
           | Return a => Return (Some a)
           | Raise e => Raise e
           end
       | _, _ => Return None
       end, w)).
  { destruct (destination robot); [|reflexivity].
    destruct (last_path_request robot); [|reflexivity].
    rewrite bind_run, arrival_estimate_run.
    now destruct (arrival_outcome _ _ _ _ _). }
  rewrite Hda. clear Hda Hpos.
  match goal with
  | |- context [match ?o with Return _ => _ | Raise _ => _ end] =>
      destruct o as [da|e]
  end; [|reflexivity].
  rewrite bind_run, attr_of_run. cbv beta iota.
  rewrite bind_run.
  destruct (mode_eqb (mode (rs_mode s)) MODE_ACTION_COMPLETED);
    unfold when, action_completed_effects.
  - rewrite bind_run. unfold emit at 1. cbv beta iota.
    rewrite bind_run. unfold emit at 1. cbv beta iota.
    unfold emit, ret; simpl.
    rewrite <- !app_assoc; simpl.
    now destruct (is_replan_mode (mode (rs_mode s))).
  - unfold ret; simpl. rewrite app_nil_r, world_eta.
    now destruct (is_replan_mode (mode (rs_mode s))).
Qed.

(** ** What robot_state_cb can emit *)

Lemma completes_isdigit msg : completes msg = true -> isdigit (task_id msg) = true.
Proof.
  unfold completes. intros H. now apply andb_true_iff in H as [_ H].
Qed.

(** The callback always returns, and what it adds to the effects is at
    most a debug line and a resent path request. *)
Lemma robot_state_cb_effects w msg :
  exists l,
    result (robot_state_cb msg) w = Return tt /\
    effects (after (robot_state_cb msg) w) = (effects w ++ l)%list /\
    forallb resend_or_print l = true.
Proof.
  unfold result, after.
  destruct (robot_of w (name msg)) as [r|] eqn:Hr.
  - destruct (accepted r msg) eqn:Hacc.
    + destruct (completes msg) eqn:Hc.
      * pose proof (py_int_isdigit _ (completes_isdigit _ Hc)) as Hint.
        rewrite (accepted_completed_run _ _ _ _ Hr Hacc Hc Hint); simpl.
        eexists; repeat split.
        now destruct (differs _ _ && debug (mgr w)).
      * rewrite (accepted_plain_run _ _ _ Hr Hacc Hc); simpl.
        exists []. now rewrite app_nil_r.
    + destruct (last_path_request r) as [req|] eqn:Hreq.
      * rewrite (stale_report_run _ _ _ _ Hr Hreq Hacc); simpl.
        eexists; repeat split.
        now destruct (debug (mgr w)).
      * assert (Hrun : robot_state_cb msg w = (Return tt, w)).
        { unfold accepted in Hacc. apply negb_false_iff in Hacc.
          unfold robot_of in Hr.
          unfold robot_state_cb, bind, get_mgr, getitem, dict_mem.
          rewrite Hr. unfold ret at 1. cbv beta iota.
          now rewrite Hacc, Hreq. }
        rewrite Hrun. exists []. now rewrite app_nil_r.
  - assert (Hrun : robot_state_cb msg w = (Return tt, w)).
    { unfold robot_of in Hr.
      unfold robot_state_cb, bind, get_mgr, dict_mem. now rewrite Hr. }
    rewrite Hrun. exists []. now rewrite app_nil_r.
Qed.

Example sample_init : FleetManager_init Sample.config = Return Sample.fm0.
Proof. reflexivity. Qed.

Example sample_navigate :
  result (navigate "tinyRobot1" 5 (Sample.goal 4 6 0) Sample.noon)
         Sample.w_reported
  = Return (mkResponse None true "").
Proof. vm_compute. reflexivity. Qed.

(** ** The action-completed side effect *)

Lemma read_arrival_no_destination self robot s :
  destination robot = None -> read_arrival self robot s = Return None.
Proof. unfold read_arrival. now intros ->. Qed.




(** ** Write operations that raise *)

(** C4 (evaluated at failing inputs): for a robot of the roster that
    has not reported yet, [navigate] and [stop] raise [AttributeError];
    for a robot that has reported, [navigate] raises [TypeError] when
    the body carries no destination and [KeyError] when the destination
    lacks a coordinate.  None of these calls returns a response. *)
Theorem C4_write_operations_raise :
  let no_destination := mkRequest (Some "L1") None None None None None in
  let only_x :=
    mkRequest (Some "L1") None None (Some [("x", Sample.F 4)]) None None in
  result (navigate "tinyRobot1" 5 (Sample.goal 4 6 0) Sample.noon)
         (world0 Sample.fm0) = Raise AttributeError /\
  result (stop "tinyRobot1" 4 5) (world0 Sample.fm0) = Raise AttributeError /\
  result (navigate "tinyRobot1" 5 no_destination Sample.noon)
         Sample.w_reported = Raise TypeError /\
  result (navigate "tinyRobot1" 5 only_x Sample.noon)
         Sample.w_reported = Raise KeyError.
Proof. vm_compute. repeat split. Qed.

(** ** dock_summary_cb without a docks table *)

Lemma init_has_no_docks config fm :
  FleetManager_init config = Return fm -> docks fm = None.
Proof.
  unfold FleetManager_init.
  destruct (match cfg_reference_offset config with
            | Some (a :: b :: _) => (true, (a, b))
            | _ => (false, (PyFloat.zero, PyFloat.zero))
            end) as [g off].
  destruct (negb _); [discriminate|].
  now intros [= <-].
Qed.

(** While the manager has no [docks] attribute, the callback returns
    (doing nothing) exactly on the summaries without a dock of this
    fleet, and raises on the others. *)
Lemma dock_summary_cb_without_table w msg :
  docks (mgr w) = None ->
  dock_summary_cb msg w
  = (if has_own_dock (fleet_name (mgr w)) msg
     then Raise AttributeError else Return tt, w).
Proof.
  intros Hd. unfold dock_summary_cb, has_own_dock.
  induction (docks_of msg) as [|fleet rest IH]; simpl; [reflexivity|].
  rewrite bind_run. unfold get_mgr. cbv beta iota.
  rewrite bind_run.
  destruct (String.eqb (dock_fleet_name fleet) (fleet_name (mgr w))); simpl.
  - destruct (params fleet) as [|dock ps]; simpl.
    + exact IH.
    + rewrite bind_run. unfold get_mgr. cbv beta iota. now rewrite Hd.
  - exact IH.
Qed.

(** C9 (evaluated at a failing input): the manager built by the
    constructor has no docks table, and a summary holding one dock of
    this fleet makes [dock_summary_cb] raise [AttributeError] without
    recording anything; a summary with docks of other fleets only is
    ignored. *)
Theorem C9_dock_summary_raises_for_own_fleet :
  let dock := mkDockParameter "charger_1" "charger_1_exit"
                              [Sample.loc 1 2 0; Sample.loc 3 2 0] in
  let own := mkDockSummary [mkDock "tinyRobot" [dock]] in
  let other := mkDockSummary [mkDock "deliveryRobot" [dock]] in
  FleetManager_init Sample.config = Return Sample.fm0 /\
  docks Sample.fm0 = None /\
  dock_summary_cb own (world0 Sample.fm0)
  = (Raise AttributeError, world0 Sample.fm0) /\
  dock_summary_cb other (world0 Sample.fm0)
  = (Return tt, world0 Sample.fm0).
Proof. vm_compute. repeat split. Qed.

(** ** The all-robots view of status *)





(** ** Handlers that leave the robot records alone *)

Lemma status_all_mgr names : forall acc w,
  mgr (after (status_all names acc) w) = mgr w.
Proof.
  unfold after.
  induction names as [|n rest IH]; intros acc w; simpl; [reflexivity|].
  rewrite bind_run. unfold get_mgr. cbv beta iota.
  destruct (dict_get (robots (mgr w)) n) as [st|]; [|reflexivity].
  destruct (state st) as [s|] eqn:Hs; [|reflexivity].
  rewrite bind_run, (get_robot_state_run _ _ _ _ Hs).
  destruct (read_arrival (mgr w) st s); [|reflexivity].
  now rewrite IH.
Qed.

Lemma status_mgr o w : mgr (after (status o) w) = mgr w.
Proof.
  unfold after, status. rewrite bind_run. unfold get_mgr. cbv beta iota.
  destruct o as [rn|].
  - destruct (dict_get (robots (mgr w)) rn) as [st|]; [|reflexivity].
    destruct (state st) as [s|] eqn:Hs; [|reflexivity].
    rewrite bind_run, (get_robot_state_run _ _ _ _ Hs).
    now destruct (read_arrival (mgr w) st s).
  - apply status_all_mgr.
Qed.

Lemma dock_summary_params_robots ps : forall w,
  robots (mgr (after (dock_summary_params ps) w)) = robots (mgr w).
Proof.
  unfold after.
  induction ps as [|dock rest IH]; intros w; simpl; [reflexivity|].
  rewrite bind_run. unfold get_mgr. cbv beta iota.
  destruct (docks (mgr w)); [|reflexivity].
  rewrite bind_run. unfold put_mgr. cbv beta iota.
  now rewrite IH.
Qed.

Lemma dock_summary_cb_robots msg w :
  robots (mgr (after (dock_summary_cb msg) w)) = robots (mgr w).
Proof.
  unfold after, dock_summary_cb. revert w.
  induction (docks_of msg) as [|fleet rest IH]; intros w; simpl;
    [reflexivity|].
  rewrite bind_run. unfold get_mgr. cbv beta iota.
  rewrite bind_run.
  assert (Hstep : forall c : M unit,
             robots (mgr (after c w)) = robots (mgr w) ->
             robots (mgr (snd (match c w with
                               | (Return _, w') => dock_summary_fleets rest w'
                               | (Raise e, w') => (Raise e, w')
                               end))) = robots (mgr w)).
  { intros c Hc. unfold after in Hc. destruct (c w) as [[[]|e] w1]; simpl in *.
    - now rewrite IH.
    - exact Hc. }
  destruct (String.eqb (dock_fleet_name fleet) (fleet_name (mgr w))).
  - apply Hstep. apply dock_summary_params_robots.
  - apply Hstep. reflexivity.
Qed.

(** How [robot_state_cb] changes the records: not at all, or the record
    of the reporting robot gets the report as its state, keeps its last
    command, and keeps or clears its destination. *)
Lemma robot_state_cb_record w msg :
  mgr (after (robot_state_cb msg) w) = mgr w \/
  exists r r',
    robot_of w (name msg) = Some r /\
    mgr (after (robot_state_cb msg) w)
    = set_robots (mgr w) (dict_set (robots (mgr w)) (name msg) r') /\
    state r' = Some msg /\
    last_path_request r' = last_path_request r /\
    (destination r' = destination r \/ destination r' = None).
Proof.
  unfold after.
  destruct (robot_of w (name msg)) as [r|] eqn:Hr.
  - destruct (accepted r msg) eqn:Hacc.
    + right. destruct (completes msg) eqn:Hc.
      * pose proof (py_int_isdigit _ (completes_isdigit _ Hc)) as Hint.
        rewrite (accepted_completed_run _ _ _ _ Hr Hacc Hc Hint); simpl.
        eexists r, _. repeat split; auto.
      * rewrite (accepted_plain_run _ _ _ Hr Hacc Hc); simpl.
        eexists r, _. repeat split; auto.
    + left.
      destruct (last_path_request r) as [req|] eqn:Hreq.
      * now rewrite (stale_report_run _ _ _ _ Hr Hreq Hacc).
      * unfold accepted in Hacc. apply negb_false_iff in Hacc.
        unfold robot_of in Hr.
        unfold robot_state_cb, bind, get_mgr, getitem, dict_mem.
        rewrite Hr. unfold ret at 1. cbv beta iota.
        now rewrite Hacc, Hreq.
  - left. unfold robot_of in Hr.
    unfold robot_state_cb, bind, get_mgr, dict_mem. now rewrite Hr.
Qed.

(** ** Histories of the manager *)

Section NeverCommanded.

Variable rn : string.
Variable P : RobotState -> Prop.

Lemma untouched_same_robots w w' :
  robots (mgr w') = robots (mgr w) -> untouched rn P w -> untouched rn P w'.
Proof.
  unfold untouched, robot_of. intros ->. auto.
Qed.

Lemma untouched_other w w' n r' :
  n <> rn ->
  mgr w' = set_robots (mgr w) (dict_set (robots (mgr w)) n r') ->
  untouched rn P w -> untouched rn P w'.
Proof.
  unfold untouched, robot_of. intros Hn -> Hw r. simpl.
  rewrite dict_get_set_other by exact Hn. apply Hw.
Qed.

Lemma dispatched_untouched w n cmd o w' :
  n <> rn -> dispatched w n cmd o w' -> untouched rn P w -> untouched rn P w'.
Proof.
  intros Hn [[-> _] | (r & req & loc & dat & _ & _ & _ & Hm & _)] Hw.
  - exact Hw.
  - eapply untouched_other; eauto.
Qed.

Lemma step_untouched w e :
  commands rn e = false -> respects rn P e -> untouched rn P w ->
  untouched rn P (step w e).
Proof.
  intros Hc He Hw. destruct e as [m|m|o|n c d now|n a b|n c r|n m|n c m];
    simpl in *.
  - destruct (robot_state_cb_record w m)
      as [Hm | (r & r' & Hr & Hm & Hs & Hreq & Hd)].
    + apply (untouched_same_robots w); [now rewrite Hm|exact Hw].
    + destruct (string_dec (name m) rn) as [Hn|Hn].
      * intros r1 Hr1. unfold robot_of in Hr1. rewrite Hm in Hr1.
        simpl in Hr1. rewrite Hn, dict_get_set_same in Hr1.
        injection Hr1 as <-.
        rewrite Hn in Hr. destruct (Hw r Hr) as (Hd0 & Hq0 & _).
        repeat split.
        -- destruct Hd as [-> | ->]; auto.
        -- now rewrite Hreq.
        -- intros s Hs'. rewrite Hs in Hs'. injection Hs' as <-. auto.
      * eapply untouched_other; eauto.
  - apply (untouched_same_robots w); [apply dock_summary_cb_robots|exact Hw].
  - apply (untouched_same_robots w); [now rewrite status_mgr|exact Hw].
  - apply String.eqb_neq in Hc.
    exact (dispatched_untouched _ _ _ _ _ Hc (navigate_cases w n c d now) Hw).
  - apply String.eqb_neq in Hc.
    destruct (stop_cases w n a b) as [[-> _] | (r & req & _ & Hm)];
      [exact Hw|]. eapply untouched_other; eauto.
  - apply String.eqb_neq in Hc.
    exact (dispatched_untouched _ _ _ _ _ Hc (start_activity_cases w n c r) Hw).
  - destruct (toggle_teleop_cases w n m) as [-> | (r & Hr & Hm)];
      [exact Hw|].
    destruct (string_dec n rn) as [Hn|Hn].
    + intros r1 Hr1. unfold robot_of in Hr1. rewrite Hm in Hr1.
      simpl in Hr1. rewrite Hn, dict_get_set_same in Hr1.
      injection Hr1 as <-. rewrite Hn in Hr. exact (Hw r Hr).
    + eapply untouched_other; eauto.
  - apply (untouched_same_robots w); [now rewrite toggle_attach_mgr|exact Hw].
Qed.

Lemma run_untouched es : forall w,
  never_commanded rn es = true -> Forall (respects rn P) es ->
  untouched rn P w -> untouched rn P (run es w).
Proof.
  unfold never_commanded, run.
  induction es as [|e rest IH]; intros w Hc He Hw; simpl in *; auto.
  apply andb_true_iff in Hc as [Hc1 Hc2].
  apply negb_true_iff in Hc1.
  inversion He as [|? ? He1 He2]; subst.
  apply IH; auto. now apply step_untouched.
Qed.

End NeverCommanded.

(** No handler creates the [docks] attribute. *)
Lemma step_keeps_no_docks w e :
  docks (mgr w) = None -> docks (mgr (step w e)) = None.
Proof.
  intros Hd. destruct e as [m|m|o|n c d now|n a b|n c r|n m|n c m]; simpl.
  - destruct (robot_state_cb_record w m) as [-> | (r & r' & _ & -> & _)];
      exact Hd.
  - unfold after. now rewrite (dock_summary_cb_without_table _ _ Hd).
  - now rewrite status_mgr.
  - destruct (navigate_cases w n c d now)
      as [[-> _] | (r & req & loc & dat & _ & _ & _ & -> & _)]; exact Hd.
  - destruct (stop_cases w n a b) as [[-> _] | (r & req & _ & ->)]; exact Hd.
  - destruct (start_activity_cases w n c r)
      as [[-> _] | (r0 & req & loc & dat & _ & _ & _ & -> & _)]; exact Hd.
  - destruct (toggle_teleop_cases w n m) as [-> | (r & _ & ->)]; exact Hd.
  - now rewrite toggle_attach_mgr.
Qed.

(** Whatever happened since construction, a summary holding a dock of
    this fleet makes [dock_summary_cb] raise. *)
Lemma dock_summary_cb_always_raises config fm es msg :
  FleetManager_init config = Return fm ->
  has_own_dock (fleet_name (mgr (run es (world0 fm)))) msg = true ->
  result (dock_summary_cb msg) (run es (world0 fm)) = Raise AttributeError.
Proof.
  intros Hinit Hown.
  assert (Hd : docks (mgr (run es (world0 fm))) = None).
  { pose proof (init_has_no_docks _ _ Hinit) as H0.
    change fm with (mgr (world0 fm)) in H0.
    generalize dependent (world0 fm). clear Hinit.
    unfold run. induction es as [|e rest IH]; intros w Hown H0; simpl; auto.
    apply IH; auto. now apply step_keeps_no_docks. }
  unfold result. now rewrite (dock_summary_cb_without_table _ _ Hd), Hown.
Qed.

(** ** The replan flag *)

Lemma fresh_roster names : forall d : dict State,
  (forall n r, dict_get d n = Some r -> r = State_new) ->
  forall n r,
    dict_get (fold_left (fun d n => dict_set d n State_new) names d) n
    = Some r -> r = State_new.
Proof.
  induction names as [|k rest IH]; intros d Hd n r; simpl.
  - apply Hd.
  - apply IH. intros n0 r0.
    destruct (string_dec k n0) as [->|Hk].
    + rewrite dict_get_set_same. now intros [= <-].
    + rewrite dict_get_set_other by exact Hk. apply Hd.
Qed.

Lemma init_records_fresh config fm n r :
  FleetManager_init config = Return fm ->
  dict_get (robots fm) n = Some r -> r = State_new.
Proof.
  unfold FleetManager_init.
  destruct (match cfg_reference_offset config with
            | Some (a :: b :: _) => (true, (a, b))
            | _ => (false, (PyFloat.zero, PyFloat.zero))
            end) as [g off].
  destruct (negb _); [discriminate|].
  intros [= <-]. simpl. apply fresh_roster. discriminate.
Qed.

Lemma is_replan_mode_iff m :
  is_replan_mode m = true <-> m = MODE_WAITING \/ m = MODE_ADAPTER_ERROR.
Proof.
  unfold is_replan_mode. rewrite orb_true_iff, !mode_eqb_eq. tauto.
Qed.

Lemma quiet_respects rn es :
  quiet rn es = true ->
  Forall (respects rn (fun m => is_replan_mode (mode (rs_mode m)) = false)) es.
Proof.
  unfold quiet. rewrite forallb_forall. intros H.
  apply Forall_forall. intros e He. specialize (H e He).
  destruct e; simpl; auto.
  intros Hn. rewrite Hn, String.eqb_refl in H. simpl in H.
  now apply negb_true_iff in H.
Qed.

Lemma always_respects rn es : Forall (respects rn (fun _ => True)) es.
Proof.
  apply Forall_forall. intros e _. now destruct e.
Qed.

(** C7: the record has no replan field; [get_robot_state] computes the
    flag from the reported mode at each read, and it is true exactly
    for waiting and adapter-error.  For a robot of a freshly
    constructed manager that was never sent a path request, whatever
    else happened: its record has no destination and no last command,
    and once it has reported, [status] for it returns successfully with
    no arrival estimate and with a replan flag that is true exactly
    when the stored report has one of the two modes, hence false as
    long as no report of that robot carried one of them. *)
Theorem C7_replan_is_derived_from_reported_mode
    (config : Config) (fm : FleetManager) (es : list Event) (rn : string)
    (r : State) :
  FleetManager_init config = Return fm ->
  never_commanded rn es = true ->
  robot_of (run es (world0 fm)) rn = Some r ->
  destination r = None /\
  last_path_request r = None /\
  (forall s, state r = Some s ->
     exists d,
       result (status (Some rn)) (run es (world0 fm))
       = Return (mkResponse (Some (DataRobot d)) true "") /\
       d_destination_arrival d = None /\
       (d_replan d = true <->
        mode (rs_mode s) = MODE_WAITING
        \/ mode (rs_mode s) = MODE_ADAPTER_ERROR) /\
       (quiet rn es = true -> d_replan d = false)) /\
  (forall w robot n s d w',
     state robot = Some s ->
     get_robot_state robot n w = (Return d, w') ->
     (d_replan d = true <->
      mode (rs_mode s) = MODE_WAITING
      \/ mode (rs_mode s) = MODE_ADAPTER_ERROR)).
Proof.
  intros Hinit Hnc Hr.
  assert (H0 : forall P, untouched rn P (world0 fm)).
  { intros P r0 Hr0. unfold robot_of in Hr0; simpl in Hr0.
    rewrite (init_records_fresh _ _ _ _ Hinit Hr0). simpl.
    repeat split; auto. discriminate. }
  destruct (run_untouched rn (fun _ => True) es _ Hnc
              (always_respects rn es) (H0 _) r Hr) as (Hd & Hq & _).
  split; [exact Hd|]. split; [exact Hq|]. split.
  - intros s Hs.
    exists (read_data (mgr (run es (world0 fm))) r s rn None).
    unfold result, status. rewrite bind_run. unfold get_mgr. cbv beta iota.
    unfold robot_of in Hr. rewrite Hr, Hs.
    rewrite bind_run, (get_robot_state_run _ _ _ _ Hs).
    rewrite (read_arrival_no_destination _ _ _ Hd). simpl.
    repeat split.
    + apply is_replan_mode_iff.
    + apply is_replan_mode_iff.
    + intros Hquiet.
      destruct (run_untouched rn _ es _ Hnc (quiet_respects rn es Hquiet)
                  (H0 _) r Hr) as (_ & _ & HP).
      exact (HP s Hs).
  - intros w robot n s d w' Hs Hrun.
    rewrite (get_robot_state_run _ _ _ _ Hs) in Hrun.
    destruct (read_arrival (mgr w) robot s); [|discriminate Hrun].
    injection Hrun as <- _. simpl. apply is_replan_mode_iff.
Qed.

(** C7 at the sample fleet: tinyRobot2 only ever reports, last with
    mode waiting, while tinyRobot1 is sent to a goal. *)
Lemma C7_replan_is_derived_from_reported_mode_witness :
  let waiting :=
    Sample.report "tinyRobot2" "" MODE_WAITING (Sample.loc 0 0 0) in
  let es :=
    [Report (Sample.report "tinyRobot2" "" MODE_MOVING (Sample.loc 0 0 0));
     Report (Sample.report "tinyRobot1" "" MODE_IDLE (Sample.loc 1 2 0));
     Navigate "tinyRobot1" 5 (Sample.goal 4 6 0) Sample.noon;
     Report waiting] in
  let r := mkState (Some waiting) None None None (Some false)
                   (PyFloat.zero, PyFloat.zero) in
  never_commanded "tinyRobot2" es = true /\
  robot_of (run es (world0 Sample.fm0)) "tinyRobot2" = Some r /\
  destination r = None.
Proof.
  intros waiting es r.
  assert (Hnc : never_commanded "tinyRobot2" es = true)
    by (vm_compute; reflexivity).
  assert (Hr : robot_of (run es (world0 Sample.fm0)) "tinyRobot2" = Some r)
    by (vm_compute; reflexivity).
  split; [exact Hnc|]. split; [exact Hr|].
  exact (proj1 (C7_replan_is_derived_from_reported_mode
                  Sample.config Sample.fm0 es "tinyRobot2" r
                  sample_init Hnc Hr)).
Defined.

(** ** Printing and reading back a correlation id *)

Lemma string_of_uint_digits d :
  all_digits (NilEmpty.string_of_uint d) = true /\
  forall acc,
    digits_value_from (NilEmpty.string_of_uint d) acc = uint_value_from d acc.
Proof.
  induction d as [|d [IH1 IH2]|d [IH1 IH2]|d [IH1 IH2]|d [IH1 IH2]
                  |d [IH1 IH2]|d [IH1 IH2]|d [IH1 IH2]|d [IH1 IH2]
                  |d [IH1 IH2]|d [IH1 IH2]];
    simpl; (split; [try exact IH1; reflexivity|]); intros acc;
    try reflexivity; apply IH2.
Qed.

Lemma uint_value_from_revapp d : forall d',
  uint_value_from d (Z.of_N (Unsigned.of_lu d'))
  = Z.of_N (Unsigned.of_lu (Decimal.revapp d d')).
Proof.
  induction d; intros d'; cbn [uint_value_from Decimal.revapp];
    [reflexivity | ..];
    rewrite <- IHd; f_equal; cbn [Unsigned.of_lu]; lia.
Qed.

Lemma uint_value_to_uint p : uint_value_from (Pos.to_uint p) 0 = Zpos p.
Proof.
  change 0 with (Z.of_N (Unsigned.of_lu Decimal.Nil)).
  rewrite uint_value_from_revapp.
  fold (Decimal.rev (Pos.to_uint p)).
  now rewrite <- Unsigned.of_uint_alt, Unsigned.of_to.
Qed.

Lemma string_of_uint_nonempty d :
  d <> Decimal.Nil -> NilEmpty.string_of_uint d <> EmptyString.
Proof. destruct d; simpl; congruence. Qed.

Lemma py_str_pos p :
  isdigit (py_str (Zpos p)) = true /\ digits_value (py_str (Zpos p)) = Zpos p.
Proof.
  unfold py_str. simpl Z.to_int. simpl NilZero.string_of_int.
  pose proof (Unsigned.to_uint_nonnil p) as Hn.
  assert (Hs : NilZero.string_of_uint (Pos.to_uint p)
               = NilEmpty.string_of_uint (Pos.to_uint p)).
  { destruct (Pos.to_uint p); try reflexivity. congruence. }
  rewrite Hs.
  destruct (string_of_uint_digits (Pos.to_uint p)) as [Hd Hv].
  split.
  - pose proof (string_of_uint_nonempty _ Hn) as Hne.
    unfold isdigit. destruct (NilEmpty.string_of_uint (Pos.to_uint p));
      [congruence|exact Hd].
  - unfold digits_value. rewrite Hv. apply uint_value_to_uint.
Qed.

(** [int(str(n)) == n] *)
Lemma py_int_py_str n : py_int (py_str n) = Return n.
Proof.
  destruct n as [|p|p].
  - reflexivity.
  - destruct (py_str_pos p) as [Hd Hv].
    now rewrite (py_int_isdigit _ Hd), Hv.
  - destruct (py_str_pos p) as [Hd Hv].
    assert (Hneg : py_str (Zneg p) = String "-" (py_str (Zpos p))).
    { reflexivity. }
    rewrite Hneg.
    pose proof (py_int_isdigit _ Hd) as Hint.
    destruct (py_str (Zpos p)) as [|c r] eqn:Hs; [discriminate Hd|].
    assert (Hall : all_digits (String c r) = true) by exact Hd.
    unfold py_int in *.
    rewrite (lstrip_digits _ Hd), (rstrip_digits _ Hall) in Hint.
    change (lstrip (String "-" (String c r))) with (String "-" (String c r)).
    assert (Hr : rstrip (String "-" (String c r)) = String "-" (String c r)).
    { pose proof (rstrip_digits _ Hall) as Hrs.
      cbn [rstrip] in *. now rewrite Hrs. }
    rewrite Hr.
    assert (Hu : int_unsigned (String c r) = Some (digits_value (String c r))).
    { simpl in Hall. apply andb_true_iff in Hall as [Hc Hall].
      simpl. rewrite Hc. unfold digits_value. simpl.
      now apply int_digits_all_digits. }
    cbv beta iota. rewrite Hu. simpl. now rewrite Hv.
Qed.

(** ** The arrival estimate *)

Lemma sub_self a : PyFloat.is_finite a = true -> PyFloat.sub a a = PyFloat.zero.
Proof.
  destruct a as [s|s| |s m e]; try discriminate; intros _.
  - now destruct s.
  - unfold PyFloat.sub, SFsub. cbv zeta. now rewrite Z.sub_diag.
Qed.

Lemma fabs_finite a : PyFloat.is_finite (PyFloat.fabs a) = PyFloat.is_finite a.
Proof. now destruct a. Qed.

Lemma disp_same a b :
  PyFloat.is_finite a = true -> PyFloat.is_finite b = true ->
  disp_value (a, b) (a, b) = Return PyFloat.zero.
Proof.
  intros Ha Hb. unfold disp_value. simpl fst. simpl snd.
  now rewrite (sub_self a Ha), (sub_self b Hb).
Qed.

Lemma zero_over_velocity v :
  usable_velocity v = true ->
  exists s, PyFloat.truediv PyFloat.zero v = Return (S754_zero s).
Proof.
  destruct v as [s|s| |s m e]; try discriminate; intros _;
    eexists; reflexivity.
Qed.

Lemma arrival_at_destination self position angle dst req n :
  x dst = fst (arrival_position self position) ->
  y dst = snd (arrival_position self position) ->
  yaw dst = angle ->
  PyFloat.is_finite (x dst) = true ->
  PyFloat.is_finite (y dst) = true ->
  PyFloat.is_finite (yaw dst) = true ->
  usable_velocity (nominal_velocity (linear (vehicle_traits self))) = true ->
  usable_velocity (nominal_velocity (rotational (vehicle_traits self))) = true ->
  pr_task_id req = py_str n ->
  exists a,
    arrival_outcome self position angle dst req = Return a /\
    arr_cmd_id a = n /\ PyFloat.is_zero (duration a) = true.
Proof.
  intros Hx Hy Hyaw Fx Fy Fyaw Hlin Hrot Hreq.
  unfold arrival_outcome, result, arrival_estimate.
  assert (Hp : arrival_position self position = (x dst, y dst)).
  { destruct (arrival_position self position); simpl in *; congruence. }
  unfold arrival_position in Hp. cbv zeta. subst angle.
  rewrite bind_run, disp_run.
  assert (Hd : disp_value
                 (if gps self
                  then (PyFloat.sub (fst position) (fst (offset self)),
                        PyFloat.sub (snd position) (snd (offset self)))
                  else position) (x dst, y dst)
               = Return PyFloat.zero).
  { destruct (gps self); rewrite Hp; apply (disp_same _ _ Fx Fy). }
  match goal with
  | |- context [disp_value ?p ?q] => change (disp_value p q) with
        (disp_value
           (if gps self
            then (PyFloat.sub (fst position) (fst (offset self)),
                  PyFloat.sub (snd position) (snd (offset self)))
            else position) (x dst, y dst))
  end.
  rewrite Hd. cbv beta iota.
  rewrite (sub_self (PyFloat.fabs (yaw dst)));
    [|now rewrite fabs_finite].
  change (PyFloat.fabs PyFloat.zero) with PyFloat.zero.
  change (PyFloat.ltb PyFloat.pi PyFloat.zero) with false.
  cbv beta iota.
  change (PyFloat.ltb PyFloat.zero (PyFloat.neg PyFloat.pi)) with false.
  cbv beta iota.
  destruct (zero_over_velocity _ Hlin) as [s1 H1].
  destruct (zero_over_velocity _ Hrot) as [s2 H2].
  rewrite bind_run, lift_run, H1. cbv beta iota.
  rewrite bind_run, lift_run, H2. cbv beta iota.
  rewrite bind_run, lift_run, Hreq, py_int_py_str. cbv beta iota.
  eexists. split; [reflexivity|]. split; [reflexivity|].
  now destruct s1, s2.
Qed.

(** C8 (as claimed, refuted): in the geodetic world the commanded
    destination of tinyRobot1 has the position and yaw of its reported
    pose, and [status] returns an arrival estimate whose duration is
    not zero. *)
Lemma C8_same_pose_nonzero_duration_in_geodetic_mode :
  exists r s dst d a,
    gps (mgr geodetic_world) = true /\
    robot_of geodetic_world "tinyRobot1" = Some r /\
    state r = Some s /\ destination r = Some dst /\
    x dst = x (location s) /\ y dst = y (location s) /\
    yaw dst = yaw (location s) /\
    result (status (Some "tinyRobot1")) geodetic_world
    = Return (mkResponse (Some (DataRobot d)) true "") /\
    d_destination_arrival d = Some a /\
    PyFloat.is_zero (duration a) = false.
Proof.
  do 5 eexists. vm_compute. repeat split.
Qed.

(** C8 (amended): a read returns no arrival estimate when the record
    has no commanded destination.  When the destination's position is
    the position the estimate starts from -- the reported position in
    planar mode, the cached planar position minus the reference offset
    in geodetic mode -- and its yaw is the reported yaw, all three being
    finite, and the two nominal velocities are neither zero nor NaN,
    the read returns an estimate for the last command's correlation id
    whose duration is zero. *)
Theorem C8_arrival_estimate_absent_or_zero
    (w : World) (robot : State) (rn : string) (s : RobotState) :
  state robot = Some s ->
  (destination robot = None ->
   exists d, result (get_robot_state robot rn) w = Return d
             /\ d_destination_arrival d = None) /\
  (gps (mgr w) = false ->
   arrival_position (mgr w) (read_position (mgr w) robot s)
   = (x (location s), y (location s))) /\
  (forall dst req n,
     destination robot = Some dst ->
     last_path_request robot = Some req ->
     pr_task_id req = py_str n ->
     x dst = fst (arrival_position (mgr w) (read_position (mgr w) robot s)) ->
     y dst = snd (arrival_position (mgr w) (read_position (mgr w) robot s)) ->
     yaw dst = yaw (location s) ->
     PyFloat.is_finite (x dst) = true ->
     PyFloat.is_finite (y dst) = true ->
     PyFloat.is_finite (yaw dst) = true ->
     usable_velocity (nominal_velocity (linear (vehicle_traits (mgr w))))
     = true ->
     usable_velocity (nominal_velocity (rotational (vehicle_traits (mgr w))))
     = true ->
     exists d a,
       result (get_robot_state robot rn) w = Return d /\
       d_destination_arrival d = Some a /\
       arr_cmd_id a = n /\
       PyFloat.is_zero (duration a) = true).
Proof.
  intros Hs. split; [|split].
  - intros Hd. unfold result.
    rewrite (get_robot_state_run _ _ _ _ Hs),
            (read_arrival_no_destination _ _ _ Hd).
    eexists. split; reflexivity.
  - intros Hg. unfold arrival_position, read_position. now rewrite Hg.
  - intros dst req n Hd Hreq Hid Hx Hy Hyaw Fx Fy Fyaw Hlin Hrot.
    destruct (arrival_at_destination (mgr w) (read_position (mgr w) robot s)
                (yaw (location s)) dst req n Hx Hy Hyaw Fx Fy Fyaw
                Hlin Hrot Hid) as (a & Ha & Hn & Hz).
    unfold result. rewrite (get_robot_state_run _ _ _ _ Hs).
    unfold read_arrival. rewrite Hd, Hreq, Ha.
    eexists _, a. repeat split; auto.
Qed.

(** C8 at the sample fleet in planar mode: tinyRobot1 reports from
    (1, 2) with yaw 0 and is sent to that very pose. *)
Lemma C8_arrival_estimate_absent_or_zero_witness :
  let s := Sample.report "tinyRobot1" "" MODE_IDLE (Sample.loc 1 2 0) in
  let w := after (navigate "tinyRobot1" 5 (Sample.goal 1 2 0) Sample.noon)
                 Sample.w_reported in
  let robot := Sample.record w "tinyRobot1" in
  robot_of w "tinyRobot1" = Some robot /\
  state robot = Some s /\
  destination robot = Some (Sample.target w "tinyRobot1") /\
  last_path_request robot = Some (Sample.command w "tinyRobot1") /\
  exists d a,
    result (get_robot_state robot "tinyRobot1") w = Return d /\
    d_destination_arrival d = Some a /\
    arr_cmd_id a = 5 /\
    PyFloat.is_zero (duration a) = true.
Proof.
  intros s w robot.
  assert (Hs : state robot = Some s) by (vm_compute; reflexivity).
  assert (Hd : destination robot = Some (Sample.target w "tinyRobot1"))
    by (vm_compute; reflexivity).
  assert (Hq : last_path_request robot = Some (Sample.command w "tinyRobot1"))
    by (vm_compute; reflexivity).
  split; [vm_compute; reflexivity|].
  split; [exact Hs|]. split; [exact Hd|]. split; [exact Hq|].
  refine (proj2 (proj2 (C8_arrival_estimate_absent_or_zero
                          w robot "tinyRobot1" s Hs))
            _ _ 5 Hd Hq _ _ _ _ _ _ _ _ _);
    vm_compute; reflexivity.
Defined.

(** ** The theorems above at the sample fleet *)

(** C1 at the sample fleet: tinyRobot1 was sent command 5 and reports
    that it is following command 4. *)
Lemma C1_stale_report_resends_last_command_witness :
  let msg := Sample.report "tinyRobot1" "4" MODE_MOVING (Sample.loc 1 2 0) in
  let w := Sample.w_commanded in
  let r := Sample.record w "tinyRobot1" in
  let req := Sample.command w "tinyRobot1" in
  robot_of w "tinyRobot1" = Some r /\
  last_path_request r = Some req /\
  pr_task_id req = "5" /\
  robot_of (after (robot_state_cb msg) w) "tinyRobot1" = Some r /\
  published (after (robot_state_cb msg) w)
  = (published w ++ [path_pub req])%list.
Proof.
  intros msg w r req.
  assert (Hrec : robot_of w (name msg) = Some r) by (vm_compute; reflexivity).
  assert (Hq : last_path_request r = Some req) by (vm_compute; reflexivity).
  assert (Hact : truthy (perform_action_mode r) = false)
    by (vm_compute; reflexivity).
  assert (Hid : pr_task_id req = "5") by (vm_compute; reflexivity).
  assert (Hne : task_id msg <> pr_task_id req)
    by (rewrite Hid; discriminate).
  split; [exact Hrec|]. split; [exact Hq|]. split; [exact Hid|].
  exact (proj2 (proj2
    (C1_stale_report_resends_last_command w msg r req Hrec Hq Hact Hne))).
Defined.


(** C5 at the sample fleet: no robot is called tinyRobot9. *)
Lemma C5_navigate_unknown_robot_fails_closed_witness :
  let w := Sample.w_reported in
  dict_mem (robots (mgr w)) "tinyRobot9" = false /\
  after (navigate "tinyRobot9" 5 (Sample.goal 4 6 0) Sample.noon) w = w.
Proof.
  intros w.
  assert (H : dict_mem (robots (mgr w)) "tinyRobot9" = false)
    by (vm_compute; reflexivity).
  split; [exact H|].
  exact (proj1 (proj2
    (C5_navigate_unknown_robot_fails_closed
       w "tinyRobot9" 5 (Sample.goal 4 6 0) Sample.noon H))).
Defined.

(** C6 at the sample fleet: tinyRobot1 is sent command 5 and reports,
    on its way at (2, 3), that it is following command 5. *)
Lemma C6_matching_report_keeps_destination_witness :
  let msg := Sample.report "tinyRobot1" "5" MODE_MOVING (Sample.loc 2 3 0) in
  let w1 := after (navigate "tinyRobot1" 5 (Sample.goal 4 6 0) Sample.noon)
                  Sample.w_reported in
  let w2 := after (robot_state_cb msg) w1 in
  exists r1 r2 loc req,
    robot_of w1 "tinyRobot1" = Some r1 /\
    destination r1 = Some loc /\
    last_path_request r1 = Some req /\
    pr_task_id req = py_str 5 /\
    result (robot_state_cb msg) w1 = Return tt /\
    robot_of w2 "tinyRobot1" = Some r2 /\
    state r2 = Some msg /\
    destination r2 = destination r1 /\
    last_path_request r2 = last_path_request r1 /\
    last_completed_request r2 = last_completed_request r1 /\
    effects w2 = effects w1.
Proof.
  intros msg w1 w2.
  assert (Hidle : mode (rs_mode msg) <> MODE_IDLE) by discriminate.
  assert (Hchg : mode (rs_mode msg) <> MODE_CHARGING) by discriminate.
  exact (C6_matching_report_keeps_destination
           Sample.w_reported "tinyRobot1" 5 (Sample.goal 4 6 0) Sample.noon
           (mkResponse None true "") msg
           sample_navigate eq_refl eq_refl eq_refl Hidle Hchg).
Defined.

(** * Further properties of the handlers *)

(** ** Robots outside the roster *)

(** X1: a robot name outside the roster is refused by every handler
    that takes one: [stop], [start_activity], [toggle_teleop] and
    [toggle_attach] return the unsuccessful response, [status] for that
    name returns success=false with empty data, and a state report
    carrying that name is ignored; in each case the world (records and
    effects) is exactly what it was. *)
Theorem X1_unknown_robot_is_refused (w : World) (rn : string) :
  dict_mem (robots (mgr w)) rn = false ->
  (forall a b, stop rn a b w = (Return failure, w)) /\
  (forall cmd req, start_activity rn cmd req w = (Return failure, w)) /\
  (forall md, toggle_teleop rn md w = (Return failure, w)) /\
  (forall cmd md, toggle_attach rn cmd md w = (Return failure, w)) /\
  status (Some rn) w = (Return (mkResponse (Some DataEmpty) false ""), w) /\
  (forall msg, name msg = rn -> robot_state_cb msg w = (Return tt, w)).
Proof.
  intros Hmem.
  assert (Hget : dict_get (robots (mgr w)) rn = None).
  { unfold dict_mem in Hmem. now destruct (dict_get (robots (mgr w)) rn). }
  repeat split; intros.
  - unfold stop, bind, get_mgr. now rewrite Hmem.
  - unfold start_activity, bind, get_mgr. now rewrite Hmem.
  - unfold toggle_teleop, bind, get_mgr. now rewrite Hmem.
  - unfold toggle_attach, bind, get_mgr. now rewrite Hmem.
  - unfold status, bind, get_mgr. now rewrite Hget.
  - subst rn. unfold robot_state_cb, bind, get_mgr. now rewrite Hmem.
Qed.

(** X1 at the sample fleet: no robot is called tinyRobot9. *)
Lemma X1_unknown_robot_is_refused_witness :
  dict_mem (robots (mgr Sample.w_commanded)) "tinyRobot9" = false /\
  stop "tinyRobot9" 5 6 Sample.w_commanded
  = (Return failure, Sample.w_commanded).
Proof.
  assert (H : dict_mem (robots (mgr Sample.w_commanded)) "tinyRobot9" = false)
    by (vm_compute; reflexivity).
  split; [exact H|].
  exact (proj1 (X1_unknown_robot_is_refused Sample.w_commanded "tinyRobot9" H)
           5 6).
Defined.

(** ** toggle_attach and toggle_teleop *)

(** X2: for a robot of the roster, reported or not, [toggle_attach]
    returns success, leaves the manager as it was and publishes exactly
    one message: a mode request on robot_mode_requests for that robot
    and fleet, with mode performing-action, the caller's id, and the
    action attach_cart when the toggle is true and detach_cart when it
    is false or missing. *)
Theorem X2_toggle_attach_publishes_one_mode_request
    (w : World) (rn : string) (cmd : Z) (md : Request) :
  dict_mem (robots (mgr w)) rn = true ->
  let m := mkModeRequest (fleet_name (mgr w)) rn
             (mkRobotMode MODE_PERFORMING_ACTION cmd
                (if truthy (toggle md) then "attach_cart"
                 else "detach_cart")) in
  result (toggle_attach rn cmd md) w = Return (mkResponse None true "") /\
  mgr (after (toggle_attach rn cmd md) w) = mgr w /\
  published (after (toggle_attach rn cmd md) w)
  = (published w ++ [mode_pub m])%list.
Proof.
  intros Hmem m. unfold result, after, toggle_attach.
  rewrite bind_run. unfold get_mgr. cbv beta iota. rewrite Hmem. simpl negb.
  cbv iota. subst m. unfold published.
  destruct (truthy (toggle md)); simpl;
    rewrite <- app_assoc, filter_app; simpl; auto.
Qed.

(** X2 at the sample fleet, for a robot that has not reported. *)
Lemma X2_toggle_attach_publishes_one_mode_request_witness :
  let md := mkRequest None None None None None (Some true) in
  published (after (toggle_attach "tinyRobot2" 7 md) (world0 Sample.fm0))
  = [mode_pub (mkModeRequest "tinyRobot" "tinyRobot2"
                 (mkRobotMode MODE_PERFORMING_ACTION 7 "attach_cart"))].
Proof.
  intros md.
  exact (proj2 (proj2
    (X2_toggle_attach_publishes_one_mode_request
       (world0 Sample.fm0) "tinyRobot2" 7 md eq_refl))).
Defined.


(** What an accepted report leaves behind. *)
Lemma accepted_report_record w msg r :
  robot_of w (name msg) = Some r ->
  accepted r msg = true ->
  result (robot_state_cb msg) w = Return tt /\
  published (after (robot_state_cb msg) w) = published w /\
  (forall k, k <> name msg ->
             robot_of (after (robot_state_cb msg) w) k = robot_of w k) /\
  exists r',
    robot_of (after (robot_state_cb msg) w) (name msg) = Some r' /\
    state r' = Some msg /\
    last_path_request r' = last_path_request r /\
    perform_action_mode r' = perform_action_mode r /\
    gps_pos r' = gps_pos r /\
    (if completes msg
     then destination r' = None
          /\ last_completed_request r' = Some (digits_value (task_id msg))
     else destination r' = destination r
          /\ last_completed_request r' = last_completed_request r).
Proof.
  intros Hr Hacc. unfold result, after.
  destruct (completes msg) eqn:Hc.
  - pose proof (py_int_isdigit _ (completes_isdigit _ Hc)) as Hint.
    rewrite (accepted_completed_run _ _ _ _ Hr Hacc Hc Hint). simpl.
    repeat split.
    + unfold published. simpl. rewrite filter_app.
      destruct (differs _ _ && debug (mgr w)); simpl; now rewrite app_nil_r.
    + intros k Hk. unfold robot_of. simpl.
      apply dict_get_set_other. congruence.
    + eexists. split; [unfold robot_of; simpl; apply dict_get_set_same|].
      simpl. auto 10.
  - rewrite (accepted_plain_run _ _ _ Hr Hacc Hc). simpl.
    repeat split.
    + intros k Hk. unfold robot_of. simpl.
      apply dict_get_set_other. congruence.
    + eexists. split; [unfold robot_of; simpl; apply dict_get_set_same|].
      simpl. auto 10.
Qed.



(** ** stop *)

Lemma py_str_inj a b : py_str a = py_str b -> a = b.
Proof.
  intros H. pose proof (py_int_py_str a) as Ha.
  rewrite H, py_int_py_str in Ha. now injection Ha.
Qed.

Lemma stop_run w rn a b r s :
  robot_of w rn = Some r ->
  state r = Some s ->
  stop rn a b w
  = (Return (mkResponse None true ""),
     mkWorld (set_robots (mgr w)
                (dict_set (robots (mgr w)) rn
                   (mkState (Some s) None
                            (Some (stop_request (mgr w) rn s b))
                            (last_completed_request r)
                            (perform_action_mode r) (gps_pos r))))
             (effects w ++ path_pub (stop_request (mgr w) rn s b)
                :: (if debug (mgr w)
                    then [print ("Sending stop request for " ++ rn ++ ": "
                                 ++ py_str a)]
                    else []))).
Proof.
  intros Hr Hs. pose proof Hr as Hr'. unfold robot_of in Hr'.
  unfold stop. rewrite bind_run. unfold get_mgr. cbv beta iota.
  unfold dict_mem. rewrite Hr'. cbv beta iota delta [negb].
  rewrite bind_run, getitem_run, Hr'. cbv beta iota.
  rewrite bind_run, attr_of_run, Hs. cbv beta iota.
  rewrite bind_run, attr_of_run. cbv beta iota.
  rewrite bind_run. unfold emit at 1. cbv beta iota.
  rewrite bind_run. simpl mgr. rewrite when_emit_run. cbv beta iota.
  fold (stop_request (mgr w) rn s b).
  set (w2 := mkWorld _ _).
  assert (H2 : robot_of w2 rn = Some r) by exact Hr.
  rewrite bind_run, (modify_robot_run _ _ _ _ H2).
  set (w3 := mkWorld _ _).
  assert (H3 : robot_of w3 rn
               = Some (set_last_path_request r
                         (Some (stop_request (mgr w) rn s b)))).
  { unfold robot_of; simpl. apply dict_get_set_same. }
  rewrite bind_run, (modify_robot_run _ _ _ _ H3).
  unfold ret. subst w3 w2. simpl.
  rewrite dict_set_set, <- app_assoc.
  unfold set_destination, set_last_path_request, set_robots. simpl.
  now rewrite Hs.
Qed.

(** X4: [stop] for a robot that has reported returns success and
    publishes exactly one path request: the robot's last reported
    location twice, under the stop correlation id.  It records that
    request as the robot's last command and clears the commanded
    destination; the reported state, the last completed id and every
    other robot are left as they were. *)
Theorem X4_stop_holds_position_and_clears_destination
    (w : World) (rn : string) (a b : Z) (r : State) (s : RobotState) :
  robot_of w rn = Some r ->
  state r = Some s ->
  let w1 := after (stop rn a b) w in
  let req := mkPathRequest (fleet_name (mgr w)) rn [location s; location s]
                           (py_str b) in
  result (stop rn a b) w = Return (mkResponse None true "") /\
  published w1 = (published w ++ [path_pub req])%list /\
  robot_of w1 rn
  = Some (mkState (Some s) None (Some req) (last_completed_request r)
                  (perform_action_mode r) (gps_pos r)) /\
  (forall k, k <> rn -> robot_of w1 k = robot_of w k).
Proof.
  intros Hr Hs w1 req. subst w1. unfold result, after.
  rewrite (stop_run w rn a b r s Hr Hs). simpl.
  repeat split.
  - unfold published. simpl. rewrite filter_app. simpl.
    now destruct (debug (mgr w)).
  - unfold robot_of. simpl. apply dict_get_set_same.
  - intros k Hk. unfold robot_of. simpl.
    apply dict_get_set_other. congruence.
Qed.

(** X4 at the sample fleet: tinyRobot1, on its way to (4, 6), is
    stopped. *)
Lemma X4_stop_holds_position_and_clears_destination_witness :
  let w := Sample.w_commanded in
  let s := Sample.report "tinyRobot1" "" MODE_IDLE (Sample.loc 1 2 0) in
  robot_of w "tinyRobot1" = Some (Sample.record w "tinyRobot1") /\
  state (Sample.record w "tinyRobot1") = Some s /\
  published (after (stop "tinyRobot1" 5 6) w)
  = (published w
     ++ [path_pub (mkPathRequest "tinyRobot" "tinyRobot1"
                     [Sample.loc 1 2 0; Sample.loc 1 2 0] "6")])%list.
Proof.
  intros w s.
  assert (Hr : robot_of w "tinyRobot1" = Some (Sample.record w "tinyRobot1"))
    by (vm_compute; reflexivity).
  assert (Hs : state (Sample.record w "tinyRobot1") = Some s)
    by (vm_compute; reflexivity).
  split; [exact Hr|]. split; [exact Hs|].
  exact (proj1 (proj2
    (X4_stop_holds_position_and_clears_destination
       w "tinyRobot1" 5 6 _ s Hr Hs))).
Defined.

(** X5: a stop supersedes the command it interrupts.  After [stop]
    under id [b], with action mode off, a report of the robot that
    still carries another id (for instance that of the interrupted
    command) is dropped, and the stop request is published once more;
    the record stays as [stop] left it. *)
Theorem X5_stop_is_resent_to_a_robot_still_on_its_old_command
    (w : World) (rn : string) (a b c : Z) (r : State) (s : RobotState)
    (msg : RobotState) :
  robot_of w rn = Some r ->
  state r = Some s ->
  truthy (perform_action_mode r) = false ->
  name msg = rn ->
  task_id msg = py_str c ->
  c <> b ->
  let w1 := after (stop rn a b) w in
  let w2 := after (robot_state_cb msg) w1 in
  let req := mkPathRequest (fleet_name (mgr w)) rn [location s; location s]
                           (py_str b) in
  result (robot_state_cb msg) w1 = Return tt /\
  mgr w2 = mgr w1 /\
  published w2 = (published w ++ [path_pub req; path_pub req])%list.
Proof.
  intros Hr Hs Hact Hname Htid Hne w1 w2 req.
  pose proof (stop_run w rn a b r s Hr Hs) as Hstop.
  fold (stop_request (mgr w) rn s b) in req.
  assert (Hpub : published w1 = (published w ++ [path_pub req])%list).
  { subst w1. unfold after. rewrite Hstop. unfold published. simpl.
    rewrite filter_app. simpl. now destruct (debug (mgr w)). }
  assert (Hr1 : robot_of w1 (name msg)
                = Some (mkState (Some s) None (Some req)
                          (last_completed_request r)
                          (perform_action_mode r) (gps_pos r))).
  { subst w1. unfold after. rewrite Hstop, Hname. unfold robot_of. simpl.
    apply dict_get_set_same. }
  assert (Hacc : accepted (mkState (Some s) None (Some req)
                             (last_completed_request r)
                             (perform_action_mode r) (gps_pos r)) msg = false).
  { unfold accepted, is_expected_task_id. simpl. rewrite Hact, Htid.
    destruct (String.eqb (py_str c) (py_str b)) eqn:E; [|reflexivity].
    apply String.eqb_eq, py_str_inj in E. contradiction. }
  pose proof (stale_report_run w1 msg _ req Hr1 eq_refl Hacc) as Hrun.
  subst w2. unfold result, after. rewrite Hrun. simpl.
  repeat split.
  unfold published at 1. simpl. rewrite filter_app, filter_app. simpl.
  fold (published w1). rewrite Hpub, <- app_assoc.
  now destruct (debug (mgr w1)).
Qed.

(** X5 at the sample fleet: tinyRobot1, sent command 5 and stopped under
    id 6, reports that it is still following command 5. *)
Lemma X5_stop_is_resent_to_a_robot_still_on_its_old_command_witness :
  let w := Sample.w_commanded in
  let s := Sample.report "tinyRobot1" "" MODE_IDLE (Sample.loc 1 2 0) in
  let msg := Sample.report "tinyRobot1" "5" MODE_MOVING (Sample.loc 2 3 0) in
  let w1 := after (stop "tinyRobot1" 5 6) w in
  mgr (after (robot_state_cb msg) w1) = mgr w1.
Proof.
  intros w s msg w1.
  assert (Hr : robot_of w "tinyRobot1" = Some (Sample.record w "tinyRobot1"))
    by (vm_compute; reflexivity).
  assert (Hs : state (Sample.record w "tinyRobot1") = Some s)
    by (vm_compute; reflexivity).
  assert (Hact : truthy (perform_action_mode (Sample.record w "tinyRobot1"))
                 = false) by (vm_compute; reflexivity).
  assert (Hne : 5 <> 6) by discriminate.
  exact (proj1 (proj2
    (X5_stop_is_resent_to_a_robot_still_on_its_old_command
       w "tinyRobot1" 5 6 5 _ s msg Hr Hs Hact eq_refl eq_refl Hne))).
Defined.

(** ** navigate *)

Lemma record_dispatch_run w rn r req loc line dat :
  robot_of w rn = Some r ->
  (emit (path_pub req) ;;;
   when (debug (mgr w)) (emit (print line)) ;;;
   modify_robot rn (fun r => set_last_path_request r (Some req)) ;;;
   modify_robot rn (fun r => set_destination r (Some loc)) ;;;
   ret (mkResponse dat true "")) w
  = (Return (mkResponse dat true ""), dispatch_to w rn r req loc line).
Proof.
  intros Hr.
  destruct ((emit (path_pub req) ;;;
             when (debug (mgr w)) (emit (print line)) ;;;
             modify_robot rn (fun r => set_last_path_request r (Some req)) ;;;
             modify_robot rn (fun r => set_destination r (Some loc)) ;;;
             ret (mkResponse dat true "")) w) as [o w'] eqn:H.
  destruct (record_dispatch _ _ _ _ _ _ _ _ _ Hr H) as (-> & Hm & He).
  f_equal. unfold dispatch_to. rewrite <- Hm, <- He. now destruct w'.
Qed.

(** [navigate] for a robot of the roster, step by step. *)
Lemma navigate_run w rn cmd dest now r :
  robot_of w rn = Some r ->
  navigate rn cmd dest now w
  = match navigate_plan (mgr w) dest now (state r) with
    | Raise e => (Raise e, w)
    | Return None => (Return failure, w)
    | Return (Some (cur, loc)) =>
        (Return (mkResponse None true ""),
         dispatch_to w rn r
           (mkPathRequest (fleet_name (mgr w)) rn [cur; loc] (py_str cmd)) loc
           ("Sending navigate request for " ++ rn ++ ": " ++ py_str cmd))
    end.
Proof.
  intros Hr. pose proof Hr as Hr'. unfold robot_of in Hr'.
  unfold navigate, navigate_plan.
  rewrite bind_run. unfold get_mgr. cbv beta iota.
  unfold dict_mem. rewrite Hr'. cbv beta iota delta [negb].
  destruct (destination_of dest) as [d|]; [|reflexivity].
  destruct (Z.of_nat (List.length d) <? 1); [reflexivity|].
  rewrite bind_run, getitem_run, Hr'. cbv beta iota.
  unfold oget.
  rewrite bind_run, getitem_run.
  destruct (dict_get d "x") as [tx|]; [|reflexivity].
  cbv beta iota delta [obind].
  rewrite bind_run, getitem_run.
  destruct (dict_get d "y") as [ty|]; [|reflexivity].
  cbv beta iota.
  rewrite bind_run, getitem_run.
  destruct (dict_get d "yaw") as [tyaw|]; [|reflexivity].
  cbv beta iota zeta.
  rewrite bind_run, getitem_run, Hr'. cbv beta iota.
  rewrite bind_run, attr_of_run.
  destruct (state r) as [s|]; [|reflexivity].
  cbv beta iota.
  unfold navigate_duration.
  rewrite bind_run, disp_run.
  destruct (disp_value _ _) as [dsp|e]; [|reflexivity].
  cbv beta iota delta [obind].
  rewrite bind_run, lift_run.
  destruct (PyFloat.truediv dsp _) as [q1|e]; [|reflexivity].
  cbv beta iota.
  rewrite bind_run, lift_run.
  destruct (PyFloat.to_int q1) as [n1|e]; [|reflexivity].
  cbv beta iota.
  rewrite bind_run, lift_run.
  destruct (PyFloat.truediv _ _) as [q2|e]; [|reflexivity].
  cbv beta iota.
  rewrite bind_run, lift_run.
  destruct (PyFloat.to_int q2) as [n2|e]; [|reflexivity].
  cbv beta iota.
  unfold approach_limit.
  destruct (if ignore_speed_limit (mgr w) then None else speed_limit dest)
    as [lim|].
  - destruct (PyFloat.ltb PyFloat.zero lim);
      now rewrite (record_dispatch_run _ _ _ _ _ _ _ Hr).
  - now rewrite (record_dispatch_run _ _ _ _ _ _ _ Hr).
Qed.

Lemma navigate_plan_inv self dest now st cur loc :
  navigate_plan self dest now st = Return (Some (cur, loc)) ->
  exists s d tx ty tyaw dur,
    st = Some s /\ cur = location s /\
    destination_of dest = Some d /\
    dict_get d "x" = Some tx /\ dict_get d "y" = Some ty /\
    dict_get d "yaw" = Some tyaw /\
    navigate_duration self
      (PyFloat.sub tx (fst (offset self)), PyFloat.sub ty (snd (offset self)))
      tyaw cur = Return dur /\
    loc = match approach_limit self dest with
          | Some lim =>
              mkLocation (mkTime (sec now + dur) (nanosec now))
                (PyFloat.sub tx (fst (offset self)))
                (PyFloat.sub ty (snd (offset self))) tyaw true lim
                (map_name dest) 0
          | None =>
              mkLocation (mkTime (sec now + dur) (nanosec now))
                (PyFloat.sub tx (fst (offset self)))
                (PyFloat.sub ty (snd (offset self))) tyaw false PyFloat.zero
                (map_name dest) 0
          end.
Proof.
  unfold navigate_plan, oget. intros H.
  destruct (destination_of dest) as [d|]; [|discriminate H].
  destruct (Z.of_nat (List.length d) <? 1); [discriminate H|].
  destruct (dict_get d "x") as [tx|] eqn:Hx; [|discriminate H].
  destruct (dict_get d "y") as [ty|] eqn:Hy; [|discriminate H].
  destruct (dict_get d "yaw") as [tyaw|] eqn:Hyaw; [|discriminate H].
  cbv beta iota zeta delta [obind] in H.
  destruct st as [s|]; [|discriminate H].
  destruct (navigate_duration self _ tyaw (location s)) as [dur|e] eqn:Hd;
    [|discriminate H].
  injection H as <- <-.
  exists s, d, tx, ty, tyaw, dur. repeat split; auto.
Qed.



Lemma navigate_plan_set_robots fm d dest now st :
  navigate_plan (set_robots fm d) dest now st = navigate_plan fm dest now st.
Proof. reflexivity. Qed.

(** X7: there is no queue of commands.  When a [navigate] for a robot
    has succeeded, a second [navigate] for it decides and answers
    exactly as it would have without the first (its outcome depends on
    the robot's stored report, not on the command outstanding), and
    when it succeeds the manager is left as the second dispatch alone
    would have left it: last command and destination are those of the
    second dispatch.  Both requests have been published, in order. *)
Theorem X7_a_new_navigate_replaces_the_previous_one
    (w : World) (rn : string) (r : State)
    (cmdA : Z) (destA : Request) (nowA : Time) (respA : Response)
    (cmdB : Z) (destB : Request) (nowB : Time) :
  robot_of w rn = Some r ->
  result (navigate rn cmdA destA nowA) w = Return respA ->
  success respA = true ->
  let w1 := after (navigate rn cmdA destA nowA) w in
  result (navigate rn cmdB destB nowB) w1
  = result (navigate rn cmdB destB nowB) w /\
  (forall respB,
     result (navigate rn cmdB destB nowB) w1 = Return respB ->
     success respB = true ->
     mgr (after (navigate rn cmdB destB nowB) w1)
     = mgr (after (navigate rn cmdB destB nowB) w) /\
     exists reqA reqB,
       pr_task_id reqA = py_str cmdA /\ pr_task_id reqB = py_str cmdB /\
       published (after (navigate rn cmdB destB nowB) w1)
       = (published w ++ [path_pub reqA; path_pub reqB])%list).
Proof.
  intros Hr HresA HsA w1.
  unfold result, after in *.
  pose proof (navigate_run w rn cmdA destA nowA r Hr) as HA.
  destruct (navigate_plan (mgr w) destA nowA (state r))
    as [[[curA locA]|]|e] eqn:HpA;
    rewrite HA in HresA; simpl in HresA; try discriminate HresA.
  2: { injection HresA as <-. discriminate HsA. }
  assert (Hw1 : w1 = dispatch_to w rn r
                       (mkPathRequest (fleet_name (mgr w)) rn [curA; locA]
                                      (py_str cmdA)) locA
                       ("Sending navigate request for " ++ rn ++ ": "
                        ++ py_str cmdA)).
  { subst w1. now rewrite HA. }
  set (reqA := mkPathRequest (fleet_name (mgr w)) rn [curA; locA]
                             (py_str cmdA)) in *.
  set (r1 := mkState (state r) (Some locA) (Some reqA)
                     (last_completed_request r) (perform_action_mode r)
                     (gps_pos r)).
  assert (Hr1 : robot_of w1 rn = Some r1).
  { rewrite Hw1. unfold robot_of, dispatch_to. simpl.
    apply dict_get_set_same. }
  pose proof (navigate_run w1 rn cmdB destB nowB r1 Hr1) as HB1.
  pose proof (navigate_run w rn cmdB destB nowB r Hr) as HB.
  assert (Hplan : navigate_plan (mgr w1) destB nowB (state r1)
                  = navigate_plan (mgr w) destB nowB (state r)).
  { rewrite Hw1. reflexivity. }
  rewrite Hplan in HB1.
  rewrite HB1, HB.
  destruct (navigate_plan (mgr w) destB nowB (state r))
    as [[[curB locB]|]|e]; simpl.
  - split; [reflexivity|]. intros respB _ _. split.
    + rewrite Hw1. unfold dispatch_to. simpl. now rewrite dict_set_set.
    + exists reqA, (mkPathRequest (fleet_name (mgr w)) rn [curB; locB]
                                  (py_str cmdB)).
      repeat split.
      rewrite Hw1. unfold published, dispatch_to. simpl.
      rewrite !filter_app. simpl. rewrite <- app_assoc.
      now destruct (debug (mgr w)).
  - split; [reflexivity|]. intros respB [= <-]. discriminate.
  - split; [reflexivity|]. discriminate.
Qed.

(** X7 at the sample fleet: tinyRobot1 is sent to (4, 6) under id 5 and
    then to (0, 0) under id 6. *)
Lemma X7_a_new_navigate_replaces_the_previous_one_witness :
  let w := Sample.w_reported in
  let w1 := after (navigate "tinyRobot1" 5 (Sample.goal 4 6 0) Sample.noon) w in
  result (navigate "tinyRobot1" 6 (Sample.goal 0 0 0) Sample.noon) w1
  = result (navigate "tinyRobot1" 6 (Sample.goal 0 0 0) Sample.noon) w.
Proof.
  intros w w1.
  assert (Hr : robot_of w "tinyRobot1" = Some (Sample.record w "tinyRobot1"))
    by (vm_compute; reflexivity).
  exact (proj1 (X7_a_new_navigate_replaces_the_previous_one
                  w "tinyRobot1" _ 5 (Sample.goal 4 6 0) Sample.noon _
                  6 (Sample.goal 0 0 0) Sample.noon
                  Hr sample_navigate eq_refl)).
Defined.

(** ** Dispatch, read and completion *)

Lemma arrival_outcome_cmd_id self position angle dst req a n :
  arrival_outcome self position angle dst req = Return a ->
  pr_task_id req = py_str n ->
  arr_cmd_id a = n.
Proof.
  unfold arrival_outcome, result, arrival_estimate. intros H Hreq.
  rewrite bind_run, disp_run in H.
  destruct (disp_value _ _); [|discriminate H]. cbv beta iota in H.
  rewrite bind_run, lift_run in H.
  destruct (PyFloat.truediv _ _); [|discriminate H]. cbv beta iota in H.
  rewrite bind_run, lift_run in H.
  destruct (PyFloat.truediv _ _); [|discriminate H]. cbv beta iota in H.
  rewrite bind_run, lift_run, Hreq, py_int_py_str in H. cbv beta iota in H.
  unfold ret in H. simpl in H. now injection H as <-.
Qed.

(** X8: the read side gives back the id that was dispatched.  After a
    successful [navigate] under id [cmd], [status] for that robot never
    answers success=false and never omits the arrival estimate: either
    the arithmetic of the estimate raises, or the response is
    successful and its estimate carries [cmd] (the decimal text stored
    in the request converts back to the same integer, negative ids
    included). *)
Theorem X8_status_reports_the_dispatched_id
    (w : World) (rn : string) (cmd : Z) (dest : Request) (now : Time)
    (r : State) (resp : Response) :
  robot_of w rn = Some r ->
  result (navigate rn cmd dest now) w = Return resp ->
  success resp = true ->
  let w1 := after (navigate rn cmd dest now) w in
  (exists e, result (status (Some rn)) w1 = Raise e) \/
  (exists d a,
     result (status (Some rn)) w1
     = Return (mkResponse (Some (DataRobot d)) true "") /\
     d_robot_name d = rn /\
     d_destination_arrival d = Some a /\
     arr_cmd_id a = cmd).
Proof.
  intros Hr Hres Hs w1.
  pose proof (navigate_run w rn cmd dest now r Hr) as Hrun.
  unfold result in Hres. rewrite Hrun in Hres.
  destruct (navigate_plan (mgr w) dest now (state r))
    as [[[cur loc]|]|e0] eqn:Hp; simpl in Hres; try discriminate Hres.
  2: { injection Hres as <-. discriminate Hs. }
  destruct (navigate_plan_inv _ _ _ _ _ _ Hp)
    as (s & _ & _ & _ & _ & _ & Hst & -> & _).
  set (req := mkPathRequest (fleet_name (mgr w)) rn [location s; loc]
                            (py_str cmd)) in *.
  assert (Hr1 : dict_get (robots (mgr w1)) rn
                = Some (mkState (Some s) (Some loc) (Some req)
                          (last_completed_request r) (perform_action_mode r)
                          (gps_pos r))).
  { subst w1. unfold after. rewrite Hrun. unfold dispatch_to. simpl.
    rewrite dict_get_set_same. now rewrite Hst. }
  assert (Hstatus :
    status (Some rn) w1
    = (d <- get_robot_state
              (mkState (Some s) (Some loc) (Some req)
                 (last_completed_request r) (perform_action_mode r)
                 (gps_pos r)) rn ;;
       ret (mkResponse (Some (DataRobot d)) true "")) w1).
  { unfold status. rewrite bind_run. unfold get_mgr. cbv beta iota.
    now rewrite Hr1. }
  unfold result. rewrite Hstatus.
  rewrite bind_run.
  rewrite (get_robot_state_run
             (mkState (Some s) (Some loc) (Some req)
                (last_completed_request r) (perform_action_mode r)
                (gps_pos r)) rn s w1 eq_refl).
  unfold read_arrival. simpl destination. simpl last_path_request. cbv iota.
  destruct (arrival_outcome _ _ _ loc req) as [a|e] eqn:Ha.
  - right. eexists _, a. simpl. repeat split.
    apply (arrival_outcome_cmd_id _ _ _ _ _ _ _ Ha). reflexivity.
  - left. exists e. reflexivity.
Qed.

(** X8 at the sample fleet: tinyRobot1 is sent to (4, 6) under id 5; the
    estimate returned is tagged 5. *)
Lemma X8_status_reports_the_dispatched_id_witness :
  exists d a,
    result (status (Some "tinyRobot1")) Sample.w_commanded
    = Return (mkResponse (Some (DataRobot d)) true "") /\
    d_destination_arrival d = Some a /\
    arr_cmd_id a = 5.
Proof.
  assert (Hr : robot_of Sample.w_reported "tinyRobot1"
               = Some (Sample.record Sample.w_reported "tinyRobot1"))
    by (vm_compute; reflexivity).
  destruct (X8_status_reports_the_dispatched_id
              Sample.w_reported "tinyRobot1" 5 (Sample.goal 4 6 0) Sample.noon
              _ _ Hr sample_navigate eq_refl)
    as [[e He] | (d & a & Hres & _ & Ha & Hid)].
  - vm_compute in He. discriminate He.
  - exists d, a. auto.
Defined.

Lemma py_str_neg p : py_str (Zneg p) = String "-" (py_str (Zpos p)).
Proof. reflexivity. Qed.

(** [str(n).isdigit()] holds exactly for the non-negative integers. *)
Lemma isdigit_py_str n : isdigit (py_str n) = (0 <=? n).
Proof.
  destruct n as [|p|p].
  - reflexivity.
  - now destruct (py_str_pos p) as [-> _].
  - now rewrite py_str_neg.
Qed.

Lemma digits_value_py_str n : 0 <= n -> digits_value (py_str n) = n.
Proof.
  destruct n as [|p|p]; intros H.
  - reflexivity.
  - now destruct (py_str_pos p) as [_ ->].
  - lia.
Qed.

Lemma rejected_report_run w msg r :
  robot_of w (name msg) = Some r ->
  accepted r msg = false ->
  exists req,
    last_path_request r = Some req /\
    mgr (after (robot_state_cb msg) w) = mgr w.
Proof.
  intros Hr Hacc.
  destruct (last_path_request r) as [req|] eqn:Hreq.
  - exists req. split; [reflexivity|]. unfold after.
    now rewrite (stale_report_run _ _ _ _ Hr Hreq Hacc).
  - unfold accepted, is_expected_task_id in Hacc. rewrite Hreq in Hacc.
    discriminate Hacc.
Qed.

(** X9: from dispatch to completion.  After a successful [navigate]
    under a non-negative id [cmd], a report of that robot with mode
    idle or charging, an empty remaining path and the id's decimal text
    as correlation id is accepted: the record gets the report as state,
    no destination, [cmd] as last completed id, and keeps the
    dispatched request as last command; nothing is published.  A
    [status] read of the robot then returns successfully with no
    arrival estimate and [cmd] as last completed request. *)
Theorem X9_a_dispatched_command_is_recorded_complete
    (w : World) (rn : string) (cmd : Z) (dest : Request) (now : Time)
    (r : State) (resp : Response) (msg : RobotState) :
  robot_of w rn = Some r ->
  result (navigate rn cmd dest now) w = Return resp ->
  success resp = true ->
  0 <= cmd ->
  name msg = rn ->
  task_id msg = py_str cmd ->
  mode (rs_mode msg) = MODE_IDLE \/ mode (rs_mode msg) = MODE_CHARGING ->
  path msg = [] ->
  let w1 := after (navigate rn cmd dest now) w in
  let w2 := after (robot_state_cb msg) w1 in
  result (robot_state_cb msg) w1 = Return tt /\
  published w2 = published w1 /\
  (exists r1 r2,
     robot_of w1 rn = Some r1 /\
     robot_of w2 rn = Some r2 /\
     state r2 = Some msg /\
     destination r2 = None /\
     last_completed_request r2 = Some cmd /\
     last_path_request r2 = last_path_request r1) /\
  exists d,
    result (status (Some rn)) w2
    = Return (mkResponse (Some (DataRobot d)) true "") /\
    d_destination_arrival d = None /\
    d_last_completed_request d = Some cmd.
Proof.
  intros Hr Hres Hs Hcmd Hname Htid Hmode Hpath w1 w2.
  pose proof (navigate_run w rn cmd dest now r Hr) as Hrun.
  unfold result in Hres. rewrite Hrun in Hres.
  destruct (navigate_plan (mgr w) dest now (state r))
    as [[[cur loc]|]|e0] eqn:Hp; simpl in Hres; try discriminate Hres.
  2: { injection Hres as <-. discriminate Hs. }
  set (req := mkPathRequest (fleet_name (mgr w)) rn [cur; loc] (py_str cmd))
    in *.
  set (r1 := mkState (state r) (Some loc) (Some req)
                     (last_completed_request r) (perform_action_mode r)
                     (gps_pos r)).
  assert (Hr1 : robot_of w1 (name msg) = Some r1).
  { subst w1. unfold after. rewrite Hrun, Hname.
    unfold robot_of, dispatch_to. simpl. apply dict_get_set_same. }
  assert (Hacc : accepted r1 msg = true).
  { unfold accepted, is_expected_task_id. simpl.
    now rewrite Htid, String.eqb_refl. }
  assert (Hdig : isdigit (task_id msg) = true).
  { rewrite Htid, isdigit_py_str. now apply Z.leb_le. }
  assert (Hc : completes msg = true).
  { unfold completes. rewrite Hpath, Hdig. simpl.
    destruct (task_id msg); [discriminate Hdig|].
    destruct Hmode as [-> | ->]; reflexivity. }
  destruct (accepted_report_record w1 msg r1 Hr1 Hacc)
    as (Hret & Hpub & _ & r2 & Hr2 & Hs2 & Hq2 & _ & _ & Hcompl).
  rewrite Hc in Hcompl. destruct Hcompl as [Hd2 Hl2].
  rewrite Htid, (digits_value_py_str _ Hcmd) in Hl2.
  fold w2 in Hpub, Hr2. rewrite Hname in Hr1, Hr2.
  split; [exact Hret|]. split; [exact Hpub|]. split.
  { exists r1, r2. auto 10. }
  exists (read_data (mgr w2) r2 msg rn None).
  unfold result, status. rewrite bind_run. unfold get_mgr. cbv beta iota.
  unfold robot_of in Hr2. rewrite Hr2, Hs2.
  rewrite bind_run, (get_robot_state_run _ _ _ _ Hs2).
  rewrite (read_arrival_no_destination _ _ _ Hd2). simpl.
  repeat split. exact Hl2.
Qed.

(** X9 at the sample fleet: tinyRobot1, sent to (4, 6) under id 5,
    reports idle at the goal under correlation id 5. *)
Lemma X9_a_dispatched_command_is_recorded_complete_witness :
  let msg := Sample.report "tinyRobot1" "5" MODE_IDLE (Sample.loc 4 6 0) in
  exists d,
    result (status (Some "tinyRobot1"))
           (after (robot_state_cb msg) Sample.w_commanded)
    = Return (mkResponse (Some (DataRobot d)) true "") /\
    d_destination_arrival d = None /\
    d_last_completed_request d = Some 5.
Proof.
  intros msg.
  assert (Hr : robot_of Sample.w_reported "tinyRobot1"
               = Some (Sample.record Sample.w_reported "tinyRobot1"))
    by (vm_compute; reflexivity).
  assert (Hcmd : 0 <= 5) by discriminate.
  exact (proj2 (proj2 (proj2
    (X9_a_dispatched_command_is_recorded_complete
       Sample.w_reported "tinyRobot1" 5 (Sample.goal 4 6 0) Sample.noon
       _ _ msg Hr sample_navigate eq_refl Hcmd eq_refl eq_refl
       (or_introl eq_refl) eq_refl)))).
Defined.

(** X10: a correlation id that is the decimal text of a negative
    integer never counts as complete ([isdigit] rejects the sign).
    Whatever its mode and path, a report carrying such an id leaves the
    robot's commanded destination and last completed id as they were;
    so a command dispatched under a negative id is never recorded
    complete by the reports that follow it. *)
Theorem X10_negative_ids_are_never_recorded_complete
    (w : World) (msg : RobotState) (r : State) (n : Z) :
  robot_of w (name msg) = Some r ->
  task_id msg = py_str n ->
  n < 0 ->
  result (robot_state_cb msg) w = Return tt /\
  exists r',
    robot_of (after (robot_state_cb msg) w) (name msg) = Some r' /\
    destination r' = destination r /\
    last_completed_request r' = last_completed_request r /\
    last_path_request r' = last_path_request r.
Proof.
  intros Hr Htid Hn.
  assert (Hc : completes msg = false).
  { unfold completes. rewrite Htid, isdigit_py_str.
    assert (H0 : (0 <=? n) = false) by (apply Z.leb_gt; exact Hn).
    rewrite H0. apply andb_false_r. }
  destruct (accepted r msg) eqn:Hacc.
  - destruct (accepted_report_record w msg r Hr Hacc)
      as (Hret & _ & _ & r' & Hr' & _ & Hq & _ & _ & Hcompl).
    rewrite Hc in Hcompl. destruct Hcompl as [Hd Hl].
    split; [exact Hret|]. exists r'. auto.
  - destruct (rejected_report_run w msg r Hr Hacc) as (req & Hreq & Hm).
    split.
    + destruct (robot_state_cb_effects w msg) as (l & Hret & _). exact Hret.
    + exists r. unfold robot_of. rewrite Hm. auto.
Qed.

(** X10 at the sample fleet: tinyRobot1 is sent to (4, 6) under id -5
    and reports idle, with an empty path, under correlation id -5. *)
Lemma X10_negative_ids_are_never_recorded_complete_witness :
  let w := after (navigate "tinyRobot1" (-5) (Sample.goal 4 6 0) Sample.noon)
                 Sample.w_reported in
  let msg := Sample.report "tinyRobot1" "-5" MODE_IDLE (Sample.loc 4 6 0) in
  exists r',
    robot_of (after (robot_state_cb msg) w) "tinyRobot1" = Some r' /\
    destination r' = Some (Sample.target w "tinyRobot1").
Proof.
  intros w msg.
  assert (Hr : robot_of w (name msg) = Some (Sample.record w "tinyRobot1"))
    by (vm_compute; reflexivity).
  assert (Hn : -5 < 0) by reflexivity.
  destruct (X10_negative_ids_are_never_recorded_complete
              w msg _ (-5) Hr eq_refl Hn) as (_ & r' & Hr' & Hd & _).
  exists r'. split; [exact Hr'|]. rewrite Hd. vm_compute. reflexivity.
Defined.

(** ** Retransmission *)

(** X11: every mismatched report triggers exactly one retransmission.
    While a robot's action mode is off and its last command is [req],
    any sequence of its reports, each carrying a correlation id other
    than that of [req], leaves the manager unchanged and publishes
    [req] once per report, and nothing else. *)
Theorem X11_each_stale_report_resends_the_last_command_once
    (msgs : list RobotState) (w : World) (rn : string) (r : State)
    (req : PathRequest) :
  robot_of w rn = Some r ->
  last_path_request r = Some req ->
  truthy (perform_action_mode r) = false ->
  Forall (fun m => name m = rn /\ task_id m <> pr_task_id req) msgs ->
  mgr (run (map Report msgs) w) = mgr w /\
  published (run (map Report msgs) w)
  = (published w ++ repeat (path_pub req) (List.length msgs))%list.
Proof.
  intros Hr Hreq Hact. revert w Hr.
  induction msgs as [|m rest IH]; intros w Hr Hall; simpl.
  - split; [reflexivity|]. now rewrite app_nil_r.
  - inversion Hall as [|? ? [Hname Hne] Hrest]; subst.
    assert (Hacc : accepted r m = false).
    { unfold accepted, is_expected_task_id. rewrite Hreq, Hact.
      apply String.eqb_neq in Hne. now rewrite Hne. }
    pose proof (stale_report_run w m r req Hr Hreq Hacc) as Hrun.
    unfold run in *.
    assert (Hstep : after (robot_state_cb m) w
                    = mkWorld (mgr w)
                        (effects w ++
                         (if debug (mgr w)
                          then [print ("Republishing task request for "
                                       ++ name m ++ ": " ++ pr_task_id req
                                       ++ ", because it is currently following "
                                       ++ task_id m)]
                          else []) ++ [path_pub req])).
    { unfold after. now rewrite Hrun. }
    rewrite Hstep.
    set (w1 := mkWorld _ _).
    assert (Hr1 : robot_of w1 (name m) = Some r) by exact Hr.
    destruct (IH w1 Hr1 Hrest) as [Hm Hp].
    split; [exact Hm|].
    rewrite Hp. unfold published at 1. subst w1. simpl.
    rewrite filter_app, filter_app. simpl. fold (published w).
    rewrite <- app_assoc. f_equal.
    now destruct (debug (mgr w)).
Qed.

(** X11 at the sample fleet: tinyRobot1, sent command 5, reports three
    times that it is following command 4. *)
Lemma X11_each_stale_report_resends_the_last_command_once_witness :
  let w := Sample.w_commanded in
  let m := Sample.report "tinyRobot1" "4" MODE_MOVING (Sample.loc 1 2 0) in
  let req := Sample.command w "tinyRobot1" in
  published (run [Report m; Report m; Report m] w)
  = (published w ++ [path_pub req; path_pub req; path_pub req])%list.
Proof.
  intros w m req.
  assert (Hr : robot_of w "tinyRobot1" = Some (Sample.record w "tinyRobot1"))
    by (vm_compute; reflexivity).
  assert (Hq : last_path_request (Sample.record w "tinyRobot1") = Some req)
    by (vm_compute; reflexivity).
  assert (Hact : truthy (perform_action_mode (Sample.record w "tinyRobot1"))
                 = false) by (vm_compute; reflexivity).
  assert (Hm : name m = "tinyRobot1" /\ task_id m <> pr_task_id req).
  { split; [reflexivity|]. vm_compute. discriminate. }
  exact (proj2 (X11_each_stale_report_resends_the_last_command_once
                  [m; m; m] w "tinyRobot1" _ req Hr Hq Hact
                  (Forall_cons _ Hm (Forall_cons _ Hm
                     (Forall_cons _ Hm (Forall_nil _)))))).
Defined.

(** ** start_activity *)

Lemma last_cons {A} (l : list A) (a d : A) : last (a :: l) d = last l a.
Proof.
  revert a d. induction l as [|b l IH]; intros a d; [reflexivity|].
  change (last (a :: b :: l) d) with (last (b :: l) d).
  now rewrite !IH.
Qed.

Lemma activity_waypoints_result wps : forall lvl loc w,
  result (activity_waypoints wps lvl loc) w
  = match waypoints lvl wps with
    | Some ls => Return (ls, last ls loc)
    | None => Raise IndexError
    end.
Proof.
  unfold result.
  induction wps as [|wp rest IH]; intros lvl loc w; [reflexivity|].
  cbn [activity_waypoints waypoints].
  rewrite bind_run, getindex_run.
  destruct wp as [|wx wp]; [reflexivity|]. cbn [nth_error]. cbv beta iota.
  rewrite bind_run, getindex_run.
  destruct wp as [|wy wp]; [reflexivity|]. cbn [nth_error]. cbv beta iota.
  rewrite bind_run, getindex_run.
  destruct wp as [|wyaw wp]; [reflexivity|]. cbn [nth_error]. cbv beta iota.
  rewrite bind_run, activity_waypoints_run. unfold result at 1.
  rewrite IH. cbn [waypoint].
  destruct (waypoints lvl rest) as [ls|]; [|reflexivity].
  cbv beta iota. unfold ret. cbn [fst snd]. now rewrite last_cons.
Qed.

(** [start_activity] for a robot of the roster, step by step. *)
Lemma start_activity_run w rn cmd request r :
  robot_of w rn = Some r ->
  start_activity rn cmd request w
  = match start_activity_plan (mgr w) request (state r) with
    | Raise e => (Raise e, w)
    | Return None => (Return failure, w)
    | Return (Some (cur, ls, ap)) =>
        (Return (mkResponse (Some (DataPath ap)) true ""),
         dispatch_to w rn r
           (mkPathRequest (fleet_name (mgr w)) rn (cur :: ls) (py_str cmd))
           (last ls Location_new)
           (start_activity_line rn cmd request))
    end.
Proof.
  intros Hr. pose proof Hr as Hr'. unfold robot_of in Hr'.
  unfold start_activity, start_activity_plan.
  rewrite bind_run. unfold get_mgr. cbv beta iota.
  unfold dict_mem at 1. rewrite Hr'. cbv beta iota delta [negb].
  destruct (activity request) as [act|] eqn:Hact; [|reflexivity].
  destruct (dict_get (action_paths (mgr w)) act) as [labels|]; [|reflexivity].
  destruct (label request) as [lab|] eqn:Hlab; [|reflexivity].
  unfold dict_mem at 1.
  destruct (dict_get labels lab) as [ap|] eqn:Hap; [|reflexivity].
  cbv beta iota delta [negb].
  unfold dict_mem. rewrite Hr'. cbv beta iota delta [negb].
  rewrite bind_run, getitem_run, Hr'. cbv beta iota.
  rewrite bind_run, attr_of_run.
  destruct (state r) as [s|]; [|reflexivity]. cbv beta iota.
  rewrite bind_run, getitem_run, Hap. cbv beta iota.
  rewrite bind_run, activity_waypoints_run, activity_waypoints_result.
  destruct (waypoints (ap_map_name ap) (ap_path ap)) as [ls|]; [|reflexivity].
  cbv beta iota. cbn [fst snd].
  unfold start_activity_line. rewrite Hact, Hlab.
  now rewrite (record_dispatch_run _ _ _ _ _ _ _ Hr).
Qed.

(** [stop] for a robot of the roster that has not reported. *)
Lemma stop_unreported w rn a b r :
  robot_of w rn = Some r ->
  state r = None ->
  stop rn a b w = (Raise AttributeError, w).
Proof.
  intros Hr Hs. pose proof Hr as Hr'. unfold robot_of in Hr'.
  unfold stop. rewrite bind_run. unfold get_mgr. cbv beta iota.
  unfold dict_mem. rewrite Hr'. cbv beta iota delta [negb].
  rewrite bind_run, getitem_run, Hr'. cbv beta iota.
  now rewrite bind_run, attr_of_run, Hs.
Qed.

Lemma start_activity_plan_entry self request st :
  start_activity_plan self request st
  = match activity_entry self request with
    | None => Return None
    | Some ap =>
        match st with
        | None => Raise AttributeError
        | Some s =>
            match waypoints (ap_map_name ap) (ap_path ap) with
            | None => Raise IndexError
            | Some ls => Return (Some (location s, ls, ap))
            end
        end
    end.
Proof.
  unfold start_activity_plan, activity_entry.
  destruct (activity request) as [act|]; [|reflexivity].
  destruct (label request) as [lab|];
    [|now destruct (dict_get (action_paths self) act)].
  destruct (dict_get (action_paths self) act) as [labels|]; reflexivity.
Qed.

Lemma waypoints_each lvl wps : forall ls,
  waypoints lvl wps = Some ls ->
  Forall2 (fun wp l => waypoint lvl wp = Some l) wps ls.
Proof.
  induction wps as [|wp rest IH]; intros ls H; simpl in H.
  - injection H as <-. constructor.
  - destruct (waypoint lvl wp) as [l|] eqn:Hl; [|discriminate H].
    destruct (waypoints lvl rest) as [ls'|]; [|discriminate H].
    injection H as <-. constructor; auto.
Qed.

Lemma waypoints_none lvl wps :
  waypoints lvl wps = None <->
  Exists (fun wp => (List.length wp < 3)%nat) wps.
Proof.
  induction wps as [|wp rest IH]; simpl.
  - split; [discriminate|]. intros H. inversion H.
  - destruct (waypoint lvl wp) as [l|] eqn:Hl.
    + assert (Hlen : ~ (List.length wp < 3)%nat).
      { destruct wp as [|a [|b [|c wp]]]; try discriminate Hl. simpl. lia. }
      destruct (waypoints lvl rest) as [ls|].
      * split; [discriminate|]. intros H.
        inversion H as [? ? H1|? ? H1]; subst; [contradiction|].
        apply IH in H1. discriminate H1.
      * split; [|reflexivity]. intros _. apply Exists_cons_tl.
        now apply IH.
    + split; [|reflexivity]. intros _. apply Exists_cons_hd.
      destruct wp as [|a [|b [|c wp]]]; try discriminate Hl; simpl; lia.
Qed.

(** X12: what a successful [start_activity] dispatches.  The robot has
    a stored report and the request designates an entry of the
    activity table, every way point of which has three coordinates.
    The response carries that entry; exactly one path request is
    published: the robot's last reported location followed by one way
    point per entry of the activity path, in order, each on the
    entry's map.  The record gets that request as last command and the
    last way point as destination -- a default location (all zero,
    empty map name) when the activity path is empty, in which case the
    request holds the current location alone. *)
Theorem X12_start_activity_sends_the_activity_path
    (w : World) (rn : string) (cmd : Z) (request : Request) (r : State)
    (resp : Response) :
  robot_of w rn = Some r ->
  result (start_activity rn cmd request) w = Return resp ->
  success resp = true ->
  exists s ap ls,
    state r = Some s /\
    activity_entry (mgr w) request = Some ap /\
    Forall2 (fun wp l => waypoint (ap_map_name ap) wp = Some l)
            (ap_path ap) ls /\
    resp = mkResponse (Some (DataPath ap)) true "" /\
    published (after (start_activity rn cmd request) w)
    = (published w
       ++ [path_pub (mkPathRequest (fleet_name (mgr w)) rn
                       (location s :: ls) (py_str cmd))])%list /\
    robot_of (after (start_activity rn cmd request) w) rn
    = Some (mkState (Some s) (Some (last ls Location_new))
              (Some (mkPathRequest (fleet_name (mgr w)) rn
                       (location s :: ls) (py_str cmd)))
              (last_completed_request r) (perform_action_mode r)
              (gps_pos r)) /\
    (ap_path ap = [] -> ls = [] /\ last ls Location_new = Location_new).
Proof.
  intros Hr Hres Hs. unfold result, after in *.
  rewrite (start_activity_run _ _ _ _ _ Hr) in *.
  rewrite start_activity_plan_entry in *.
  destruct (activity_entry (mgr w) request) as [ap|];
    [|simpl in Hres; injection Hres as <-; discriminate Hs].
  destruct (state r) as [s|] eqn:Hst; [|discriminate Hres].
  destruct (waypoints (ap_map_name ap) (ap_path ap)) as [ls|] eqn:Hw;
    [|discriminate Hres].
  simpl in Hres. injection Hres as <-.
  exists s, ap, ls. simpl.
  split; [reflexivity|]. split; [reflexivity|].
  split; [now apply waypoints_each|]. split; [reflexivity|].
  split; [|split].
  - unfold published. simpl. rewrite filter_app. simpl.
    now destruct (debug (mgr w)).
  - unfold robot_of. simpl. now rewrite dict_get_set_same, Hst.
  - intros He. rewrite He in Hw. simpl in Hw. injection Hw as <-.
    now split.
Qed.

(** X12 at the sample fleet with activities: tinyRobot1, at (1, 2),
    starts activity clean at zone_1. *)
Lemma X12_start_activity_sends_the_activity_path_witness :
  let w := activity_world in
  result (start_activity "tinyRobot1" 8 (clean_at "zone_1")) w
  = Return (mkResponse
              (Some (DataPath
                       (mkActivityPath "L1"
                          [[Sample.F 1; Sample.F 1; Sample.F 0];
                           [Sample.F 2; Sample.F 1; Sample.F 0]])))
              true "") /\
  exists s ls,
    published (after (start_activity "tinyRobot1" 8 (clean_at "zone_1")) w)
    = (published w
       ++ [path_pub (mkPathRequest "tinyRobot" "tinyRobot1"
                       (location s :: ls) "8")])%list.
Proof.
  intros w.
  assert (Hr : robot_of w "tinyRobot1" = Some (Sample.record w "tinyRobot1"))
    by (vm_compute; reflexivity).
  assert (Hres : result (start_activity "tinyRobot1" 8 (clean_at "zone_1")) w
                 = Return (mkResponse
                             (Some (DataPath
                                (mkActivityPath "L1"
                                   [[Sample.F 1; Sample.F 1; Sample.F 0];
                                    [Sample.F 2; Sample.F 1; Sample.F 0]])))
                             true "")) by (vm_compute; reflexivity).
  split; [exact Hres|].
  destruct (X12_start_activity_sends_the_activity_path
              w "tinyRobot1" 8 (clean_at "zone_1") _ _ Hr Hres eq_refl)
    as (s & ap & ls & _ & _ & _ & _ & Hpub & _).
  exists s, ls. exact Hpub.
Defined.

(** X13: how [start_activity] fails for a robot of the roster.  When
    the request designates no entry of the activity table (activity or
    label missing from the request or from the table) it returns the
    unsuccessful response.  When it designates one, it raises
    [AttributeError] if the robot has not reported yet, and
    [IndexError] if the robot has reported and some way point of the
    path has fewer than three coordinates.  In all three cases the
    world is left untouched: nothing is published or recorded. *)
Theorem X13_start_activity_failures_leave_the_world_untouched
    (w : World) (rn : string) (cmd : Z) (request : Request) (r : State) :
  robot_of w rn = Some r ->
  (activity_entry (mgr w) request = None ->
   start_activity rn cmd request w = (Return failure, w)) /\
  (forall ap,
     activity_entry (mgr w) request = Some ap ->
     state r = None ->
     start_activity rn cmd request w = (Raise AttributeError, w)) /\
  (forall ap s,
     activity_entry (mgr w) request = Some ap ->
     state r = Some s ->
     Exists (fun wp => (List.length wp < 3)%nat) (ap_path ap) ->
     start_activity rn cmd request w = (Raise IndexError, w)).
Proof.
  intros Hr.
  rewrite (start_activity_run _ _ _ _ _ Hr), start_activity_plan_entry.
  repeat split.
  - now intros ->.
  - intros ap -> ->. reflexivity.
  - intros ap s -> -> Hex.
    apply (waypoints_none (ap_map_name ap)) in Hex. now rewrite Hex.
Qed.

(** X13 at the sample fleet with activities: the path of zone_short
    lacks a yaw, and there is no zone_9. *)
Lemma X13_start_activity_failures_leave_the_world_untouched_witness :
  let w := activity_world in
  start_activity "tinyRobot1" 8 (clean_at "zone_9") w = (Return failure, w) /\
  start_activity "tinyRobot1" 8 (clean_at "zone_short") w
  = (Raise IndexError, w).
Proof.
  intros w.
  assert (Hr : robot_of w "tinyRobot1" = Some (Sample.record w "tinyRobot1"))
    by (vm_compute; reflexivity).
  split.
  - exact (proj1 (X13_start_activity_failures_leave_the_world_untouched
                    w "tinyRobot1" 8 (clean_at "zone_9") _ Hr) eq_refl).
  - refine (proj2 (proj2
      (X13_start_activity_failures_leave_the_world_untouched
         w "tinyRobot1" 8 (clean_at "zone_short") _ Hr))
      (mkActivityPath "L1" [[Sample.F 1; Sample.F 1]])
      (Sample.report "tinyRobot1" "" MODE_IDLE (Sample.loc 1 2 0))
      eq_refl _ _).
    + vm_compute. reflexivity.
    + apply Exists_cons_hd. simpl. lia.
Defined.

(** ** What a handler can do to the manager *)

Lemma set_docks_id fm : set_docks fm (docks fm) = fm.
Proof. now destruct fm. Qed.

Lemma dock_summary_params_mgr ps : forall w,
  exists d, mgr (after (dock_summary_params ps) w) = set_docks (mgr w) d.
Proof.
  unfold after.
  induction ps as [|dock rest IH]; intros w; simpl.
  - exists (docks (mgr w)). now rewrite set_docks_id.
  - rewrite bind_run. unfold get_mgr. cbv beta iota.
    destruct (docks (mgr w)) as [d|] eqn:Hd.
    + rewrite bind_run. unfold put_mgr. cbv beta iota.
      destruct (IH (mkWorld (set_docks (mgr w)
                               (Some (dict_set d (start dock) (dp_path dock))))
                            (effects w))) as [d' Hd'].
      exists d'. rewrite Hd'. reflexivity.
    + exists None. simpl. now rewrite <- Hd, set_docks_id.
Qed.

Lemma dock_summary_cb_mgr msg w :
  exists d, mgr (after (dock_summary_cb msg) w) = set_docks (mgr w) d.
Proof.
  unfold after, dock_summary_cb. revert w.
  induction (docks_of msg) as [|fleet rest IH]; intros w; simpl.
  - exists (docks (mgr w)). now rewrite set_docks_id.
  - rewrite bind_run. unfold get_mgr. cbv beta iota.
    rewrite bind_run.
    assert (Hstep : forall c : M unit,
               (exists d, mgr (after c w) = set_docks (mgr w) d) ->
               exists d,
                 mgr (snd (match c w with
                           | (Return _, w') => dock_summary_fleets rest w'
                           | (Raise e, w') => (Raise e, w')
                           end)) = set_docks (mgr w) d).
    { intros c [d Hc]. unfold after in Hc.
      destruct (c w) as [[[]|e] w1]; simpl in *.
      - destruct (IH w1) as [d' Hd']. exists d'. rewrite Hd', Hc. reflexivity.
      - now exists d. }
    destruct (String.eqb (dock_fleet_name fleet) (fleet_name (mgr w))).
    + apply Hstep. apply dock_summary_params_mgr.
    + apply Hstep. exists (docks (mgr w)). unfold after. simpl.
      now rewrite set_docks_id.
Qed.

Lemma navigate_unknown w rn cmd dest now :
  robot_of w rn = None -> navigate rn cmd dest now w = (Return failure, w).
Proof.
  unfold robot_of. intros Hr.
  unfold navigate, bind, get_mgr, dict_mem. now rewrite Hr.
Qed.

(** Every handler either leaves the robot table alone (changing at
    most the docks table), or replaces the record of one robot of the
    roster in one of the three ways of [record_step]. *)
Lemma step_change w e :
  (exists d, mgr (step w e) = set_docks (mgr w) d) \/
  (exists n r r',
      robot_of w n = Some r /\
      mgr (step w e) = set_robots (mgr w) (dict_set (robots (mgr w)) n r') /\
      record_step (mgr w) n r r').
Proof.
  assert (Same : forall w', mgr w' = mgr w ->
            exists d, mgr w' = set_docks (mgr w) d).
  { intros w' ->. exists (docks (mgr w)). now rewrite set_docks_id. }
  destruct e as [m|m|o|n c d now|n a b|n c rq|n m|n c m]; simpl.
  - destruct (robot_state_cb_record w m)
      as [Hm | (r & r' & Hr & Hm & Hs & Hq & Hd)].
    + left. now apply Same.
    + right. exists (name m), r, r'. repeat split; auto.
      left. exists m. auto.
  - left. apply dock_summary_cb_mgr.
  - left. apply Same, status_mgr.
  - destruct (robot_of w n) as [r|] eqn:Hr.
    + unfold after. rewrite (navigate_run _ _ _ _ _ _ Hr).
      destruct (navigate_plan (mgr w) d now (state r)) as [[[cur loc]|]|e];
        simpl; try (left; now apply Same).
      right. eexists n, r, _. split; [exact Hr|]. split; [reflexivity|].
      right. left. simpl. split; [reflexivity|].
      eexists. split; [reflexivity|]. split.
      * repeat split; simpl; try discriminate. now exists c.
      * right. reflexivity.
    + left. apply Same. unfold after. now rewrite (navigate_unknown _ _ _ _ _ Hr).
  - destruct (stop_cases w n a b) as [[Hw _] | (r & req & Hr & Hm)].
    + left. apply Same. now rewrite Hw.
    + destruct (state r) as [s|] eqn:Hs.
      * right. unfold after in *. rewrite (stop_run _ _ _ _ _ _ Hr Hs) in *.
        eexists n, r, _. split; [exact Hr|]. split; [reflexivity|].
        right. left. simpl. split; [now rewrite Hs|].
        eexists. split; [reflexivity|]. split.
        -- repeat split; simpl; try discriminate. now exists b.
        -- now left.
      * left. apply Same. unfold after.
        now rewrite (stop_unreported _ _ _ _ _ Hr Hs).
  - destruct (start_activity_cases w n c rq)
      as [[Hw _] | (r & req & loc & dat & Hr & _)].
    + left. apply Same. now rewrite Hw.
    + unfold after. rewrite (start_activity_run _ _ _ _ _ Hr).
      destruct (start_activity_plan (mgr w) rq (state r))
        as [[[[cur ls] ap]|]|e]; simpl; try (left; now apply Same).
      right. eexists n, r, _. split; [exact Hr|]. split; [reflexivity|].
      right. left. simpl. split; [reflexivity|].
      eexists. split; [reflexivity|]. split.
      * repeat split; simpl; try discriminate. now exists c.
      * right. reflexivity.
  - destruct (toggle_teleop_cases w n m) as [Hw | (r & Hr & Hm)].
    + left. apply Same. now rewrite Hw.
    + right. eexists n, r, _. split; [exact Hr|]. split; [exact Hm|].
      right. right. simpl. auto.
  - left. apply Same, toggle_attach_mgr.
Qed.

(** ** Invariants of the manager *)

Lemma dict_keys_set_present {V} (d : dict V) k v v' :
  dict_get d k = Some v -> dict_keys (dict_set d k v') = dict_keys d.
Proof.
  unfold dict_keys.
  induction d as [|[k' x] d IH]; simpl; [discriminate|].
  destruct (String.eqb k k'); simpl; [reflexivity|].
  intros H. now rewrite IH.
Qed.

Lemma dict_get_keys {V} (d : dict V) k :
  dict_get d k <> None <-> In k (dict_keys d).
Proof.
  unfold dict_keys.
  induction d as [|[k' x] d IH]; simpl; [tauto|].
  destruct (String.eqb k k') eqn:E.
  - apply String.eqb_eq in E. subst. split; [now left|discriminate].
  - apply String.eqb_neq in E. rewrite IH. split; [now right|].
    intros [H|H]; [congruence|exact H].
Qed.

Lemma dict_keys_set_new {V} (d : dict V) k v n :
  In n (dict_keys (dict_set d k v)) <-> n = k \/ In n (dict_keys d).
Proof.
  rewrite <- !dict_get_keys.
  destruct (string_dec k n) as [->|Hk].
  - rewrite dict_get_set_same. split; [now left|discriminate].
  - rewrite dict_get_set_other by exact Hk. split; [now right|].
    intros [H|H]; [congruence|exact H].
Qed.

Lemma roster_keys names : forall (d : dict State) n,
  In n (dict_keys (fold_left (fun d n => dict_set d n State_new) names d))
  <-> In n names \/ In n (dict_keys d).
Proof.
  induction names as [|k rest IH]; intros d n; simpl; [tauto|].
  rewrite IH, dict_keys_set_new. intuition congruence.
Qed.

Lemma step_roster w e :
  dict_keys (robots (mgr (step w e))) = dict_keys (robots (mgr w)).
Proof.
  destruct (step_change w e) as [[d ->] | (n & r & r' & Hr & -> & _)];
    [reflexivity|].
  simpl. exact (dict_keys_set_present _ _ _ _ Hr).
Qed.

Lemma step_configuration w e :
  configuration (mgr (step w e)) = configuration (mgr w).
Proof.
  destruct (step_change w e) as [[d ->] | (n & r & r' & _ & -> & _)];
    reflexivity.
Qed.

Lemma step_records_ok w e : records_ok w -> records_ok (step w e).
Proof.
  intros Hw.
  destruct (step_change w e) as [[d Hm] | (n & r & r' & Hr & Hm & Hst)];
    unfold records_ok, robot_of in *; rewrite Hm; simpl.
  - exact Hw.
  - intros rn x. destruct (string_dec n rn) as [->|Hn].
    + rewrite dict_get_set_same. intros [= <-].
      destruct (Hw rn r Hr) as (Hs & Hq & Hd).
      unfold record_ok, well_formed_request in *. simpl.
      destruct Hst as [(msg & Hname & Hs' & Hq' & Hd')
                      | [(Hs' & req & Hq' & Hwf & Hd')
                        | (Hs' & Hd' & Hq')]].
      * rewrite Hs', Hq'. split; [now intros s [= <-]|].
        split; [exact Hq|].
        destruct Hd' as [-> | ->]; [exact Hd|discriminate].
      * rewrite Hs', Hq'. split; [exact Hs|].
        split; [now intros q [= <-]|].
        destruct Hd' as [-> | ->]; [discriminate|].
        intros l [= <-]. now exists req.
      * rewrite Hs', Hq', Hd'. auto.
    + rewrite dict_get_set_other by exact Hn. intros Hx.
      exact (Hw rn x Hx).
Qed.

Lemma init_robots config fm :
  FleetManager_init config = Return fm ->
  robots fm = fold_left (fun d n => dict_set d n State_new)
                        (cfg_robots config) [].
Proof.
  unfold FleetManager_init.
  destruct (match cfg_reference_offset config with
            | Some (a :: b :: _) => (true, (a, b))
            | _ => (false, (PyFloat.zero, PyFloat.zero))
            end) as [g off].
  destruct (negb _); [discriminate|].
  now intros [= <-].
Qed.

(** X14: the roster is fixed at construction.  After any history of
    reports, dock summaries and calls of the handlers, the robot table
    of a constructed manager has the keys, in the order, it was
    constructed with; and a name has a record exactly when the
    configuration lists it.  No handler adds or removes a robot: a
    report of an unconfigured robot is never stored. *)
Theorem X14_the_roster_is_fixed_at_construction
    (config : Config) (fm : FleetManager) (es : list Event) :
  FleetManager_init config = Return fm ->
  dict_keys (robots (mgr (run es (world0 fm)))) = dict_keys (robots fm) /\
  forall n, robot_of (run es (world0 fm)) n <> None
            <-> In n (cfg_robots config).
Proof.
  intros Hinit.
  assert (Hk : forall w,
             dict_keys (robots (mgr (run es w))) = dict_keys (robots (mgr w))).
  { unfold run. induction es as [|e rest IH]; intros w; simpl; [reflexivity|].
    now rewrite IH, step_roster. }
  split; [exact (Hk (world0 fm))|].
  intros n. unfold robot_of. rewrite dict_get_keys, Hk. simpl.
  rewrite (init_robots _ _ Hinit), roster_keys. simpl. tauto.
Qed.

(** X14 at the sample fleet, after a report of an unknown robot and a
    navigate call for it. *)
Lemma X14_the_roster_is_fixed_at_construction_witness :
  dict_keys (robots (mgr (run [Report (Sample.report "ghost" "1" MODE_IDLE
                                                      (Sample.loc 1 2 0));
                               Navigate "ghost" 1 (Sample.goal 4 6 0)
                                        Sample.noon]
                              (world0 Sample.fm0))))
  = ["tinyRobot1"; "tinyRobot2"].
Proof.
  assert (Hinit : FleetManager_init Sample.config = Return Sample.fm0)
    by (vm_compute; reflexivity).
  exact (proj1 (X14_the_roster_is_fixed_at_construction
                  Sample.config Sample.fm0 _ Hinit)).
Defined.

(** X15: no handler changes the configuration.  Whatever the history,
    the debug flag, fleet name, speed-limit flag, geodetic flag and
    offset, activity table and vehicle traits of the manager are those
    it started with. *)
Theorem X15_no_handler_changes_the_configuration
    (es : list Event) (w : World) :
  configuration (mgr (run es w)) = configuration (mgr w).
Proof.
  unfold run. revert w.
  induction es as [|e rest IH]; intros w; simpl; [reflexivity|].
  now rewrite IH, step_configuration.
Qed.

(** X16: what the manager has on record.  After any history from
    construction, for every robot of the roster: the stored report
    carries that robot's name; the stored last command -- the one
    stale reports make the manager publish again -- is addressed to
    this fleet and this robot, has a non-empty path and the decimal
    text of an integer as id, so that [int] reads it back; and a
    stored destination is the last way point, after the first, of the
    stored last command (a default location when there is none). *)
Theorem X16_records_stay_well_formed
    (config : Config) (fm : FleetManager) (es : list Event)
    (rn : string) (r : State) :
  FleetManager_init config = Return fm ->
  robot_of (run es (world0 fm)) rn = Some r ->
  (forall s, state r = Some s -> name s = rn) /\
  (forall req,
     last_path_request r = Some req ->
     pr_fleet_name req = cfg_name config /\
     pr_robot_name req = rn /\
     pr_path req <> [] /\
     exists n, pr_task_id req = py_str n
               /\ py_int (pr_task_id req) = Return n) /\
  (forall l,
     destination r = Some l ->
     exists req, last_path_request r = Some req
                 /\ l = last (tl (pr_path req)) Location_new).
Proof.
  intros Hinit Hr.
  assert (H0 : records_ok (world0 fm)).
  { intros n x Hx. unfold robot_of in Hx. simpl in Hx.
    rewrite (init_records_fresh _ _ _ _ Hinit Hx).
    repeat split; simpl; discriminate. }
  assert (Hrun : forall l w, records_ok w -> records_ok (run l w)).
  { unfold run. induction l as [|e rest IH]; intros w Hw; simpl; auto.
    apply IH. now apply step_records_ok. }
  assert (Hname : fleet_name (mgr (run es (world0 fm))) = cfg_name config).
  { assert (Hc : forall l w,
               fleet_name (mgr (run l w)) = fleet_name (mgr w)).
    { unfold run. induction l as [|e rest IH]; intros w; simpl; auto.
      rewrite IH.
      pose proof (step_configuration w e) as Hc. unfold configuration in Hc.
      congruence. }
    rewrite Hc. simpl. revert Hinit. unfold FleetManager_init.
    destruct (match cfg_reference_offset config with
              | Some (a :: b :: _) => (true, (a, b))
              | _ => (false, (PyFloat.zero, PyFloat.zero))
              end) as [g off].
    destruct (negb _); [discriminate|]. now intros [= <-]. }
  destruct (Hrun _ _ H0 rn r Hr) as (Hs & Hq & Hd).
  split; [exact Hs|]. split; [|exact Hd].
  intros req Hreq. destruct (Hq req Hreq) as (Hf & Hn & Hp & n & Hid).
  rewrite Hf, Hname. repeat split; auto.
  exists n. split; [exact Hid|]. rewrite Hid. apply py_int_py_str.
Qed.

(** X16 at the sample fleet: tinyRobot1 reports, is sent to (4, 6)
    under id 5 and stopped under id 6. *)
Lemma X16_records_stay_well_formed_witness :
  let w := run [Report (Sample.report "tinyRobot1" "" MODE_IDLE
                                      (Sample.loc 1 2 0));
                Navigate "tinyRobot1" 5 (Sample.goal 4 6 0) Sample.noon;
                Stop "tinyRobot1" 5 6]
               (world0 Sample.fm0) in
  pr_fleet_name (Sample.command w "tinyRobot1") = "tinyRobot" /\
  pr_robot_name (Sample.command w "tinyRobot1") = "tinyRobot1" /\
  pr_path (Sample.command w "tinyRobot1") <> [] /\
  exists n, pr_task_id (Sample.command w "tinyRobot1") = py_str n
            /\ py_int (pr_task_id (Sample.command w "tinyRobot1")) = Return n.
Proof.
  intros w.
  assert (Hinit : FleetManager_init Sample.config = Return Sample.fm0)
    by (vm_compute; reflexivity).
  assert (Hr : robot_of w "tinyRobot1" = Some (Sample.record w "tinyRobot1"))
    by (vm_compute; reflexivity).
  assert (Hq : last_path_request (Sample.record w "tinyRobot1")
               = Some (Sample.command w "tinyRobot1"))
    by (vm_compute; reflexivity).
  exact (proj1 (proj2 (X16_records_stay_well_formed
                         Sample.config Sample.fm0 _ _ _ Hinit Hr)) _ Hq).
Defined.

(** ** The activity table endpoint *)



(** ** GPS fixes *)

Section GpsProperties.

Variable svy_transform : float -> float -> float * float.
Variable KeyError_text : string -> string.



Lemma gps_message_malformed w robot :
  robot_id robot = None
  \/ (exists rn, robot_id robot = Some rn /\ robot_of w rn = None)
  \/ lat robot = None \/ lon robot = None ->
  exists k,
    gps_message svy_transform KeyError_text robot w
    = (Return tt,
       mkWorld (mgr w)
         (effects w
          ++ [log_info ("Malformed GPS Message!: " ++ KeyError_text k)])).
Proof.
  intros H. unfold gps_message.
  rewrite bind_run. unfold get_mgr. cbv beta iota.
  unfold try_except_KeyError, missing_key, dict_mem.
  destruct (robot_id robot) as [rn|]; [|now exists "robot_id"].
  unfold field at 1. rewrite bind_run. unfold ret at 1. cbv beta iota.
  rewrite bind_run, getitem_run.
  destruct (dict_get (robots (mgr w)) rn) as [r|] eqn:Hr;
    [|now exists rn].
  cbv beta iota delta [negb].
  unfold gps_to_xy.
  destruct (lat robot) as [la|]; [|now exists "lat"].
  destruct (lon robot) as [lo|]; [|now exists "lon"].
  exfalso. destruct H as [H | [(n & [= <-] & Hn) | [H | H]]];
    try discriminate.
  unfold robot_of in Hn. congruence.
Qed.

End GpsProperties.

(** X18: a malformed /gps message is logged and dropped.  When the
    decoded message has no robot_id, names a robot that is not in the
    roster, or lacks its lat or its lon, the handler returns: the
    [KeyError] is caught, the manager is not changed, and exactly one
    line is sent to the logger, made of the fixed prefix and the text
    of the error for the missing key. *)
Theorem X18_a_malformed_gps_message_is_logged_and_dropped
    (svy_transform : float -> float -> float * float)
    (KeyError_text : string -> string) (w : World) (robot : GpsMessage) :
  robot_id robot = None
  \/ (exists rn, robot_id robot = Some rn /\ robot_of w rn = None)
  \/ lat robot = None \/ lon robot = None ->
  result (gps_message svy_transform KeyError_text robot) w = Return tt /\
  mgr (after (gps_message svy_transform KeyError_text robot) w) = mgr w /\
  exists k,
    effects (after (gps_message svy_transform KeyError_text robot) w)
    = (effects w
       ++ [log_info ("Malformed GPS Message!: " ++ KeyError_text k)])%list.
Proof.
  intros H.
  destruct (gps_message_malformed svy_transform KeyError_text w robot H)
    as [k Hk].
  unfold result, after. rewrite Hk. simpl.
  split; [reflexivity|]. split; [reflexivity|]. now exists k.
Qed.

(** X18 at the sample fleet: a fix for a robot that is not in the
    roster. *)
Lemma X18_a_malformed_gps_message_is_logged_and_dropped_witness :
  mgr (after (gps_message (fun la lo => (la, lo)) (fun k => k)
                (mkGpsMessage (Some "ghost") (Some (Sample.F 1))
                              (Some (Sample.F 2))))
             Sample.w_reported)
  = mgr Sample.w_reported.
Proof.
  assert (H : robot_id (mkGpsMessage (Some "ghost") (Some (Sample.F 1))
                                     (Some (Sample.F 2))) = None
              \/ (exists rn,
                     robot_id (mkGpsMessage (Some "ghost") (Some (Sample.F 1))
                                            (Some (Sample.F 2))) = Some rn
                     /\ robot_of Sample.w_reported rn = None)
              \/ lat (mkGpsMessage (Some "ghost") (Some (Sample.F 1))
                                   (Some (Sample.F 2))) = None
              \/ lon (mkGpsMessage (Some "ghost") (Some (Sample.F 1))
                                   (Some (Sample.F 2))) = None).
  { right. left. exists "ghost". split; [reflexivity|].
    vm_compute. reflexivity. }
  exact (proj1 (proj2 (X18_a_malformed_gps_message_is_logged_and_dropped
                         (fun la lo => (la, lo)) (fun k => k)
                         Sample.w_reported _ H))).
Defined.

Lemma status_one_run w rn r s :
  robot_of w rn = Some r ->
  state r = Some s ->
  status (Some rn) w
  = match read_arrival (mgr w) r s with
    | Raise e => (Raise e, w)
    | Return da =>
        (Return (mkResponse (Some (DataRobot (read_data (mgr w) r s rn da)))
                            true ""),
         mkWorld (mgr w)
           (effects w ++
            (if mode_eqb (mode (rs_mode s)) MODE_ACTION_COMPLETED
             then action_completed_effects (mgr w) rn else [])))
    end.
Proof.
  unfold robot_of. intros Hr Hs.
  unfold status. rewrite bind_run. unfold get_mgr. cbv beta iota.
  rewrite Hr, Hs. rewrite bind_run, (get_robot_state_run _ _ _ _ Hs).
  now destruct (read_arrival (mgr w) r s).
Qed.



(** ** Construction *)




(** ** Reading one robot *)

(** X21: [status] for one robot of the roster.  Before the robot's
    first report the response is unsuccessful with empty data and the
    world is untouched.  Once it has reported and has no destination
    or no command on record, [status] always returns: it answers
    success with the robot's name, the reported map name, yaw and
    battery level, the recorded last completed id, no arrival
    estimate, the replan flag of the reported mode, and as x and y the
    reported ones (in geodetic mode the stored GPS pair instead).  It
    never changes the manager, and it emits nothing unless the
    reported mode is action-completed. *)
Theorem X21_status_of_a_robot_without_destination
    (w : World) (rn : string) (r : State) :
  robot_of w rn = Some r ->
  (state r = None ->
   status (Some rn) w = (Return (mkResponse (Some DataEmpty) false ""), w)) /\
  (forall s,
     state r = Some s ->
     destination r = None \/ last_path_request r = None ->
     result (status (Some rn)) w
     = Return
         (mkResponse
            (Some (DataRobot
               (mkRobotData rn (level_name (location s))
                  (if gps (mgr w)
                   then (fst (gps_pos r), snd (gps_pos r), yaw (location s))
                   else (x (location s), y (location s), yaw (location s)))
                  (battery_percent s) None (last_completed_request r)
                  (is_replan_mode (mode (rs_mode s))))))
            true "") /\
     mgr (after (status (Some rn)) w) = mgr w /\
     (mode (rs_mode s) <> MODE_ACTION_COMPLETED ->
      after (status (Some rn)) w = w)).
Proof.
  intros Hr. split.
  - intros Hs. unfold robot_of in Hr.
    unfold status, bind, get_mgr. now rewrite Hr, Hs.
  - intros s Hs Hd. unfold result, after.
    rewrite (status_one_run _ _ _ _ Hr Hs).
    assert (Ha : read_arrival (mgr w) r s = Return None).
    { unfold read_arrival. destruct Hd as [-> | ->]; [reflexivity|].
      now destruct (destination r). }
    rewrite Ha. simpl.
    split; [|split; [reflexivity|]].
    + unfold read_data, read_position. now destruct (gps (mgr w)).
    + intros Hm. apply mode_eqb_neq in Hm. rewrite Hm.
      rewrite app_nil_r. apply world_eta.
Qed.

(** X21 at the sample fleet after the first report of tinyRobot1 from
    (1, 2); tinyRobot2 has not reported. *)
Lemma X21_status_of_a_robot_without_destination_witness :
  status (Some "tinyRobot2") Sample.w_reported
  = (Return (mkResponse (Some DataEmpty) false ""), Sample.w_reported) /\
  after (status (Some "tinyRobot1")) Sample.w_reported = Sample.w_reported.
Proof.
  assert (H1 : robot_of Sample.w_reported "tinyRobot1"
               = Some (Sample.record Sample.w_reported "tinyRobot1"))
    by (vm_compute; reflexivity).
  assert (H2 : robot_of Sample.w_reported "tinyRobot2"
               = Some (Sample.record Sample.w_reported "tinyRobot2"))
    by (vm_compute; reflexivity).
  assert (Hs : state (Sample.record Sample.w_reported "tinyRobot1")
               = Some (Sample.report "tinyRobot1" "" MODE_IDLE
                                     (Sample.loc 1 2 0)))
    by (vm_compute; reflexivity).
  assert (Hd : destination (Sample.record Sample.w_reported "tinyRobot1")
               = None
               \/ last_path_request
                    (Sample.record Sample.w_reported "tinyRobot1") = None)
    by (left; vm_compute; reflexivity).
  assert (Hm : mode (rs_mode (Sample.report "tinyRobot1" "" MODE_IDLE
                                            (Sample.loc 1 2 0)))
               <> MODE_ACTION_COMPLETED) by discriminate.
  split.
  - exact (proj1 (X21_status_of_a_robot_without_destination
                    Sample.w_reported "tinyRobot2" _ H2) eq_refl).
  - exact (proj2 (proj2 (proj2 (X21_status_of_a_robot_without_destination
                                  Sample.w_reported "tinyRobot1" _ H1)
                                 _ Hs Hd)) Hm).
Defined.

(** ** All or nothing *)

Lemma dispatched_went_through w rn cmd o w' :
  dispatched w rn cmd o w' -> w' = w \/ went_through w cmd o w'.
Proof.
  intros [[Hw _] | (r & req & loc & dat & _ & Hid & Ho & _ & line & He)];
    [now left|right].
  split; [exists (mkResponse dat true ""); now split|].
  exists req. split; [exact Hid|].
  unfold published at 1. rewrite He, published_app. simpl.
  now destruct (debug (mgr w)).
Qed.

(** X22: the dispatching handlers are all or nothing.  A call of
    [navigate], [stop] or [start_activity], whatever its arguments and
    whatever the state of the manager, either leaves the world exactly
    as it was -- no record changed, nothing published or printed --
    or returns a successful response and has published exactly one
    message, a path request whose id is the decimal text of the
    caller's command id.  A call that raises or answers failure has
    therefore not sent anything. *)
Theorem X22_dispatching_handlers_are_all_or_nothing
    (w : World) (rn : string) :
  (forall cmd dest now,
     after (navigate rn cmd dest now) w = w
     \/ went_through w cmd (result (navigate rn cmd dest now) w)
                     (after (navigate rn cmd dest now) w)) /\
  (forall running cmd,
     after (stop rn running cmd) w = w
     \/ went_through w cmd (result (stop rn running cmd) w)
                     (after (stop rn running cmd) w)) /\
  (forall cmd request,
     after (start_activity rn cmd request) w = w
     \/ went_through w cmd (result (start_activity rn cmd request) w)
                     (after (start_activity rn cmd request) w)).
Proof.
  split; [|split].
  - intros cmd dest now.
    apply (dispatched_went_through _ rn), navigate_cases.
  - intros a b.
    destruct (stop_cases w rn a b) as [[Hw _] | (r & req & Hr & _)];
      [now left|].
    destruct (state r) as [s|] eqn:Hs.
    + right. unfold result, after. rewrite (stop_run _ _ _ _ _ _ Hr Hs).
      simpl. split; [eexists; split; reflexivity|].
      exists (stop_request (mgr w) rn s b). split; [reflexivity|].
      unfold published at 1. simpl. rewrite published_app. simpl.
      now destruct (debug (mgr w)).
    + left. unfold after. now rewrite (stop_unreported _ _ _ _ _ Hr Hs).
  - intros cmd request.
    apply (dispatched_went_through _ rn), start_activity_cases.
Qed.

(** ** Dock summaries, in general *)

Lemma run_keeps_no_docks es : forall w,
  docks (mgr w) = None -> docks (mgr (run es w)) = None.
Proof.
  unfold run. induction es as [|e rest IH]; intros w H0; simpl; auto.
  apply IH. now apply step_keeps_no_docks.
Qed.

Lemma run_fleet_name es : forall w,
  fleet_name (mgr (run es w)) = fleet_name (mgr w).
Proof.
  unfold run. induction es as [|e rest IH]; intros w; simpl; auto.
  rewrite IH. pose proof (step_configuration w e) as Hc.
  unfold configuration in Hc. congruence.
Qed.

Lemma init_fleet_name config fm :
  FleetManager_init config = Return fm -> fleet_name fm = cfg_name config.
Proof.
  unfold FleetManager_init.
  destruct (match cfg_reference_offset config with
            | Some (a :: b :: _) => (true, (a, b))
            | _ => (false, (PyFloat.zero, PyFloat.zero))
            end) as [g off].
  destruct (negb _); [discriminate|]. now intros [= <-].
Qed.

(** X23: the dock table never comes into being.  After any history
    from construction the manager still has no dock table, and a dock
    summary is handled in one of two ways, neither of which changes
    the world: it raises [AttributeError] if it holds an entry for the
    configured fleet name with at least one dock, and it returns
    otherwise.  No dock is ever stored. *)
Theorem X23_the_dock_table_never_exists
    (config : Config) (fm : FleetManager) (es : list Event)
    (msg : DockSummary) :
  FleetManager_init config = Return fm ->
  docks (mgr (run es (world0 fm))) = None /\
  dock_summary_cb msg (run es (world0 fm))
  = (if has_own_dock (cfg_name config) msg
     then Raise AttributeError else Return tt,
     run es (world0 fm)).
Proof.
  intros Hinit.
  assert (Hd : docks (mgr (run es (world0 fm))) = None).
  { apply run_keeps_no_docks. simpl. exact (init_has_no_docks _ _ Hinit). }
  split; [exact Hd|].
  rewrite (dock_summary_cb_without_table _ _ Hd), run_fleet_name. simpl.
  now rewrite (init_fleet_name _ _ Hinit).
Qed.

(** X23 at the sample fleet, after a report and a dispatch: a summary
    with one dock of this fleet. *)
Lemma X23_the_dock_table_never_exists_witness :
  result (dock_summary_cb
            (mkDockSummary
               [mkDock "tinyRobot"
                  [mkDockParameter "charger_1" "charger_1_exit"
                                   [Sample.loc 1 2 0]]]))
         (run [Report (Sample.report "tinyRobot1" "" MODE_IDLE
                                     (Sample.loc 1 2 0));
               Navigate "tinyRobot1" 5 (Sample.goal 4 6 0) Sample.noon]
              (world0 Sample.fm0))
  = Raise AttributeError.
Proof.
  assert (Hinit : FleetManager_init Sample.config = Return Sample.fm0)
    by (vm_compute; reflexivity).
  unfold result.
  now rewrite (proj2 (X23_the_dock_table_never_exists
                        Sample.config Sample.fm0 _ _ Hinit)).
Defined.

(** ** How navigate fails *)

(** X24: the failures of [navigate] for a robot of the roster, in the
    order the handler meets them.  A body without destination raises
    [TypeError]; an empty destination gets the unsuccessful response;
    a non-empty destination lacking x, y or yaw raises [KeyError];
    with all three present, a robot that has not reported yet raises
    [AttributeError]; and for a robot that has reported, a nominal
    linear velocity of zero raises [ZeroDivisionError] as soon as the
    distance to the target can be computed. *)
Theorem X24_how_navigate_fails
    (w : World) (rn : string) (cmd : Z) (dest : Request) (now : Time)
    (r : State) :
  robot_of w rn = Some r ->
  (destination_of dest = None ->
   result (navigate rn cmd dest now) w = Raise TypeError) /\
  (destination_of dest = Some [] ->
   result (navigate rn cmd dest now) w = Return failure) /\
  (forall d,
     destination_of dest = Some d -> d <> [] ->
     dict_get d "x" = None \/ dict_get d "y" = None
     \/ dict_get d "yaw" = None ->
     result (navigate rn cmd dest now) w = Raise KeyError) /\
  (forall d tx ty tyaw,
     destination_of dest = Some d ->
     dict_get d "x" = Some tx -> dict_get d "y" = Some ty ->
     dict_get d "yaw" = Some tyaw ->
     (state r = None ->
      result (navigate rn cmd dest now) w = Raise AttributeError) /\
     (forall s dsp,
        state r = Some s ->
        disp_value (PyFloat.sub tx (fst (offset (mgr w))),
                    PyFloat.sub ty (snd (offset (mgr w))))
                   (x (location s), y (location s)) = Return dsp ->
        PyFloat.is_zero (nominal_velocity (linear (vehicle_traits (mgr w))))
        = true ->
        result (navigate rn cmd dest now) w = Raise ZeroDivisionError)).
Proof.
  intros Hr. unfold result. rewrite (navigate_run _ _ _ _ _ _ Hr).
  unfold navigate_plan.
  split; [|split; [|split]].
  - now intros ->.
  - now intros ->.
  - intros d -> Hne Hmiss.
    destruct d as [|p d']; [congruence|].
    replace (Z.of_nat (List.length (p :: d')) <? 1) with false
      by (symmetry; apply Z.ltb_ge; simpl List.length; lia).
    unfold oget, obind.
    destruct (dict_get (p :: d') "x") as [tx|]; [|reflexivity].
    destruct (dict_get (p :: d') "y") as [ty|]; [|reflexivity].
    destruct (dict_get (p :: d') "yaw") as [tyaw|]; [|reflexivity].
    exfalso. destruct Hmiss as [H|[H|H]]; discriminate.
  - intros d tx ty tyaw -> Hx Hy Hyaw.
    destruct d as [|p d']; [discriminate Hx|].
    replace (Z.of_nat (List.length (p :: d')) <? 1) with false
      by (symmetry; apply Z.ltb_ge; simpl List.length; lia).
    unfold oget. rewrite Hx, Hy, Hyaw. cbv beta iota delta [obind].
    split.
    + now intros ->.
    + intros s dsp -> Hdsp Hz. cbv beta iota.
      unfold navigate_duration. rewrite Hdsp. cbv beta iota delta [obind].
      unfold PyFloat.truediv at 1. now rewrite Hz.
Qed.

(** X24 at the sample fleet: tinyRobot2 has not reported yet. *)
Lemma X24_how_navigate_fails_witness :
  result (navigate "tinyRobot2" 7 (Sample.goal 4 6 0) Sample.noon)
         Sample.w_reported = Raise AttributeError.
Proof.
  assert (Hr : robot_of Sample.w_reported "tinyRobot2"
               = Some (Sample.record Sample.w_reported "tinyRobot2"))
    by (vm_compute; reflexivity).
  exact (proj1 (proj2 (proj2 (proj2
           (X24_how_navigate_fails Sample.w_reported "tinyRobot2" 7
              (Sample.goal 4 6 0) Sample.noon _ Hr)))
           _ (Sample.F 4) (Sample.F 6) (Sample.F 0)
           eq_refl eq_refl eq_refl eq_refl) eq_refl).
Defined.
